(** * Vehicle dynamics and tire-force model of racecar-physics-sim

    A shallow embedding of the physics core of the simulator
    ([Physics/TireModel.js], [Physics/WeightTransfer.js],
    [Physics/VehicleDynamics.js], the vehicle archetypes and
    [PHYSICS_CONFIG]), of the fixed-step accumulator of
    [Core/PhysicsEngine.js], of [Core/InputManager.js] and of the setup
    methods of [RacingSimulation.js], together with the properties its
    specification states about it and further properties of the code.

    Number model.  JavaScript numbers are read as real numbers: the
    arithmetic of the source is the arithmetic of [R], and [Math.max],
    [Math.min], [Math.abs], [Math.sqrt], [Math.sin], [Math.atan] are
    their real counterparts.  Rounding, [NaN] and the infinities are not
    represented.  A quotient keeps the value [R] gives it; statements
    that depend on the value of a quotient carry the hypotheses that make
    its denominator non-zero.  The tire model, whose guards exist to keep
    denominators away from zero, records every denominator it divides by.
    A computation that throws, or that reads [undefined] out of an array
    and would continue with [NaN], returns [None].  The fixed-step
    accumulator of the physics engine alone is modelled on binary64
    numbers.

    Objects.  Configuration objects and the vehicle state are records
    with the field names of the source; methods take the instance [this]
    and those that assign to [this.state] return the new instance. *)

From Stdlib Require Floats.
From Stdlib Require Import Reals Lra Lia List Bool String.
Import ListNotations.

Open Scope R_scope.

(** ** Comparisons and the [Math] functions *)

Definition Rltb (a b : R) : bool := if Rlt_dec a b then true else false.
Definition Rleb (a b : R) : bool := if Rle_dec a b then true else false.
Definition Reqb (a b : R) : bool := if Req_dec_T a b then true else false.

Notation "a <? b" := (Rltb a b) (at level 70, no associativity) : R_scope.
Notation "a <=? b" := (Rleb a b) (at level 70, no associativity) : R_scope.
Notation "a >? b" := (Rltb b a) (at level 70, no associativity) : R_scope.
Notation "a >=? b" := (Rleb b a) (at level 70, no associativity) : R_scope.
Notation "a =? b" := (Reqb a b) (at level 70, no associativity) : R_scope.

Module Math.

Definition max (a b : R) : R := Rmax a b.
Definition min (a b : R) : R := Rmin a b.
Definition abs (a : R) : R := Rabs a.

(** [Math.pow] for the arguments the model meets: a positive base, any
    base squared, and base zero with a positive exponent (which
    JavaScript evaluates to 0).  A negative base with a fractional
    exponent is [NaN] in JavaScript and base zero with a non-positive
    exponent is 1 or [Infinity]; both lie outside the number model and
    are given the value 0 here. *)
Definition pow (base exponent : R) : R :=
  if 0 <? base then Rpower base exponent
  else if exponent =? 2 then base * base
  else 0.

(** [Math.atan2 y x], by quadrant. *)
Definition atan2 (y x : R) : R :=
  if 0 <? x then atan (y / x)
  else if x <? 0 then
    (if 0 <=? y then atan (y / x) + PI else atan (y / x) - PI)
  else if 0 <? y then PI / 2
  else if y <? 0 then - (PI / 2)
  else 0.

Definition sign (a : R) : R :=
  if 0 <? a then 1 else if a <? 0 then -1 else 0.

End Math.

(** ** Divisions with their denominators

    A traced computation returns its value together with the divisions
    it executed, each as the name of the constant the quotient defines in
    the source and the denominator it was divided by. *)

Definition Traced (A : Type) : Type := (A * list (string * R))%type.

Definition ret {A : Type} (a : A) : Traced A := (a, []).

Definition bind {A B : Type} (m : Traced A) (k : A -> Traced B) : Traced B :=
  let (b, t) := k (fst m) in (b, snd m ++ t).

Definition div (name : string) (num den : R) : Traced R :=
  (num / den, [(name, den)]).

Definition value {A : Type} (m : Traced A) : A := fst m.
Definition divisions {A : Type} (m : Traced A) : list (string * R) := snd m.

Notation "x <- m ;; k" := (bind m (fun x => k))
  (at level 61, m at next level, right associativity).

(** ** PHYSICS_CONFIG *)

Module PHYSICS_CONFIG.
Definition gravity : R := 9.81.
Definition timeStep : R := 1 / 60.
Definition maxSubSteps : nat := 3.
Definition airDensity : R := 1.225.
Definition rollingResistance : R := 0.015.
Record TireOptimalTemp : Type := mkTireOptimalTemp { street : R; racing : R }.
Definition tireOptimalTemp : TireOptimalTemp :=
  {| street := 50; racing := 100 |}.
End PHYSICS_CONFIG.

(** ** Vehicle configuration *)

Record FrontRear : Type := mkFrontRear { front : R; rear : R }.

Record Pacejka : Type := mkPacejka { B : R; C : R; D : R; E : R }.

Record TireConfig : Type := mkTireConfig {
  radius : R;
  width : R;
  peakMu : R;
  loadSensitivity : R;
  pacejka : Pacejka
}.

Module TorquePoint.
Record t : Type := mk { rpm : R; torque : R }.
End TorquePoint.

(** The fields read only under the presence test on
    [downforceCoefficient] ([downforceBalance], [groundEffectMultiplier]
    and [drs.downforceReduction]) are grouped with it: an archetype
    either has all of them (race) or none (street). *)
Record Downforce : Type := mkDownforce {
  downforceCoefficient : FrontRear;
  downforceBalance : R;
  groundEffectMultiplier : R;
  drs_downforceReduction : R
}.

Record VehicleConfig : Type := mkVehicleConfig {
  mass : R;
  wheelbase : R;
  trackWidth : FrontRear;
  cgHeight : R;
  weightDistribution : FrontRear;
  springRate : FrontRear;
  tire : TireConfig;
  torqueCurve : list TorquePoint.t;
  maxRPM : R;
  idleRPM : R;
  gearRatios : list R;
  finalDrive : R;
  dragCoefficient : R;
  frontalArea : R;
  downforce : option Downforce;
  brakeForce : FrontRear
}.

Definition RX8_CONFIG : VehicleConfig := {|
  mass := 1390;
  wheelbase := 2.700;
  trackWidth := {| front := 1.500; rear := 1.505 |};
  cgHeight := 0.450;
  weightDistribution := {| front := 0.50; rear := 0.50 |};
  springRate := {| front := 27500; rear := 20000 |};
  tire := {| radius := 0.323; width := 0.245; peakMu := 1.15;
             loadSensitivity := 0.8;
             pacejka := {| B := 10; C := 1.5; D := 1.15; E := 0.97 |} |};
  torqueCurve := [ TorquePoint.mk 3000 200; TorquePoint.mk 5500 216;
                   TorquePoint.mk 8500 180; TorquePoint.mk 9000 160 ];
  maxRPM := 9000;
  idleRPM := 850;
  gearRatios := [3.815; 2.260; 1.640; 1.177; 1.000; 0.832];
  finalDrive := 4.444;
  dragCoefficient := 0.31;
  frontalArea := 2.0;
  downforce := None;
  brakeForce := {| front := 3500; rear := 2000 |}
|}.

Definition F1_CONFIG : VehicleConfig := {|
  mass := 798;
  wheelbase := 3.600;
  trackWidth := {| front := 2.000; rear := 2.000 |};
  cgHeight := 0.280;
  weightDistribution := {| front := 0.455; rear := 0.545 |};
  springRate := {| front := 200000; rear := 150000 |};
  tire := {| radius := 0.330; width := 0.305; peakMu := 1.8;
             loadSensitivity := 0.7;
             pacejka := {| B := 12; C := 1.8; D := 1.8; E := 0.95 |} |};
  torqueCurve := [ TorquePoint.mk 8000 500; TorquePoint.mk 10000 650;
                   TorquePoint.mk 12000 700; TorquePoint.mk 15000 600 ];
  maxRPM := 15000;
  idleRPM := 4000;
  gearRatios := [3.500; 2.618; 2.150; 1.778; 1.500; 1.267; 1.050; 0.850];
  finalDrive := 3.900;
  dragCoefficient := 0.7;
  frontalArea := 1.5;
  downforce := Some {| downforceCoefficient := {| front := 1.5; rear := 2.0 |};
                       downforceBalance := 0.4;
                       groundEffectMultiplier := 1.5;
                       drs_downforceReduction := 0.25 |};
  brakeForce := {| front := 12000; rear := 8000 |}
|}.

(** ** TireModel *)

Module TireModel.

(** Fields set by the constructor and never written again. *)
Definition heatGenerationRate : R := 0.5.
Definition coolingRate : R := 0.1.
Definition ambientTemp : R := 20.

(** Pacejka Magic Formula. *)
Definition calculateForce (slip load : R) (tireConfig : TireConfig)
  : Traced R :=
  normalizedLoad <- div "normalizedLoad" load (9.81 * 250) ;;
  let loadFactor := Math.pow normalizedLoad tireConfig.(loadSensitivity) in
  let B := tireConfig.(pacejka).(B) in
  let C := tireConfig.(pacejka).(C) in
  let D := tireConfig.(pacejka).(D) * load * loadFactor in
  let E := tireConfig.(pacejka).(E) in
  let Bx := B * slip in
  let y := D * sin (C * atan (Bx - E * (Bx - atan Bx))) in
  ret y.

(** The object returned by [calculateCombinedForce]; the early return
    carries neither [combinedSlip] nor [utilizationRatio]. *)
Record CombinedForce : Type := mkCombinedForce {
  lateral : R;
  longitudinal : R;
  combinedSlip : option R;
  utilizationRatio : option R
}.

(** Combined slip (friction circle). *)
Definition calculateCombinedForce
  (slipLateral slipLongitudinal load : R) (tireConfig : TireConfig)
  : Traced CombinedForce :=
  let maxForce := load * tireConfig.(peakMu) in
  let combinedSlip :=
    sqrt (slipLateral * slipLateral + slipLongitudinal * slipLongitudinal) in
  if combinedSlip <? 0.001 then
    ret {| lateral := 0; longitudinal := 0;
           combinedSlip := None; utilizationRatio := None |}
  else
    totalForce <- calculateForce combinedSlip load tireConfig ;;
    ratio <- div "ratio" totalForce combinedSlip ;;
    utilization <- div "utilizationRatio" totalForce maxForce ;;
    ret {| lateral := slipLateral * ratio;
           longitudinal := slipLongitudinal * ratio;
           combinedSlip := Some combinedSlip;
           utilizationRatio := Some utilization |}.

(** Slip angle from velocities. *)
Definition calculateSlipAngle
  (lateralVelocity longitudinalVelocity steeringAngle : R) : R :=
  if Math.abs longitudinalVelocity <? 0.1 then 0
  else
    let slipAngle :=
      Math.atan2 lateralVelocity (Math.abs longitudinalVelocity)
      - steeringAngle in
    Math.max (- PI / 2) (Math.min (PI / 2) slipAngle).

(** Slip ratio from wheel and vehicle speeds. *)
Definition calculateSlipRatio
  (wheelAngularVelocity vehicleVelocity wheelRadius : R) (isBraking : bool)
  : Traced R :=
  let wheelLinearVelocity := wheelAngularVelocity * wheelRadius in
  if (Math.abs vehicleVelocity <? 0.1)
     && (Math.abs wheelLinearVelocity <? 0.1) then ret 0
  else
    slipRatio <-
      (if isBraking || (wheelLinearVelocity <? vehicleVelocity) then
         if Math.abs vehicleVelocity <? 0.1 then ret (-1)
         else div "slipRatio" (wheelLinearVelocity - vehicleVelocity)
                  (Math.abs vehicleVelocity)
       else
         if Math.abs wheelLinearVelocity <? 0.1 then ret 0
         else div "slipRatio" (wheelLinearVelocity - vehicleVelocity)
                  (Math.abs wheelLinearVelocity)) ;;
    ret (Math.max (-1) (Math.min 1 slipRatio)).

(** Tire temperature change. *)
Definition updateTireTemperature
  (currentTemp slip load speed deltaTime : R) : R :=
  let slipMagnitude := Math.abs slip in
  let heatGeneration :=
    slipMagnitude * load * speed * heatGenerationRate * 0.0001 in
  let coolingFactor := 1 + speed * 0.01 in
  let cooling :=
    (currentTemp - ambientTemp) * coolingRate * coolingFactor * deltaTime in
  let newTemp := currentTemp + (heatGeneration - cooling) * deltaTime in
  Math.max ambientTemp (Math.min 150 newTemp).

(** Temperature effect on grip. *)
Definition calculateTemperatureEffect
  (currentTemp optimalTemp tempRange : R) : R :=
  let tempDiff := Math.abs (currentTemp - optimalTemp) in
  let effect := Math.max 0.7 (1.0 - Math.pow (tempDiff / tempRange) 2) in
  effect.

(** Grip level from all factors.  No tire object of the repository has a
    [type] field, so [tireConfig.type || 'street'] is ['street']; the
    default [tempRange] of [calculateTemperatureEffect] is 30. *)
Definition getGripLevel
  (load temperature : R) (tireConfig : TireConfig) (wearLevel : R) : R :=
  let grip := tireConfig.(peakMu) in
  let tempEffect :=
    calculateTemperatureEffect temperature
      PHYSICS_CONFIG.tireOptimalTemp.(PHYSICS_CONFIG.street) 30 in
  let grip := grip * tempEffect in
  let grip := grip * (1 - wearLevel * 0.3) in
  let normalizedLoad := load / (9.81 * 250) in
  let loadEffect := Math.pow normalizedLoad tireConfig.(loadSensitivity) in
  let grip := grip * loadEffect in
  grip.

(** Points of the friction ellipse, [i = 0 .. resolution]. *)
Module Point.
Record t : Type := mk { x : R; y : R }.
End Point.

Definition getFrictionCirclePoints
  (maxLateralForce maxLongitudinalForce : R) (resolution : nat)
  : list Point.t :=
  map (fun i : nat =>
         let angle := (INR i / INR resolution) * PI * 2 in
         let x := cos angle * maxLateralForce in
         let y := sin angle * maxLongitudinalForce in
         Point.mk x y)
      (seq 0 (S resolution)).

(** Current force utilization. *)
Module Utilization.
Record t : Type := mk {
  magnitude : R;
  angle : R;
  utilization : R;
  lateral : R;
  longitudinal : R
}.
End Utilization.

Definition getForceUtilization
  (lateralForce longitudinalForce maxForce : R) : Utilization.t :=
  let totalForce :=
    sqrt (lateralForce * lateralForce
          + longitudinalForce * longitudinalForce) in
  {| Utilization.magnitude := totalForce;
     Utilization.angle := Math.atan2 lateralForce longitudinalForce;
     Utilization.utilization := totalForce / maxForce;
     Utilization.lateral := lateralForce / maxForce;
     Utilization.longitudinal := longitudinalForce / maxForce |}.

End TireModel.

(** ** WeightTransfer *)

Module WeightTransfer.

Import PHYSICS_CONFIG.

(** The [weights] object, keys [FL], [FR], [RL], [RR]. *)
Record Weights : Type := mkWeights { FL : R; FR : R; RL : R; RR : R }.

(** Effect of body roll on weight distribution. *)
Definition calculateRollEffect (vehicle : VehicleConfig) (rollAngle : R)
  : Weights :=
  let totalWeight := vehicle.(mass) * gravity in
  let rollMoment := totalWeight * vehicle.(cgHeight) * sin rollAngle in
  let frontRollStiffness :=
    vehicle.(springRate).(front)
    * Math.pow (vehicle.(trackWidth).(front) / 2) 2 in
  let rearRollStiffness :=
    vehicle.(springRate).(rear)
    * Math.pow (vehicle.(trackWidth).(rear) / 2) 2 in
  let totalRollStiffness := frontRollStiffness + rearRollStiffness in
  let frontRollTransfer :=
    (rollMoment * frontRollStiffness / totalRollStiffness)
    / vehicle.(trackWidth).(front) in
  let rearRollTransfer :=
    (rollMoment * rearRollStiffness / totalRollStiffness)
    / vehicle.(trackWidth).(rear) in
  {| FL := - frontRollTransfer; FR := frontRollTransfer;
     RL := - rearRollTransfer; RR := rearRollTransfer |}.

(** Effect of body pitch on weight distribution. *)
Definition calculatePitchEffect (vehicle : VehicleConfig) (pitchAngle : R)
  : FrontRear :=
  let totalWeight := vehicle.(mass) * gravity in
  let pitchMoment := totalWeight * vehicle.(cgHeight) * sin pitchAngle in
  let pitchTransfer := pitchMoment / vehicle.(wheelbase) in
  {| front := - pitchTransfer / 2; rear := pitchTransfer / 2 |}.

(** [calculateCombined] up to, and without, its final loop: the
    [weights] object after the roll and pitch contributions. *)
Definition combinedBeforeClamp
  (vehicle : VehicleConfig) (lateralG longitudinalG rollAngle pitchAngle : R)
  : Weights :=
  let totalWeight := vehicle.(mass) * gravity in
  let latTransferFront :=
    (totalWeight * vehicle.(weightDistribution).(front) * lateralG
     * vehicle.(cgHeight)) / vehicle.(trackWidth).(front) in
  let latTransferRear :=
    (totalWeight * vehicle.(weightDistribution).(rear) * lateralG
     * vehicle.(cgHeight)) / vehicle.(trackWidth).(rear) in
  let longTransfer :=
    (totalWeight * longitudinalG * vehicle.(cgHeight))
    / vehicle.(wheelbase) in
  let staticFront := totalWeight * vehicle.(weightDistribution).(front) in
  let staticRear := totalWeight * vehicle.(weightDistribution).(rear) in
  let dynamicFront := staticFront - longTransfer in
  let dynamicRear := staticRear + longTransfer in
  let weights :=
    {| FL := (dynamicFront / 2) - latTransferFront;
       FR := (dynamicFront / 2) + latTransferFront;
       RL := (dynamicRear / 2) - latTransferRear;
       RR := (dynamicRear / 2) + latTransferRear |} in
  let weights :=
    if rollAngle =? 0 then weights
    else
      let rollEffect := calculateRollEffect vehicle rollAngle in
      {| FL := weights.(FL) + rollEffect.(FL);
         FR := weights.(FR) + rollEffect.(FR);
         RL := weights.(RL) + rollEffect.(RL);
         RR := weights.(RR) + rollEffect.(RR) |} in
  let weights :=
    if pitchAngle =? 0 then weights
    else
      let pitchEffect := calculatePitchEffect vehicle pitchAngle in
      {| FL := weights.(FL) + pitchEffect.(front);
         FR := weights.(FR) + pitchEffect.(front);
         RL := weights.(RL) + pitchEffect.(rear);
         RR := weights.(RR) + pitchEffect.(rear) |} in
  weights.

(** The final loop: [weights[key] = Math.max(0, weights[key])]. *)
Definition clampWeights (weights : Weights) : Weights :=
  {| FL := Math.max 0 weights.(FL); FR := Math.max 0 weights.(FR);
     RL := Math.max 0 weights.(RL); RR := Math.max 0 weights.(RR) |}.

(** Combined weight transfer for all four wheels. *)
Definition calculateCombined
  (vehicle : VehicleConfig) (lateralG longitudinalG rollAngle pitchAngle : R)
  : Weights :=
  clampWeights
    (combinedBeforeClamp vehicle lateralG longitudinalG rollAngle pitchAngle).

(** Lateral weight transfer during cornering.  [givenTrackWidth] is the
    parameter [trackWidth], [None] for its default [null]; like [null], 0
    is falsy and selects the average track width. *)
Module Lateral.
Record t : Type := mk {
  frontLeft : R;
  frontRight : R;
  rearLeft : R;
  rearRight : R;
  totalTransfer : R
}.
End Lateral.

Definition calculateLateral
  (vehicle : VehicleConfig) (lateralG : R) (givenTrackWidth : option R)
  : Lateral.t :=
  let totalWeight := vehicle.(mass) * gravity in
  let average :=
    (vehicle.(trackWidth).(front) + vehicle.(trackWidth).(rear)) / 2 in
  let avgTrackWidth :=
    match givenTrackWidth with
    | Some given => if given =? 0 then average else given
    | None => average
    end in
  let transfer :=
    (totalWeight * lateralG * vehicle.(cgHeight)) / avgTrackWidth in
  let frontWeight := totalWeight * vehicle.(weightDistribution).(front) in
  let rearWeight := totalWeight * vehicle.(weightDistribution).(rear) in
  {| Lateral.frontLeft :=
       (frontWeight / 2) - (transfer * vehicle.(weightDistribution).(front));
     Lateral.frontRight :=
       (frontWeight / 2) + (transfer * vehicle.(weightDistribution).(front));
     Lateral.rearLeft :=
       (rearWeight / 2) - (transfer * vehicle.(weightDistribution).(rear));
     Lateral.rearRight :=
       (rearWeight / 2) + (transfer * vehicle.(weightDistribution).(rear));
     Lateral.totalTransfer := Math.abs transfer |}.

(** Longitudinal weight transfer during braking and acceleration. *)
Module Longitudinal.
Record t : Type := mk {
  frontAxle : R;
  rearAxle : R;
  totalTransfer : R
}.
End Longitudinal.

Definition calculateLongitudinal (vehicle : VehicleConfig) (longitudinalG : R)
  : Longitudinal.t :=
  let totalWeight := vehicle.(mass) * gravity in
  let transfer :=
    (totalWeight * longitudinalG * vehicle.(cgHeight))
    / vehicle.(wheelbase) in
  {| Longitudinal.frontAxle :=
       (totalWeight * vehicle.(weightDistribution).(front)) - transfer;
     Longitudinal.rearAxle :=
       (totalWeight * vehicle.(weightDistribution).(rear)) + transfer;
     Longitudinal.totalTransfer := Math.abs transfer |}.

(** The damping filter.  [dampingFactor] is set by the constructor and
    never written again; [previousWeights] is the filter's state, created
    as all zeros.  A stored value of 0 is falsy, so
    [this.previousWeights[key] || current] is then [current]. *)
Definition dampingFactor : R := 0.8.

Definition initialPreviousWeights : Weights :=
  {| FL := 0; FR := 0; RL := 0; RR := 0 |}.

Definition dampKey (previousWeight current deltaTime : R) : R :=
  let previous := if previousWeight =? 0 then current else previousWeight in
  let rate := Math.min 1 (deltaTime * 10) in
  previous + (current - previous) * rate * dampingFactor.

(** Returns [damped]; the new [this.previousWeights] holds the same four
    values. *)
Definition applyDamping
  (previousWeights currentWeights : Weights) (deltaTime : R) : Weights :=
  {| FL := dampKey previousWeights.(FL) currentWeights.(FL) deltaTime;
     FR := dampKey previousWeights.(FR) currentWeights.(FR) deltaTime;
     RL := dampKey previousWeights.(RL) currentWeights.(RL) deltaTime;
     RR := dampKey previousWeights.(RR) currentWeights.(RR) deltaTime |}.

(** Weight transfer during trail braking; [calculateCombined] is called
    with its default roll and pitch angles, 0. *)
Definition calculateTrailBraking
  (vehicle : VehicleConfig) (brakeForce lateralG speed : R) : Weights :=
  let brakingG := brakeForce / (vehicle.(mass) * gravity) in
  let weights := calculateCombined vehicle lateralG (- brakingG) 0 0 in
  let trailEffect := Math.min 0.15 (speed / 100) * brakeForce * 0.001 in
  if lateralG >? 0 then
    {| FL := weights.(FL) - trailEffect * 0.3;
       FR := weights.(FR) + trailEffect;
       RL := weights.(RL); RR := weights.(RR) |}
  else
    {| FL := weights.(FL) + trailEffect;
       FR := weights.(FR) - trailEffect * 0.3;
       RL := weights.(RL); RR := weights.(RR) |}.

(** Anti-roll bar effect: the field [additionalTransfer] of the result. *)
Definition calculateAntiRollEffect
  (vehicle : VehicleConfig) (lateralG antiRollStiffness : R) : R :=
  let rollMoment := vehicle.(mass) * gravity * lateralG * vehicle.(cgHeight) in
  let antiRollForce := rollMoment * antiRollStiffness in
  antiRollForce
  / ((vehicle.(trackWidth).(front) + vehicle.(trackWidth).(rear)) / 2).

(** Weight distribution percentages. *)
Module Percentages.
Record t : Type := mk {
  FL : R; FR : R; RL : R; RR : R;
  frontTotal : R; rearTotal : R; leftTotal : R; rightTotal : R
}.
End Percentages.

Definition getDistributionPercentages (weights : Weights) : Percentages.t :=
  let total := weights.(FL) + weights.(FR) + weights.(RL) + weights.(RR) in
  {| Percentages.FL := (weights.(FL) / total) * 100;
     Percentages.FR := (weights.(FR) / total) * 100;
     Percentages.RL := (weights.(RL) / total) * 100;
     Percentages.RR := (weights.(RR) / total) * 100;
     Percentages.frontTotal := ((weights.(FL) + weights.(FR)) / total) * 100;
     Percentages.rearTotal := ((weights.(RL) + weights.(RR)) / total) * 100;
     Percentages.leftTotal := ((weights.(FL) + weights.(RL)) / total) * 100;
     Percentages.rightTotal := ((weights.(FR) + weights.(RR)) / total) * 100
  |}.

(** Center of gravity shift. *)
Module CGShift.
Record t : Type := mk { lateral : R; longitudinal : R; vertical : R }.
End CGShift.

Definition calculateCGShift
  (vehicle : VehicleConfig) (lateralG longitudinalG : R) : CGShift.t :=
  let rollAngle :=
    atan (lateralG * vehicle.(cgHeight)
          / (vehicle.(trackWidth).(front) / 2)) in
  let pitchAngle :=
    atan (longitudinalG * vehicle.(cgHeight) / (vehicle.(wheelbase) / 2)) in
  {| CGShift.lateral := vehicle.(cgHeight) * sin rollAngle;
     CGShift.longitudinal := vehicle.(cgHeight) * sin pitchAngle;
     CGShift.vertical :=
       vehicle.(cgHeight) * (1 - cos rollAngle * cos pitchAngle) |}.

(** Weight transfer as a balance point. *)
Module BalancePoint.
Record t : Type := mk { x : R; y : R }.
End BalancePoint.

Definition getBalancePoint (weights : Weights) : BalancePoint.t :=
  let total := weights.(FL) + weights.(FR) + weights.(RL) + weights.(RR) in
  let frontBias := (weights.(FL) + weights.(FR)) / total in
  let leftBias := (weights.(FL) + weights.(RL)) / total in
  {| BalancePoint.x := (leftBias - 0.5) * 2;
     BalancePoint.y := (frontBias - 0.5) * 2 |}.

End WeightTransfer.

(** ** Rigid bodies, as the vehicle reads them

    The rigid-body engine is an external collaborator.  A body is the
    record of the accessors the vehicle reads: velocity, angular
    velocity, and the force accumulator [body.force] as [updateTelemetry]
    finds it. *)

Module Vec3.
Record t : Type := mk { x : R; y : R; z : R }.
Definition length (v : t) : R :=
  sqrt (v.(x) * v.(x) + v.(y) * v.(y) + v.(z) * v.(z)).
End Vec3.

Record Body : Type := mkBody {
  velocity : Vec3.t;
  angularVelocity : Vec3.t;
  force : Vec3.t
}.

Module Wheel.
Record t : Type := mk { body : Body }.
End Wheel.

(** ** Arrays of four, ordered FL, FR, RL, RR

    [wheels], [wheelLoads], [tireTemps] and [brakeTemps] are created with
    four entries and never resized; they are only indexed by the index a
    [forEach] over one of them supplies. *)

Module Quad.
Record t (A : Type) : Type := mk { q0 : A; q1 : A; q2 : A; q3 : A }.
Arguments mk {A} _ _ _ _.
Arguments q0 {A} _.
Arguments q1 {A} _.
Arguments q2 {A} _.
Arguments q3 {A} _.

Definition get {A : Type} (q : t A) (index : nat) : A :=
  match index with
  | O => q.(q0)
  | 1%nat => q.(q1)
  | 2%nat => q.(q2)
  | _ => q.(q3)
  end.

(** [q.map((a, index) => f(a, index))], also the shape of a [forEach]
    that writes entry [index] from entry [index] alone. *)
Definition mapi {A B : Type} (f : A -> nat -> B) (q : t A) : t B :=
  mk (f q.(q0) 0%nat) (f q.(q1) 1%nat) (f q.(q2) 2%nat) (f q.(q3) 3%nat).

Definition all {A : Type} (P : A -> Prop) (q : t A) : Prop :=
  P q.(q0) /\ P q.(q1) /\ P q.(q2) /\ P q.(q3).

Definition sequence {A : Type} (q : t (option A)) : option (t A) :=
  match q.(q0), q.(q1), q.(q2), q.(q3) with
  | Some a, Some b, Some c, Some d => Some (mk a b c d)
  | _, _, _, _ => None
  end.
End Quad.

(** [array[i]] for an integer [i]: [None] stands for [undefined]. *)
Definition lookup {A : Type} (array : list A) (i : Z) : option A :=
  if (i <? 0)%Z then None else nth_error array (Z.to_nat i).

(** ** VehicleDynamics *)

Module Controls.
Record t : Type := mk {
  throttle : R;
  brake : R;
  steeringAngle : R;
  handbrake : bool
}.
End Controls.

Module VehicleDynamics.

Import PHYSICS_CONFIG.

Record VehicleState : Type := mkState {
  rpm : R;
  gear : Z;
  speed : R;
  throttle : R;
  brake : R;
  steering : R;
  handbrake : bool;
  drsActive : bool;
  wheelLoads : Quad.t R;
  tireTemps : Quad.t R;
  brakeTemps : Quad.t R;
  lateralG : R;
  longitudinalG : R;
  yawRate : R
}.

Record Telemetry : Type := mkTelemetry {
  maxSpeed : R;
  maxLateralG : R;
  maxBrakingG : R;
  maxAccelerationG : R;
  lapTime : R;
  distance : R
}.

(** The instance: [this.config], [this.body], [this.wheels],
    [this.state], [this.telemetry]. *)
Record t : Type := mk {
  config : VehicleConfig;
  body : Body;
  wheels : Quad.t Wheel.t;
  state : VehicleState;
  telemetry : Telemetry
}.

(** Assignments to [this.state] and [this.telemetry]. *)
Definition setState (this : t) (s : VehicleState) : t :=
  mk this.(config) this.(body) this.(wheels) s this.(telemetry).

Definition setTelemetry (this : t) (tm : Telemetry) : t :=
  mk this.(config) this.(body) this.(wheels) this.(state) tm.

Definition setControls (s : VehicleState) (controls : Controls.t)
  : VehicleState :=
  mkState s.(rpm) s.(gear) s.(speed)
    controls.(Controls.throttle) controls.(Controls.brake)
    controls.(Controls.steeringAngle) controls.(Controls.handbrake)
    s.(drsActive) s.(wheelLoads) s.(tireTemps) s.(brakeTemps)
    s.(lateralG) s.(longitudinalG) s.(yawRate).

Definition setSpeed (s : VehicleState) (v : R) : VehicleState :=
  mkState s.(rpm) s.(gear) v s.(throttle) s.(brake) s.(steering)
    s.(handbrake) s.(drsActive) s.(wheelLoads) s.(tireTemps) s.(brakeTemps)
    s.(lateralG) s.(longitudinalG) s.(yawRate).

Definition setRpmGear (s : VehicleState) (r : R) (g : Z) : VehicleState :=
  mkState r g s.(speed) s.(throttle) s.(brake) s.(steering)
    s.(handbrake) s.(drsActive) s.(wheelLoads) s.(tireTemps) s.(brakeTemps)
    s.(lateralG) s.(longitudinalG) s.(yawRate).

Definition setWheelLoads (s : VehicleState) (l : Quad.t R) : VehicleState :=
  mkState s.(rpm) s.(gear) s.(speed) s.(throttle) s.(brake) s.(steering)
    s.(handbrake) s.(drsActive) l s.(tireTemps) s.(brakeTemps)
    s.(lateralG) s.(longitudinalG) s.(yawRate).

Definition setTireTemps (s : VehicleState) (temps : Quad.t R) : VehicleState :=
  mkState s.(rpm) s.(gear) s.(speed) s.(throttle) s.(brake) s.(steering)
    s.(handbrake) s.(drsActive) s.(wheelLoads) temps s.(brakeTemps)
    s.(lateralG) s.(longitudinalG) s.(yawRate).

Definition setBrakeTemps (s : VehicleState) (temps : Quad.t R) : VehicleState :=
  mkState s.(rpm) s.(gear) s.(speed) s.(throttle) s.(brake) s.(steering)
    s.(handbrake) s.(drsActive) s.(wheelLoads) s.(tireTemps) temps
    s.(lateralG) s.(longitudinalG) s.(yawRate).

Definition setG (s : VehicleState) (lat long yaw : R) : VehicleState :=
  mkState s.(rpm) s.(gear) s.(speed) s.(throttle) s.(brake) s.(steering)
    s.(handbrake) s.(drsActive) s.(wheelLoads) s.(tireTemps) s.(brakeTemps)
    lat long yaw.

(** The state the constructor builds. *)
Definition initialState (config : VehicleConfig) : VehicleState :=
  {| rpm := config.(idleRPM); gear := 1; speed := 0; throttle := 0;
     brake := 0; steering := 0; handbrake := false; drsActive := false;
     wheelLoads := Quad.mk 0 0 0 0;
     tireTemps := Quad.mk 20 20 20 20;
     brakeTemps := Quad.mk 20 20 20 20;
     lateralG := 0; longitudinalG := 0; yawRate := 0 |}.

Definition initialTelemetry : Telemetry :=
  {| maxSpeed := 0; maxLateralG := 0; maxBrakingG := 0;
     maxAccelerationG := 0; lapTime := 0; distance := 0 |}.

Definition getStaticWheelLoad (this : t) (wheelIndex : nat) : R :=
  let totalWeight := this.(config).(mass) * gravity in
  let frontWeight := totalWeight * this.(config).(weightDistribution).(front) in
  let rearWeight := totalWeight * this.(config).(weightDistribution).(rear) in
  if (wheelIndex <? 2)%nat then frontWeight / 2 else rearWeight / 2.

Definition calculateLateralWeightTransfer (this : t) : R :=
  let lateralAccel := this.(state).(lateralG) * gravity in
  let totalWeight := this.(config).(mass) * gravity in
  let avgTrackWidth :=
    (this.(config).(trackWidth).(front) + this.(config).(trackWidth).(rear))
    / 2 in
  (totalWeight * lateralAccel * this.(config).(cgHeight)) / avgTrackWidth.

Definition calculateLongitudinalWeightTransfer (this : t) : R :=
  let longAccel := this.(state).(longitudinalG) * gravity in
  let totalWeight := this.(config).(mass) * gravity in
  (totalWeight * longAccel * this.(config).(cgHeight))
  / this.(config).(wheelbase).

Definition calculateDynamicLoad (this : t) (wheelIndex : nat) : R :=
  let lateralTransfer := calculateLateralWeightTransfer this in
  let longitudinalTransfer := calculateLongitudinalWeightTransfer this in
  let dynamicLoad := 0 in
  let dynamicLoad :=
    if (wheelIndex =? 0)%nat || (wheelIndex =? 2)%nat
    then dynamicLoad - lateralTransfer
    else dynamicLoad + lateralTransfer in
  let dynamicLoad :=
    if (wheelIndex <? 2)%nat
    then dynamicLoad + longitudinalTransfer
    else dynamicLoad - longitudinalTransfer in
  dynamicLoad.

Definition calculateSlipAngle (this : t) (wheel : Wheel.t) (index : nat) : R :=
  let wheelVelocity := wheel.(Wheel.body).(velocity) in
  let lateralVel := wheelVelocity.(Vec3.x) in
  let longitudinalVel := wheelVelocity.(Vec3.z) in
  if Math.abs longitudinalVel <? 0.1 then 0
  else
    let slipAngle := atan (lateralVel / Math.abs longitudinalVel) in
    let slipAngle :=
      if (index <? 2)%nat then slipAngle - this.(state).(steering)
      else slipAngle in
    slipAngle.

Definition calculateSlipRatio (this : t) (wheel : Wheel.t) (index : nat) : R :=
  let wheelRadius := this.(config).(tire).(radius) in
  let wheelAngularVel := wheel.(Wheel.body).(angularVelocity).(Vec3.x) in
  let wheelLinearVel := wheelAngularVel * wheelRadius in
  let vehicleVel := this.(state).(speed) in
  if vehicleVel <? 0.1 then 0
  else (wheelLinearVel - vehicleVel) / vehicleVel.

Record TireForce : Type := mkTireForce {
  lateral : R;
  longitudinal : R;
  vertical : R
}.

Definition calculateTireForce
  (this : t) (slipAngle slipRatio load : R) (wheelIndex : nat) : TireForce :=
  let tire := this.(config).(tire) in
  let lateralForce := - slipAngle * load * tire.(peakMu) * 10000 in
  let longitudinalForce := - slipRatio * load * tire.(peakMu) * 10000 in
  {| lateral := lateralForce; longitudinal := longitudinalForce;
     vertical := 0 |}.

Definition calculateBrakeForce (this : t) (wheelIndex : nat) : R :=
  let maxBrakeForce :=
    if (wheelIndex <? 2)%nat then this.(config).(brakeForce).(front)
    else this.(config).(brakeForce).(rear) in
  let brakeInput := this.(state).(brake) in
  let brakeInput :=
    if this.(state).(handbrake) && (2 <=? wheelIndex)%nat
    then Math.max brakeInput 1.0
    else brakeInput in
  maxBrakeForce * brakeInput.

(** The loop of [getEngineTorque]: the first pair of neighbouring samples
    with [torqueCurve[i].rpm <= rpm <= torqueCurve[i + 1].rpm]. *)
Fixpoint findSurrounding (rpm : R) (torqueCurve : list TorquePoint.t)
  : option (TorquePoint.t * TorquePoint.t) :=
  match torqueCurve with
  | lower :: ((upper :: _) as rest) =>
      if (lower.(TorquePoint.rpm) <=? rpm) && (rpm <=? upper.(TorquePoint.rpm))
      then Some (lower, upper)
      else findSurrounding rpm rest
  | _ => None
  end.

(** Torque interpolated from the curve.  On an empty curve the source
    reads a property of [undefined] and throws: [None].  When no pair is
    found the two initial values, the first and the last sample, are
    interpolated. *)
Definition getEngineTorque (this : t) : option R :=
  let torqueCurve := this.(config).(torqueCurve) in
  let rpm := this.(state).(rpm) in
  match torqueCurve with
  | [] => None
  | first :: _ =>
      let (lowerPoint, upperPoint) :=
        match findSurrounding rpm torqueCurve with
        | Some found => found
        | None => (first, last torqueCurve first)
        end in
      let t :=
        (rpm - lowerPoint.(TorquePoint.rpm))
        / (upperPoint.(TorquePoint.rpm) - lowerPoint.(TorquePoint.rpm)) in
      Some (lowerPoint.(TorquePoint.torque)
            + t * (upperPoint.(TorquePoint.torque)
                   - lowerPoint.(TorquePoint.torque)))
  end.

(** [None] when the torque lookup throws or [gearRatios[gear - 1]] is
    [undefined] (the product is then [NaN]). *)
Definition calculateDriveForce (this : t) : option R :=
  match getEngineTorque this,
        lookup this.(config).(gearRatios) (this.(state).(gear) - 1) with
  | Some engineTorque, Some gearRatio =>
      let finalDrive := this.(config).(finalDrive) in
      let wheelRadius := this.(config).(tire).(radius) in
      let wheelTorque := engineTorque * gearRatio * finalDrive in
      let driveForce := wheelTorque / wheelRadius in
      Some (driveForce * this.(state).(throttle))
  | _, _ => None
  end.

(** One iteration of the loop of [calculateWheelForces]: the load written
    to [state.wheelLoads[index]] and the force pushed. *)
Definition wheelForce (this : t) (wheel : Wheel.t) (index : nat)
  : option (R * TireForce) :=
  let staticLoad := getStaticWheelLoad this index in
  let dynamicLoad := calculateDynamicLoad this index in
  let totalLoad := staticLoad + dynamicLoad in
  let slipAngle := calculateSlipAngle this wheel index in
  let slipRatio := calculateSlipRatio this wheel index in
  let tireForce :=
    calculateTireForce this slipAngle slipRatio totalLoad index in
  let tireForce :=
    if (this.(state).(brake) >? 0) || this.(state).(handbrake) then
      let brakeForce := calculateBrakeForce this index in
      {| lateral := tireForce.(lateral);
         longitudinal := tireForce.(longitudinal) - brakeForce;
         vertical := tireForce.(vertical) |}
    else tireForce in
  if (2 <=? index)%nat && (this.(state).(throttle) >? 0) then
    match calculateDriveForce this with
    | Some driveForce =>
        Some (totalLoad,
              {| lateral := tireForce.(lateral);
                 longitudinal := tireForce.(longitudinal) + driveForce / 2;
                 vertical := tireForce.(vertical) |})
    | None => None
    end
  else Some (totalLoad, tireForce).

Definition calculateWheelForces (this : t) (deltaTime : R)
  : option (t * Quad.t TireForce) :=
  match Quad.sequence (Quad.mapi (wheelForce this) this.(wheels)) with
  | Some results =>
      Some (setState this
              (setWheelLoads this.(state)
                 (Quad.mapi (fun r _ => fst r) results)),
            Quad.mapi (fun r _ => snd r) results)
  | None => None
  end.

Record AeroForces : Type := mkAeroForces {
  drag : R;
  frontDownforce : R;
  rearDownforce : R
}.

Definition calculateAerodynamicForces (this : t) : AeroForces :=
  let velocity := this.(body).(velocity) in
  let speed := Vec3.length velocity in
  let speedSquared := speed * speed in
  let q := 0.5 * airDensity * speedSquared in
  let dragForce :=
    q * this.(config).(dragCoefficient) * this.(config).(frontalArea) in
  match this.(config).(downforce) with
  | Some aero =>
      let totalDownforce :=
        q * (aero.(downforceCoefficient).(front)
             + aero.(downforceCoefficient).(rear))
        * this.(config).(frontalArea) in
      let groundEffect :=
        if speed >? 13.9 then aero.(groundEffectMultiplier) else 1.0 in
      let drsMultiplier :=
        if this.(state).(drsActive)
        then 1 - aero.(drs_downforceReduction) else 1 in
      {| drag := dragForce;
         frontDownforce :=
           totalDownforce * aero.(downforceBalance) * groundEffect;
         rearDownforce :=
           totalDownforce * (1 - aero.(downforceBalance)) * groundEffect
           * drsMultiplier |}
  | None =>
      {| drag := dragForce; frontDownforce := 0; rearDownforce := 0 |}
  end.

(** The automatic gear shift at the end of [updateEngine]. *)
Definition shiftGear (config : VehicleConfig) (rpm : R) (gear : Z) : Z :=
  if (rpm >? config.(maxRPM) * 0.95)
     && (gear <? Z.of_nat (List.length config.(gearRatios)))%Z
  then (gear + 1)%Z
  else if (rpm <? config.(maxRPM) * 0.5) && (gear >? 1)%Z
  then (gear - 1)%Z
  else gear.

(** [None] when [gearRatios[gear - 1]] is [undefined]: the new RPM is
    then [NaN]. *)
Definition updateEngine (this : t) (deltaTime : R) : option t :=
  let wheelRadius := this.(config).(tire).(radius) in
  let wheelRPM := (this.(state).(speed) / (2 * PI * wheelRadius)) * 60 in
  match lookup this.(config).(gearRatios) (this.(state).(gear) - 1) with
  | Some gearRatio =>
      let finalDrive := this.(config).(finalDrive) in
      let targetRPM := wheelRPM * gearRatio * finalDrive in
      let rpmDiff := targetRPM - this.(state).(rpm) in
      let rpm := this.(state).(rpm) + rpmDiff * deltaTime * 5 in
      let rpm :=
        Math.max this.(config).(idleRPM)
                 (Math.min this.(config).(maxRPM) rpm) in
      Some (setState this
              (setRpmGear this.(state) rpm
                          (shiftGear this.(config) rpm this.(state).(gear))))
  | None => None
  end.

Definition updateTelemetry (this : t) (deltaTime : R) : t :=
  let scale := 1 / this.(config).(mass) in
  let acceleration :=
    Vec3.mk (this.(body).(force).(Vec3.x) * scale)
            (this.(body).(force).(Vec3.y) * scale)
            (this.(body).(force).(Vec3.z) * scale) in
  let lateralG := acceleration.(Vec3.x) / gravity in
  let longitudinalG := acceleration.(Vec3.z) / gravity in
  let tm := this.(telemetry) in
  let s := this.(state) in
  setTelemetry
    (setState this
       (setG s lateralG longitudinalG this.(body).(angularVelocity).(Vec3.y)))
    {| maxSpeed := Math.max tm.(maxSpeed) (s.(speed) * 3.6);
       maxLateralG := Math.max tm.(maxLateralG) (Math.abs lateralG);
       maxBrakingG :=
         Math.max tm.(maxBrakingG) (Math.max 0 (- longitudinalG));
       maxAccelerationG :=
         Math.max tm.(maxAccelerationG) (Math.max 0 longitudinalG);
       lapTime := tm.(lapTime);
       distance := tm.(distance) + s.(speed) * deltaTime |}.

(** The body of the [tireTemps.forEach] of [updateTemperatures]. *)
Definition tireTempStep (this : t) (deltaTime : R) (temp : R) (index : nat)
  : R :=
  let load := Quad.get this.(state).(wheelLoads) index in
  let slip :=
    Math.abs (calculateSlipAngle this (Quad.get this.(wheels) index) index) in
  let heatGeneration := slip * load * 0.001 in
  let cooling := (temp - 20) * 0.1 * deltaTime in
  temp + heatGeneration - cooling.

(** The body of the [brakeTemps.forEach] of [updateTemperatures]. *)
Definition brakeTempStep (this : t) (deltaTime : R) (temp : R) (index : nat)
  : R :=
  let brakeForce := calculateBrakeForce this index in
  let heatGeneration := brakeForce * this.(state).(speed) * 0.00001 in
  let cooling := (temp - 20) * 0.5 * deltaTime in
  temp + heatGeneration - cooling.

Definition updateTemperatures (this : t) (deltaTime : R) : t :=
  let this :=
    setState this
      (setTireTemps this.(state)
         (Quad.mapi (tireTempStep this deltaTime) this.(state).(tireTemps))) in
  if this.(state).(brake) >? 0 then
    setState this
      (setBrakeTemps this.(state)
         (Quad.mapi (brakeTempStep this deltaTime) this.(state).(brakeTemps)))
  else this.

End VehicleDynamics.

(** ** PhysicsEngine: the fixed-step accumulator

    The accumulator is the one place of the modelled code whose outcome
    depends on rounding: it adds frame times and takes the time step
    1/60 off again, repeatedly, and compares the rest with the time
    step.  It is modelled on binary64 numbers, the numbers of
    JavaScript. *)

Module PhysicsEngine.

Import PrimFloat.

(** [PHYSICS_CONFIG.timeStep], the binary64 quotient [1/60]. *)
Definition timeStep : float := div 1%float 60%float.

(** The [while] loop of [update]: one call of [world.step] per iteration.
    The loop runs while [accumulator >= timeStep]; [fuel] bounds the
    number of iterations and [None] means it ran out. *)
Fixpoint drain (fuel : nat) (accumulator : float) (worldSteps : nat)
  : option (float * nat) :=
  match fuel with
  | O => None
  | S fuel =>
      if leb timeStep accumulator
      then drain fuel (sub accumulator timeStep) (S worldSteps)
      else Some (accumulator, worldSteps)
  end.

Record Updated : Type := mkUpdated {
  alpha : float;
  accumulator : float;
  worldSteps : nat
}.

(** [update(deltaTime)] from a given [this.accumulator]: the returned
    interpolation factor, the accumulator left, and the number of calls of
    [world.step]. *)
Definition update (fuel : nat) (accumulator deltaTime : float)
  : option Updated :=
  let accumulator := add accumulator deltaTime in
  match drain fuel accumulator 0 with
  | Some (accumulator, worldSteps) =>
      let alpha := div accumulator timeStep in
      Some {| alpha := alpha; accumulator := accumulator;
              worldSteps := worldSteps |}
  | None => None
  end.

(** A frame of one second, and a frame of 10^16 seconds. *)
Definition oneSecond : float := 1%float.
Definition hugeFrame : float := 1e16%float.

End PhysicsEngine.

(** ** InputManager *)

Module InputManager.

Record SteeringSettings : Type := mkSteeringSettings {
  sensitivity : R;
  deadzone : R;
  maxSteeringAngle : R;
  steeringSpeed : R;
  returnSpeed : R
}.

(** [this.controls]. *)
Record ControlState : Type := mkControlState {
  throttle : R;
  brake : R;
  steering : R;
  handbrake : bool;
  clutch : R;
  gearUp : bool;
  gearDown : bool;
  reset : bool;
  pause : bool;
  cameraNext : bool;
  cameraPrev : bool
}.

(** The instance.  [keys] maps a key code to whether [this.keys[code]] is
    truthy: a code never pressed is [undefined] there, hence [false].
    [gamepadIndex] is [None] for [null]. *)
Record t : Type := mk {
  keys : string -> bool;
  gamepadIndex : option nat;
  mouseDelta : R * R;
  controls : ControlState;
  steeringSettings : SteeringSettings;
  currentSteering : R
}.

(** The instance the constructor builds. *)
Definition initial : t :=
  {| keys := fun _ => false;
     gamepadIndex := None;
     mouseDelta := (0, 0);
     controls :=
       {| throttle := 0; brake := 0; steering := 0; handbrake := false;
          clutch := 0; gearUp := false; gearDown := false; reset := false;
          pause := false; cameraNext := false; cameraPrev := false |};
     steeringSettings :=
       {| sensitivity := 1.0; deadzone := 0.05; maxSteeringAngle := 35;
          steeringSpeed := 3.0; returnSpeed := 5.0 |};
     currentSteering := 0 |}.

Definition setKey (this : t) (code : string) (down : bool) : t :=
  mk (fun c => if String.eqb c code then down else this.(keys) c)
     this.(gamepadIndex) this.(mouseDelta) this.(controls)
     this.(steeringSettings) this.(currentSteering).

Definition onKeyDown (this : t) (code : string) : t := setKey this code true.
Definition onKeyUp (this : t) (code : string) : t := setKey this code false.

Definition applyDeadzone (this : t) (value : R) : R :=
  if Math.abs value <? this.(steeringSettings).(deadzone) then 0
  else
    let sign := Math.sign value in
    let magnitude := Math.abs value in
    let adjustedMagnitude :=
      (magnitude - this.(steeringSettings).(deadzone))
      / (1 - this.(steeringSettings).(deadzone)) in
    sign * adjustedMagnitude.

(** The keyboard branch of [update]. *)
Definition keyboardControls (this : t) : ControlState :=
  let keys := this.(keys) in
  let steeringInput := 0 in
  let steeringInput :=
    if keys "KeyA"%string || keys "ArrowLeft"%string then steeringInput - 1
    else steeringInput in
  let steeringInput :=
    if keys "KeyD"%string || keys "ArrowRight"%string then steeringInput + 1
    else steeringInput in
  {| throttle := if keys "KeyW"%string || keys "ArrowUp"%string then 1 else 0;
     brake := if keys "KeyS"%string || keys "ArrowDown"%string then 1 else 0;
     steering := steeringInput * this.(steeringSettings).(sensitivity);
     handbrake := keys "Space"%string;
     clutch := this.(controls).(clutch);
     gearUp := keys "KeyE"%string;
     gearDown := keys "KeyQ"%string;
     reset := keys "KeyR"%string;
     pause := keys "Escape"%string;
     cameraNext := keys "KeyC"%string;
     cameraPrev := keys "KeyV"%string |}.

Definition update (this : t) (deltaTime : R) : t :=
  let controls :=
    match this.(gamepadIndex) with
    | None => keyboardControls this
    | Some _ => this.(controls)
    end in
  let targetSteering := controls.(steering) in
  let steeringDiff := targetSteering - this.(currentSteering) in
  let currentSteering :=
    if Math.abs steeringDiff >? 0.001 then
      let speed :=
        if targetSteering =? 0
        then this.(steeringSettings).(returnSpeed)
        else this.(steeringSettings).(steeringSpeed) in
      let currentSteering :=
        this.(currentSteering) + steeringDiff * speed * deltaTime in
      Math.max (-1) (Math.min 1 currentSteering)
    else targetSteering in
  mk this.(keys) this.(gamepadIndex) (0, 0) controls
     this.(steeringSettings) currentSteering.

(** [getControls], as the vehicle reads it: of the returned object
    [VehicleDynamics.update] uses [throttle], [brake], [steeringAngle] and
    [handbrake]. *)
Definition getControls (this : t) : Controls.t :=
  {| Controls.throttle := this.(controls).(throttle);
     Controls.brake := this.(controls).(brake);
     Controls.steeringAngle :=
       this.(currentSteering) * this.(steeringSettings).(maxSteeringAngle)
       * PI / 180;
     Controls.handbrake := this.(controls).(handbrake) |}.

Definition setSteeringSensitivity (this : t) (value : R) : t :=
  let settings := this.(steeringSettings) in
  mk this.(keys) this.(gamepadIndex) this.(mouseDelta) this.(controls)
     (mkSteeringSettings (Math.max 0.1 (Math.min 2.0 value))
        settings.(deadzone) settings.(maxSteeringAngle)
        settings.(steeringSpeed) settings.(returnSpeed))
     this.(currentSteering).

End InputManager.

(** ** RacingSimulation: the setup methods that rewrite the configuration *)

Module RacingSimulation.

(** Fields of the archetypes that only these methods read:
    [maxLateralGRace] and [springRate.frontRace] / [springRate.rearRace],
    present on the street car and absent on the race car. *)
Record SetupData : Type := mkSetupData {
  maxLateralGRace : option R;
  springRateRace : option FrontRear
}.

Definition RX8_SETUP : SetupData :=
  {| maxLateralGRace := Some 1.03;
     springRateRace := Some {| front := 78800; rear := 49000 |} |}.

Definition F1_SETUP : SetupData :=
  {| maxLateralGRace := None; springRateRace := None |}.

Definition withTire (config : VehicleConfig) (tire : TireConfig)
  : VehicleConfig :=
  mkVehicleConfig config.(mass) config.(wheelbase) config.(trackWidth)
    config.(cgHeight) config.(weightDistribution) config.(springRate)
    tire config.(torqueCurve) config.(maxRPM) config.(idleRPM)
    config.(gearRatios) config.(finalDrive) config.(dragCoefficient)
    config.(frontalArea) config.(downforce) config.(brakeForce).

Definition withSpringRate (config : VehicleConfig) (rate : FrontRear)
  : VehicleConfig :=
  mkVehicleConfig config.(mass) config.(wheelbase) config.(trackWidth)
    config.(cgHeight) config.(weightDistribution) rate
    config.(tire) config.(torqueCurve) config.(maxRPM) config.(idleRPM)
    config.(gearRatios) config.(finalDrive) config.(dragCoefficient)
    config.(frontalArea) config.(downforce) config.(brakeForce).

Definition withDownforce (config : VehicleConfig) (aero : option Downforce)
  : VehicleConfig :=
  mkVehicleConfig config.(mass) config.(wheelbase) config.(trackWidth)
    config.(cgHeight) config.(weightDistribution) config.(springRate)
    config.(tire) config.(torqueCurve) config.(maxRPM) config.(idleRPM)
    config.(gearRatios) config.(finalDrive) config.(dragCoefficient)
    config.(frontalArea) aero config.(brakeForce).

Definition withPeakMu (tire : TireConfig) (mu : R) : TireConfig :=
  mkTireConfig tire.(radius) tire.(width) mu tire.(loadSensitivity)
    tire.(pacejka).

(** [setTireType(type)] on the configuration of the vehicle.  A
    [maxLateralGRace] of 0 is falsy, like an absent one. *)
Definition setTireType (setup : SetupData) (config : VehicleConfig)
  (type : string) : VehicleConfig :=
  let peakMu := config.(tire).(peakMu) in
  if String.eqb type "race"%string then
    withTire config
      (withPeakMu config.(tire)
         match setup.(maxLateralGRace) with
         | Some g => if g =? 0 then peakMu * 1.1 else g
         | None => peakMu * 1.1
         end)
  else if String.eqb type "sport"%string then
    withTire config (withPeakMu config.(tire) (peakMu * 1.05))
  else config.

(** [setSuspensionSetup(setup)].  On an archetype without racing spring
    rates the race setup assigns [undefined] to both rates: [None]. *)
Definition setSuspensionSetup (setup : SetupData) (config : VehicleConfig)
  (name : string) : option VehicleConfig :=
  if String.eqb name "race"%string then
    match setup.(springRateRace) with
    | Some rate => Some (withSpringRate config rate)
    | None => None
    end
  else if String.eqb name "sport"%string then
    Some (withSpringRate config
            {| front := config.(springRate).(front) * 1.5;
               rear := config.(springRate).(rear) * 1.5 |})
  else Some config.

(** [setDownforceLevel(level)]. *)
Definition setDownforceLevel (config : VehicleConfig) (level : R)
  : VehicleConfig :=
  match config.(downforce) with
  | Some aero =>
      let scale := level / 50 in
      withDownforce config
        (Some (mkDownforce
                 {| front := aero.(downforceCoefficient).(front) * scale;
                    rear := aero.(downforceCoefficient).(rear) * scale |}
                 aero.(downforceBalance) aero.(groundEffectMultiplier)
                 aero.(drs_downforceReduction)))
  | None => config
  end.

(** [setDRS(enabled)]: [config.drs] is present exactly on the archetype
    with downforce coefficients. *)
Definition setDRS (vehicle : VehicleDynamics.t) (enabled : bool)
  : VehicleDynamics.t :=
  match vehicle.(VehicleDynamics.config).(downforce) with
  | Some _ =>
      let s := vehicle.(VehicleDynamics.state) in
      VehicleDynamics.setState vehicle
        (VehicleDynamics.mkState s.(VehicleDynamics.rpm)
           s.(VehicleDynamics.gear) s.(VehicleDynamics.speed)
           s.(VehicleDynamics.throttle) s.(VehicleDynamics.brake)
           s.(VehicleDynamics.steering) s.(VehicleDynamics.handbrake)
           enabled s.(VehicleDynamics.wheelLoads)
           s.(VehicleDynamics.tireTemps) s.(VehicleDynamics.brakeTemps)
           s.(VehicleDynamics.lateralG) s.(VehicleDynamics.longitudinalG)
           s.(VehicleDynamics.yawRate))
  | None => vehicle
  end.

(** [calculateWeightDistribution]: the combined transfer at the
    accelerations of the state, with the default roll and pitch. *)
Definition calculateWeightDistribution (vehicle : VehicleDynamics.t)
  : WeightTransfer.Weights :=
  WeightTransfer.calculateCombined vehicle.(VehicleDynamics.config)
    vehicle.(VehicleDynamics.state).(VehicleDynamics.lateralG)
    vehicle.(VehicleDynamics.state).(VehicleDynamics.longitudinalG) 0 0.

End RacingSimulation.

(** ** Notions used in the statements and inputs of the examples *)

(** The street archetype with both axle fractions of the static
    distribution set to 0.6. *)
Definition RX8_axle_fractions_06 : VehicleConfig :=
  mkVehicleConfig RX8_CONFIG.(mass) RX8_CONFIG.(wheelbase)
    RX8_CONFIG.(trackWidth) RX8_CONFIG.(cgHeight)
    {| front := 0.6; rear := 0.6 |}
    RX8_CONFIG.(springRate) RX8_CONFIG.(tire) RX8_CONFIG.(torqueCurve)
    RX8_CONFIG.(maxRPM) RX8_CONFIG.(idleRPM) RX8_CONFIG.(gearRatios)
    RX8_CONFIG.(finalDrive) RX8_CONFIG.(dragCoefficient)
    RX8_CONFIG.(frontalArea) RX8_CONFIG.(downforce) RX8_CONFIG.(brakeForce).

(** The tire parameter sets shipped with the two archetypes. *)
Definition shippedTire (tireConfig : TireConfig) : Prop :=
  tireConfig = RX8_CONFIG.(tire) \/ tireConfig = F1_CONFIG.(tire).

(** Sum of the four wheel loads. *)
Definition totalLoad (w : WeightTransfer.Weights) : R :=
  w.(WeightTransfer.FL) + w.(WeightTransfer.FR)
  + w.(WeightTransfer.RL) + w.(WeightTransfer.RR).

(** Euclidean magnitude of the force pair of a combined force. *)
Definition forceMagnitude (f : TireModel.CombinedForce) : R :=
  sqrt (f.(TireModel.lateral) * f.(TireModel.lateral)
        + f.(TireModel.longitudinal) * f.(TireModel.longitudinal)).

(** A street car travelling at 10 m/s whose wheels spin at 100 rad/s. *)
Definition spinningWheel : Wheel.t :=
  Wheel.mk (mkBody (Vec3.mk 0 0 10) (Vec3.mk 100 0 0) (Vec3.mk 0 0 0)).

Definition RX8_wheelspin : VehicleDynamics.t :=
  VehicleDynamics.mk RX8_CONFIG
    (mkBody (Vec3.mk 0 0 10) (Vec3.mk 0 0 0) (Vec3.mk 0 0 0))
    (Quad.mk spinningWheel spinningWheel spinningWheel spinningWheel)
    (VehicleDynamics.setSpeed (VehicleDynamics.initialState RX8_CONFIG) 10)
    VehicleDynamics.initialTelemetry.

(** The street car as its constructor leaves it: at rest, engine idling
    in first gear. *)
Definition restingWheel : Wheel.t :=
  Wheel.mk (mkBody (Vec3.mk 0 0 0) (Vec3.mk 0 0 0) (Vec3.mk 0 0 0)).

Definition RX8_constructed : VehicleDynamics.t :=
  VehicleDynamics.mk RX8_CONFIG
    (mkBody (Vec3.mk 0 0 0) (Vec3.mk 0 0 0) (Vec3.mk 0 0 0))
    (Quad.mk restingWheel restingWheel restingWheel restingWheel)
    (VehicleDynamics.initialState RX8_CONFIG)
    VehicleDynamics.initialTelemetry.

(** A vehicle with a given torque curve, at a given engine speed. *)
Definition withTorqueCurve (config : VehicleConfig)
  (curve : list TorquePoint.t) : VehicleConfig :=
  mkVehicleConfig config.(mass) config.(wheelbase) config.(trackWidth)
    config.(cgHeight) config.(weightDistribution) config.(springRate)
    config.(tire) curve config.(maxRPM) config.(idleRPM)
    config.(gearRatios) config.(finalDrive) config.(dragCoefficient)
    config.(frontalArea) config.(downforce) config.(brakeForce).

Definition engineAt (curve : list TorquePoint.t) (rpm : R)
  : VehicleDynamics.t :=
  VehicleDynamics.mk (withTorqueCurve RX8_CONFIG curve)
    RX8_constructed.(VehicleDynamics.body)
    RX8_constructed.(VehicleDynamics.wheels)
    (VehicleDynamics.setRpmGear (VehicleDynamics.initialState RX8_CONFIG)
       rpm 1)
    VehicleDynamics.initialTelemetry.

(** Linear interpolation between two samples of a torque curve. *)
Definition interpolate (lowerPoint upperPoint : TorquePoint.t) (rpm : R) : R :=
  lowerPoint.(TorquePoint.torque)
  + (rpm - lowerPoint.(TorquePoint.rpm))
    / (upperPoint.(TorquePoint.rpm) - lowerPoint.(TorquePoint.rpm))
    * (upperPoint.(TorquePoint.torque) - lowerPoint.(TorquePoint.torque)).

(** A torque curve ordered by strictly increasing RPM. *)
Fixpoint ascending (curve : list TorquePoint.t) : Prop :=
  match curve with
  | lower :: ((upper :: _) as rest) =>
      lower.(TorquePoint.rpm) < upper.(TorquePoint.rpm) /\ ascending rest
  | _ => True
  end.

(** The street car in third gear with the engine at a given speed. *)
Definition RX8_in_third (rpm : R) : VehicleDynamics.t :=
  VehicleDynamics.setState RX8_constructed
    (VehicleDynamics.setRpmGear (VehicleDynamics.initialState RX8_CONFIG)
       rpm 3).

(** Number of gears of a configuration. *)
Definition gearCount (config : VehicleConfig) : Z :=
  Z.of_nat (List.length config.(gearRatios)).

(** The street car sliding at 45 degrees (every wheel moves at 1 m/s
    sideways and 1 m/s forwards) on its static wheel loads, with all four
    tires at 150 degrees. *)
Definition slidingWheel : Wheel.t :=
  Wheel.mk (mkBody (Vec3.mk 1 0 1) (Vec3.mk 0 0 0) (Vec3.mk 0 0 0)).

Definition RX8_sliding_hot : VehicleDynamics.t :=
  VehicleDynamics.mk RX8_CONFIG
    (mkBody (Vec3.mk 1 0 1) (Vec3.mk 0 0 0) (Vec3.mk 0 0 0))
    (Quad.mk slidingWheel slidingWheel slidingWheel slidingWheel)
    (VehicleDynamics.setTireTemps
       (VehicleDynamics.setWheelLoads
          (VehicleDynamics.initialState RX8_CONFIG)
          (Quad.mk 3408.975 3408.975 3408.975 3408.975))
       (Quad.mk 150 150 150 150))
    VehicleDynamics.initialTelemetry.

(** A temperature within the range of the tire model. *)
Definition inTireRange (temp : R) : Prop :=
  TireModel.ambientTemp <= temp <= 150.

(** The combined slip magnitude of [calculateCombinedForce]. *)
Definition slipNorm (slipLateral slipLongitudinal : R) : R :=
  sqrt (slipLateral * slipLateral + slipLongitudinal * slipLongitudinal).

(** The load [calculateWheelForces] writes for a wheel. *)
Definition wheelLoadOf (this : VehicleDynamics.t) (index : nat) : R :=
  VehicleDynamics.getStaticWheelLoad this index
  + VehicleDynamics.calculateDynamicLoad this index.

(** A vehicle whose drive force is a number: the gear is one of the
    gearbox, the torque curve has at least two samples of strictly
    increasing RPM (no interpolation divides by 0), and the wheel radius
    is not 0. *)
Definition drivable (this : VehicleDynamics.t) : Prop :=
  let config := this.(VehicleDynamics.config) in
  (1 <= this.(VehicleDynamics.state).(VehicleDynamics.gear)
   <= gearCount config)%Z
  /\ (2 <= List.length config.(torqueCurve))%nat
  /\ ascending config.(torqueCurve)
  /\ config.(tire).(radius) <> 0.

(** The sliding street car with hot tires, off the brake pedal with the
    handbrake pulled. *)
Definition RX8_sliding_handbrake : VehicleDynamics.t :=
  VehicleDynamics.setState RX8_sliding_hot
    (VehicleDynamics.setControls RX8_sliding_hot.(VehicleDynamics.state)
       (Controls.mk 0.5 0 0.1 true)).

(** The street car at full throttle in first gear, at rest. *)
Definition RX8_launch : VehicleDynamics.t :=
  VehicleDynamics.setState RX8_constructed
    (VehicleDynamics.setControls RX8_constructed.(VehicleDynamics.state)
       (Controls.mk 1 0 0 false)).

(** The vehicle after a setup method has rewritten its configuration. *)
Definition reconfigured (this : VehicleDynamics.t) (config : VehicleConfig)
  : VehicleDynamics.t :=
  VehicleDynamics.mk config this.(VehicleDynamics.body)
    this.(VehicleDynamics.wheels) this.(VehicleDynamics.state)
    this.(VehicleDynamics.telemetry).

(** The race car as constructed, moving straight ahead at 50 m/s. *)
Definition F1_at_speed : VehicleDynamics.t :=
  VehicleDynamics.mk F1_CONFIG
    (mkBody (Vec3.mk 0 0 50) (Vec3.mk 0 0 0) (Vec3.mk 0 0 0))
    (Quad.mk restingWheel restingWheel restingWheel restingWheel)
    (VehicleDynamics.initialState F1_CONFIG)
    VehicleDynamics.initialTelemetry.

(** The street car at rest with the handbrake pulled and no pedal
    pressed. *)
Definition RX8_handbrake : VehicleDynamics.t :=
  VehicleDynamics.setState RX8_constructed
    (VehicleDynamics.setControls RX8_constructed.(VehicleDynamics.state)
       (Controls.mk 0 0 0 true)).

(** * Properties *)

(** ** Comparisons *)

Lemma Rltb_spec (a b : R) : reflect (a < b) (a <? b).
Proof. unfold Rltb. destruct (Rlt_dec a b); constructor; assumption. Qed.

Lemma Rleb_spec (a b : R) : reflect (a <= b) (a <=? b).
Proof. unfold Rleb. destruct (Rle_dec a b); constructor; assumption. Qed.

Lemma Reqb_spec (a b : R) : reflect (a = b) (a =? b).
Proof. unfold Reqb. destruct (Req_dec_T a b); constructor; assumption. Qed.

Lemma clamp_bounds (lo hi v : R) :
  lo <= hi -> lo <= Math.max lo (Math.min hi v) <= hi.
Proof.
  intros Hle. unfold Math.max, Math.min, Rmax, Rmin.
  destruct (Rle_dec hi v); destruct (Rle_dec lo _); lra.
Qed.

Lemma pow_nonneg (base exponent : R) : 0 <= Math.pow base exponent.
Proof.
  unfold Math.pow.
  destruct (Rltb_spec 0 base).
  - left. apply exp_pos.
  - destruct (Reqb_spec exponent 2); [ nra | lra ].
Qed.

(** ** Weight transfer *)

Section WeightTransferFacts.

Import WeightTransfer PHYSICS_CONFIG.

Variable vehicle : VehicleConfig.
Variables lateralG longitudinalG rollAngle pitchAngle : R.

(** Before the clamp the four loads add up to the two static axle
    weights: every transfer term is added to one wheel and subtracted
    from another. *)
Lemma combinedBeforeClamp_total :
  totalLoad (combinedBeforeClamp vehicle lateralG longitudinalG
               rollAngle pitchAngle)
  = vehicle.(mass) * gravity
    * (vehicle.(weightDistribution).(front)
       + vehicle.(weightDistribution).(rear)).
Proof.
  unfold totalLoad, combinedBeforeClamp, calculateRollEffect,
    calculatePitchEffect.
  destruct (Reqb_spec rollAngle 0); destruct (Reqb_spec pitchAngle 0);
    cbn [FL FR RL RR front rear]; lra.
Qed.

End WeightTransferFacts.

(** C1, as stated, at a configuration whose two axle fractions are both
    0.6: mass, wheelbase and track widths are positive, the accelerations
    are zero, no load is clamped, and the four loads add up to 1.2 times
    the vehicle weight. *)
Lemma C1_counterexample :
  let vehicle := RX8_axle_fractions_06 in
  let weights := WeightTransfer.calculateCombined vehicle 0 0 0 0 in
  0 < vehicle.(mass) /\ 0 < vehicle.(wheelbase)
  /\ 0 < vehicle.(trackWidth).(front) /\ 0 < vehicle.(trackWidth).(rear)
  /\ Rabs 0 <= 1
  /\ weights = WeightTransfer.combinedBeforeClamp vehicle 0 0 0 0
  /\ totalLoad weights = 1.2 * (vehicle.(mass) * PHYSICS_CONFIG.gravity)
  /\ totalLoad weights <> vehicle.(mass) * PHYSICS_CONFIG.gravity.
Proof.
  cbv zeta.
  assert (Hclamp :
    WeightTransfer.calculateCombined RX8_axle_fractions_06 0 0 0 0
    = WeightTransfer.combinedBeforeClamp RX8_axle_fractions_06 0 0 0 0).
  { unfold WeightTransfer.calculateCombined, WeightTransfer.clampWeights,
      WeightTransfer.combinedBeforeClamp, PHYSICS_CONFIG.gravity.
    destruct (Reqb_spec 0 0); [ | lra ].
    cbn [WeightTransfer.FL WeightTransfer.FR WeightTransfer.RL
         WeightTransfer.RR RX8_axle_fractions_06 RX8_CONFIG mass wheelbase
         trackWidth cgHeight weightDistribution front rear].
    unfold Math.max. rewrite !Rmax_right by lra. reflexivity. }
  rewrite Hclamp, combinedBeforeClamp_total.
  rewrite Rabs_R0.
  unfold PHYSICS_CONFIG.gravity.
  cbn [RX8_axle_fractions_06 RX8_CONFIG mass wheelbase trackWidth
       weightDistribution front rear].
  repeat split; lra.
Qed.

(** C1 (amended): for a configuration with positive mass, wheelbase and
    track widths whose static axle fractions add up to 1, and
    accelerations of magnitude at most 1, whenever the final clamp of
    [calculateCombined] changes none of the four loads, the returned loads
    add up to mass times gravity. *)
Theorem C1_load_conservation
  (vehicle : VehicleConfig) (lateralG longitudinalG rollAngle pitchAngle : R) :
  0 < vehicle.(mass) -> 0 < vehicle.(wheelbase) ->
  0 < vehicle.(trackWidth).(front) -> 0 < vehicle.(trackWidth).(rear) ->
  vehicle.(weightDistribution).(front) + vehicle.(weightDistribution).(rear)
  = 1 ->
  Rabs lateralG <= 1 -> Rabs longitudinalG <= 1 ->
  WeightTransfer.calculateCombined vehicle lateralG longitudinalG
    rollAngle pitchAngle
  = WeightTransfer.combinedBeforeClamp vehicle lateralG longitudinalG
      rollAngle pitchAngle ->
  totalLoad (WeightTransfer.calculateCombined vehicle lateralG longitudinalG
               rollAngle pitchAngle)
  = vehicle.(mass) * PHYSICS_CONFIG.gravity.
Proof.
  intros _ _ _ _ Hsum _ _ Hclamp.
  rewrite Hclamp, combinedBeforeClamp_total, Hsum. ring.
Qed.

(** The street archetype cornering at 0.5 g while accelerating at 0.3 g. *)
Lemma C1_load_conservation_witness :
  totalLoad (WeightTransfer.calculateCombined RX8_CONFIG 0.5 0.3 0 0)
  = RX8_CONFIG.(mass) * PHYSICS_CONFIG.gravity.
Proof.
  apply (C1_load_conservation RX8_CONFIG 0.5 0.3 0 0);
    try (cbn [RX8_CONFIG mass wheelbase trackWidth weightDistribution
              front rear]; lra);
    try (unfold Rabs; destruct (Rcase_abs _); lra).
  unfold WeightTransfer.calculateCombined, WeightTransfer.clampWeights,
    WeightTransfer.combinedBeforeClamp, PHYSICS_CONFIG.gravity.
  destruct (Reqb_spec 0 0); [ | lra ].
  cbn [WeightTransfer.FL WeightTransfer.FR WeightTransfer.RL
       WeightTransfer.RR RX8_CONFIG mass wheelbase
       trackWidth cgHeight weightDistribution front rear].
  unfold Math.max. rewrite !Rmax_right by lra. reflexivity.
Defined.

(** The final clamp changes nothing exactly when no load is negative
    before it. *)
Lemma clampWeights_fixed (w : WeightTransfer.Weights) :
  WeightTransfer.clampWeights w = w
  <-> 0 <= w.(WeightTransfer.FL) /\ 0 <= w.(WeightTransfer.FR)
      /\ 0 <= w.(WeightTransfer.RL) /\ 0 <= w.(WeightTransfer.RR).
Proof.
  destruct w as [fl fr rl rr]. unfold WeightTransfer.clampWeights, Math.max.
  cbn [WeightTransfer.FL WeightTransfer.FR WeightTransfer.RL
       WeightTransfer.RR].
  split.
  - intros Heq. injection Heq as Hfl Hfr Hrl Hrr.
    rewrite <- Hfl at 1. rewrite <- Hfr at 1.
    rewrite <- Hrl at 1. rewrite <- Hrr at 1.
    repeat split; apply Rmax_l.
  - intros (Hfl & Hfr & Hrl & Hrr).
    rewrite !Rmax_right by assumption. reflexivity.
Qed.

(** ** Tire model *)

Section TireModelFacts.

Import TireModel.

Variable tireConfig : TireConfig.
Variables slipLateral slipLongitudinal load : R.

Lemma slipNorm_square :
  slipNorm slipLateral slipLongitudinal
  * slipNorm slipLateral slipLongitudinal
  = slipLateral * slipLateral + slipLongitudinal * slipLongitudinal.
Proof. unfold slipNorm. apply sqrt_sqrt. nra. Qed.

(** Below the guard the early return is taken and nothing is divided. *)
Lemma calculateCombinedForce_small :
  slipNorm slipLateral slipLongitudinal < 0.001 ->
  calculateCombinedForce slipLateral slipLongitudinal load tireConfig
  = ({| lateral := 0; longitudinal := 0;
        combinedSlip := None; utilizationRatio := None |}, []).
Proof.
  intros Hsmall. unfold calculateCombinedForce.
  fold (slipNorm slipLateral slipLongitudinal).
  destruct (Rltb_spec (slipNorm slipLateral slipLongitudinal) 0.001);
    [ reflexivity | contradiction ].
Qed.

(** Past the guard the three quotients of the source are formed, in
    order, and the force at the combined slip is projected on the two
    slip components. *)
Lemma calculateCombinedForce_large :
  ~ slipNorm slipLateral slipLongitudinal < 0.001 ->
  let norm := slipNorm slipLateral slipLongitudinal in
  let totalForce := value (calculateForce norm load tireConfig) in
  calculateCombinedForce slipLateral slipLongitudinal load tireConfig
  = ({| lateral := slipLateral * (totalForce / norm);
        longitudinal := slipLongitudinal * (totalForce / norm);
        combinedSlip := Some norm;
        utilizationRatio :=
          Some (totalForce / (load * tireConfig.(peakMu))) |},
     [("normalizedLoad"%string, 9.81 * 250); ("ratio"%string, norm);
      ("utilizationRatio"%string, load * tireConfig.(peakMu))]).
Proof.
  intros Hlarge. unfold calculateCombinedForce.
  fold (slipNorm slipLateral slipLongitudinal).
  destruct (Rltb_spec (slipNorm slipLateral slipLongitudinal) 0.001);
    [ contradiction | reflexivity ].
Qed.

(** The resultant of the two projected components is the force at the
    combined slip. *)
Lemma combinedForce_magnitude :
  ~ slipNorm slipLateral slipLongitudinal < 0.001 ->
  forceMagnitude
    (value (calculateCombinedForce slipLateral slipLongitudinal load
              tireConfig))
  = Rabs (value (calculateForce (slipNorm slipLateral slipLongitudinal)
                   load tireConfig)).
Proof.
  intros Hlarge. rewrite (calculateCombinedForce_large Hlarge).
  cbv zeta.
  set (norm := slipNorm slipLateral slipLongitudinal) in *.
  set (F := value (calculateForce norm load tireConfig)).
  unfold forceMagnitude, value. cbn [fst lateral longitudinal].
  assert (Hnz : norm <> 0) by lra.
  rewrite <- sqrt_Rsqr_abs. f_equal. unfold Rsqr.
  transitivity
    (F / norm * (F / norm)
     * (slipLateral * slipLateral + slipLongitudinal * slipLongitudinal)).
  - ring.
  - rewrite <- slipNorm_square. fold norm. field. exact Hnz.
Qed.

(** The Magic Formula never exceeds its peak factor. *)
Lemma calculateForce_peak (slip : R) :
  0 <= tireConfig.(pacejka).(D) -> 0 <= load ->
  Rabs (value (calculateForce slip load tireConfig))
  <= tireConfig.(pacejka).(D) * load
     * Math.pow (load / (9.81 * 250)) tireConfig.(loadSensitivity).
Proof.
  intros HD Hload. unfold calculateForce, value, bind, div, ret.
  cbn [fst snd].
  set (peak := D (pacejka tireConfig) * load
               * Math.pow (load / (9.81 * 250)) (loadSensitivity tireConfig)).
  assert (Hpeak : 0 <= peak).
  { unfold peak. apply Rmult_le_pos; [ apply Rmult_le_pos; assumption | ].
    apply pow_nonneg. }
  rewrite Rabs_mult, (Rabs_pos_eq peak) by exact Hpeak.
  match goal with |- _ * Rabs (sin ?a) <= _ =>
    assert (Hsin : Rabs (sin a) <= 1)
      by (apply Rabs_le; split; apply SIN_bound)
  end.
  nra.
Qed.

End TireModelFacts.

(** The friction circle holds for every tire whose peak factor does not
    exceed its peak friction coefficient. *)
Lemma friction_circle
  (tireConfig : TireConfig) (slipLateral slipLongitudinal load : R) :
  0 <= tireConfig.(pacejka).(D) <= tireConfig.(peakMu) -> 0 <= load ->
  forceMagnitude
    (value (TireModel.calculateCombinedForce slipLateral slipLongitudinal
              load tireConfig))
  <= tireConfig.(peakMu) * load
     * Math.pow (load / (9.81 * 250)) tireConfig.(loadSensitivity).
Proof.
  intros [HD Hmu] Hload.
  pose proof (pow_nonneg (load / (9.81 * 250)) tireConfig.(loadSensitivity))
    as Hfactor.
  destruct (Rlt_dec (slipNorm slipLateral slipLongitudinal) 0.001)
    as [Hsmall | Hlarge].
  - rewrite (calculateCombinedForce_small tireConfig _ _ load Hsmall).
    unfold forceMagnitude, value.
    cbn [fst TireModel.lateral TireModel.longitudinal].
    replace (0 * 0 + 0 * 0) with 0 by ring. rewrite sqrt_0.
    apply Rmult_le_pos; [ apply Rmult_le_pos; lra | exact Hfactor ].
  - rewrite (combinedForce_magnitude tireConfig _ _ load Hlarge).
    apply Rle_trans
      with (1 := calculateForce_peak tireConfig load _ HD Hload).
    apply Rmult_le_compat_r; [ exact Hfactor | ].
    apply Rmult_le_compat_r; assumption.
Qed.

(** C2: for the shipped tire parameter sets, every load [L >= 0] and all
    lateral and longitudinal slips, the Euclidean magnitude of the force
    pair returned by [calculateCombinedForce] is at most
    [peakMu * L * loadFactor], with
    [loadFactor = (L / (9.81 * 250)) ^ loadSensitivity]. *)
Theorem C2_friction_circle
  (tireConfig : TireConfig) (slipLateral slipLongitudinal load : R) :
  shippedTire tireConfig -> 0 <= load ->
  forceMagnitude
    (value (TireModel.calculateCombinedForce slipLateral slipLongitudinal
              load tireConfig))
  <= tireConfig.(peakMu) * load
     * Math.pow (load / (9.81 * 250)) tireConfig.(loadSensitivity).
Proof.
  intros Hshipped Hload. apply friction_circle; [ | exact Hload ].
  destruct Hshipped as [-> | ->]; cbn; lra.
Qed.

(** The street tire at its static front load, sliding sideways and
    braking at once. *)
Lemma C2_friction_circle_witness :
  forceMagnitude
    (value (TireModel.calculateCombinedForce 0.1 (-0.2) 3408.975
              RX8_CONFIG.(tire)))
  <= RX8_CONFIG.(tire).(peakMu) * 3408.975
     * Math.pow (3408.975 / (9.81 * 250)) RX8_CONFIG.(tire).(loadSensitivity).
Proof.
  apply (C2_friction_circle RX8_CONFIG.(tire) 0.1 (-0.2) 3408.975).
  - left. reflexivity.
  - lra.
Defined.

(** ** Slip *)

Lemma calculateSlipRatio_range
  (wheelAngularVelocity vehicleVelocity wheelRadius : R) (isBraking : bool) :
  -1 <= value (TireModel.calculateSlipRatio wheelAngularVelocity
                 vehicleVelocity wheelRadius isBraking) <= 1.
Proof.
  unfold TireModel.calculateSlipRatio.
  destruct (_ && _).
  - unfold value, ret. cbn [fst]. lra.
  - unfold value, bind, ret. cbn [fst]. apply clamp_bounds. lra.
Qed.

Lemma calculateSlipAngle_range
  (lateralVelocity longitudinalVelocity steeringAngle : R) :
  - PI / 2
  <= TireModel.calculateSlipAngle lateralVelocity longitudinalVelocity
       steeringAngle
  <= PI / 2.
Proof.
  pose proof PI_RGT_0 as Hpi.
  unfold TireModel.calculateSlipAngle.
  destruct (Rltb_spec (Math.abs longitudinalVelocity) 0.1).
  - lra.
  - apply clamp_bounds. lra.
Qed.

(** Without a steering term the per-wheel slip angle of the simulation
    loop is an arctangent, or 0 under the low-speed guard. *)
Lemma rear_slipAngle_range
  (this : VehicleDynamics.t) (wheel : Wheel.t) (index : nat) :
  (2 <= index)%nat ->
  - PI / 2 <= VehicleDynamics.calculateSlipAngle this wheel index <= PI / 2.
Proof.
  intros Hrear. pose proof PI_RGT_0 as Hpi.
  unfold VehicleDynamics.calculateSlipAngle.
  match goal with |- context [ ?a <? 0.1 ] =>
    destruct (Rltb_spec a 0.1); [ lra | ] end.
  destruct (Nat.ltb_spec index 2); [ lia | ].
  match goal with |- _ <= atan ?a <= _ => pose proof (atan_bound a) end.
  lra.
Qed.

(** C3, as stated, at a wheel of the simulation loop: a wheel spinning
    at 100 rad/s on the street car travelling at 10 m/s has slip ratio
    2.23, outside [-1, 1]. *)
Lemma C3_counterexample :
  VehicleDynamics.calculateSlipRatio RX8_wheelspin spinningWheel 2 = 2.23
  /\ ~ (-1 <= VehicleDynamics.calculateSlipRatio RX8_wheelspin spinningWheel 2
        <= 1).
Proof.
  assert (Hv :
    VehicleDynamics.calculateSlipRatio RX8_wheelspin spinningWheel 2 = 2.23).
  { unfold VehicleDynamics.calculateSlipRatio. cbn.
    destruct (Rltb_spec 10 0.1); lra. }
  rewrite Hv. split; [ reflexivity | lra ].
Qed.

(** The front wheels of the simulation loop subtract the steering angle
    after the arctangent: with 3 rad of steering on a wheel rolling
    straight the slip angle is -3, below -PI/2. *)
Lemma front_slipAngle_unclamped :
  let steered :=
    VehicleDynamics.setState RX8_wheelspin
      (VehicleDynamics.setControls RX8_wheelspin.(VehicleDynamics.state)
         (Controls.mk 0 0 3 false)) in
  VehicleDynamics.calculateSlipAngle steered spinningWheel 0 = -3
  /\ -3 < - PI / 2.
Proof.
  cbv zeta. split.
  - unfold VehicleDynamics.calculateSlipAngle. cbn.
    destruct (Rltb_spec (Math.abs 10) 0.1) as [Hlt | _].
    + unfold Math.abs in Hlt. rewrite Rabs_pos_eq in Hlt by lra. lra.
    + replace (0 / Math.abs 10) with 0 by (unfold Rdiv; ring).
      rewrite atan_0. ring.
  - pose proof PI_4. lra.
Qed.

(** C3 (amended): for arbitrary real inputs the slip-ratio helper of the
    tire model returns a value in [-1, 1] and its slip-angle helper a
    value in [-PI/2, PI/2]; in the simulation loop the per-wheel slip
    angle of a rear wheel also lies in [-PI/2, PI/2]. *)
Theorem C3_slip_ranges :
  (forall (wheelAngularVelocity vehicleVelocity wheelRadius : R)
          (isBraking : bool),
     -1 <= value (TireModel.calculateSlipRatio wheelAngularVelocity
                    vehicleVelocity wheelRadius isBraking) <= 1)
  /\ (forall lateralVelocity longitudinalVelocity steeringAngle : R,
        - PI / 2
        <= TireModel.calculateSlipAngle lateralVelocity longitudinalVelocity
             steeringAngle
        <= PI / 2)
  /\ (forall (this : VehicleDynamics.t) (wheel : Wheel.t),
        - PI / 2 <= VehicleDynamics.calculateSlipAngle this wheel 2 <= PI / 2
        /\ - PI / 2 <= VehicleDynamics.calculateSlipAngle this wheel 3
           <= PI / 2).
Proof.
  split; [ exact calculateSlipRatio_range | ].
  split; [ exact calculateSlipAngle_range | ].
  intros this wheel. split; apply rear_slipAngle_range; lia.
Qed.

(** C4: whenever the combined slip magnitude is below 1e-3,
    [calculateCombinedForce] returns lateral = longitudinal = 0 without
    dividing; and whenever it does form the quotient [ratio], the
    denominator is the combined slip magnitude and is at least 1e-3. *)
Theorem C4_small_slip_guard
  (slipLateral slipLongitudinal load : R) (tireConfig : TireConfig) :
  let combinedSlip :=
    sqrt (slipLateral * slipLateral + slipLongitudinal * slipLongitudinal) in
  let result :=
    TireModel.calculateCombinedForce slipLateral slipLongitudinal load
      tireConfig in
  (combinedSlip < 1e-3 ->
   (value result).(TireModel.lateral) = 0
   /\ (value result).(TireModel.longitudinal) = 0
   /\ divisions result = [])
  /\ (forall den : R,
        In ("ratio"%string, den) (divisions result) ->
        den = combinedSlip /\ 1e-3 <= den).
Proof.
  cbv zeta. split.
  - intros Hsmall.
    rewrite calculateCombinedForce_small by (unfold slipNorm; lra).
    repeat split.
  - intros den Hin.
    fold (slipNorm slipLateral slipLongitudinal) in *.
    destruct (Rlt_dec (slipNorm slipLateral slipLongitudinal) 0.001)
      as [Hsmall | Hlarge].
    + rewrite calculateCombinedForce_small in Hin by exact Hsmall.
      destruct Hin.
    + rewrite (calculateCombinedForce_large tireConfig _ _ load Hlarge) in Hin.
      cbv zeta in Hin. unfold divisions in Hin. cbn [snd In] in Hin.
      destruct Hin as [Hin | [Hin | [Hin | []]]];
        try discriminate Hin.
      injection Hin as <-. split; [ reflexivity | lra ].
Qed.

(** Both slips at 1e-4. *)
Lemma C4_small_slip_guard_witness :
  let result :=
    TireModel.calculateCombinedForce 0.0001 0.0001 3408.975
      RX8_CONFIG.(tire) in
  (value result).(TireModel.lateral) = 0
  /\ (value result).(TireModel.longitudinal) = 0
  /\ divisions result = [].
Proof.
  apply (C4_small_slip_guard 0.0001 0.0001 3408.975 RX8_CONFIG.(tire)).
  apply Rsqr_incrst_0; [ | apply sqrt_pos | lra ].
  rewrite Rsqr_sqrt by lra. unfold Rsqr. lra.
Defined.

(** C5, as stated: with vehicle velocity 0, wheel angular velocity 0 and
    the braking flag set, the slip ratio is 0, not -1. *)
Lemma C5_counterexample :
  value (TireModel.calculateSlipRatio 0 0 RX8_CONFIG.(tire).(radius) true) = 0
  /\ value (TireModel.calculateSlipRatio 0 0 RX8_CONFIG.(tire).(radius) true)
     <> -1.
Proof.
  assert (Hv :
    value (TireModel.calculateSlipRatio 0 0 RX8_CONFIG.(tire).(radius) true)
    = 0).
  { unfold TireModel.calculateSlipRatio, Math.abs.
    rewrite Rmult_0_l, Rabs_R0.
    destruct (Rltb_spec 0 0.1); [ reflexivity | lra ]. }
  rewrite Hv. split; [ reflexivity | lra ].
Qed.

(** C5 (amended): with the vehicle at rest (|vehicle velocity| < 0.1)
    and the braking branch selected, the slip-ratio computation returns 0
    when the wheel is stopped as well (|wheel angular velocity * radius|
    < 0.1, in particular at wheel angular velocity 0) and -1, the
    locked-wheel branch, when the wheel still turns; in both cases no
    division is executed. *)
Theorem C5_slip_ratio_at_rest
  (wheelAngularVelocity vehicleVelocity wheelRadius : R) :
  Rabs vehicleVelocity < 0.1 ->
  let result :=
    TireModel.calculateSlipRatio wheelAngularVelocity vehicleVelocity
      wheelRadius true in
  (Rabs (wheelAngularVelocity * wheelRadius) < 0.1 -> result = (0, []))
  /\ (0.1 <= Rabs (wheelAngularVelocity * wheelRadius) ->
      result = (-1, [])).
Proof.
  intros Hrest. cbv zeta. unfold TireModel.calculateSlipRatio, Math.abs.
  destruct (Rltb_spec (Rabs vehicleVelocity) 0.1) as [_ | Hn];
    [ | contradiction ].
  destruct (Rltb_spec (Rabs (wheelAngularVelocity * wheelRadius)) 0.1)
    as [Hstopped | Hturning]; cbn [andb orb].
  - split; [ reflexivity | lra ].
  - split; [ lra | ].
    intros _. unfold bind, ret. cbn [fst snd app].
    f_equal. unfold Math.max, Math.min.
    rewrite Rmin_right by lra. rewrite Rmax_right by lra. reflexivity.
Qed.

(** At rest with the wheel stopped: the claim's scenario. *)
Lemma C5_slip_ratio_at_rest_witness :
  TireModel.calculateSlipRatio 0 0 RX8_CONFIG.(tire).(radius) true = (0, []).
Proof.
  apply (C5_slip_ratio_at_rest 0 0 RX8_CONFIG.(tire).(radius)).
  - rewrite Rabs_R0. lra.
  - rewrite Rmult_0_l, Rabs_R0. lra.
Defined.

(** ** Engine torque *)

Section TorqueCurve.

Variable rpm : R.

Lemma ascending_tail (p : TorquePoint.t) (curve : list TorquePoint.t) :
  ascending (p :: curve) -> ascending curve.
Proof. destruct curve; cbn; tauto. Qed.

(** Along an ascending curve the samples after the first have a larger
    RPM than the first. *)
Lemma ascending_nth (curve : list TorquePoint.t) :
  forall (first x : TorquePoint.t) (i : nat),
    ascending (first :: curve) ->
    nth_error (first :: curve) (S i) = Some x ->
    first.(TorquePoint.rpm) < x.(TorquePoint.rpm).
Proof.
  induction curve as [ | q rest IH ]; intros first x i Hasc Hnth.
  - destruct i; discriminate Hnth.
  - destruct Hasc as [Hlt Hasc]. destruct i as [ | i ].
    + cbn in Hnth. injection Hnth as <-. exact Hlt.
    + apply Rlt_trans with (1 := Hlt). apply (IH q x i Hasc). exact Hnth.
Qed.

Lemma last_default (curve : list TorquePoint.t) :
  forall p d d' : TorquePoint.t, last (p :: curve) d = last (p :: curve) d'.
Proof.
  induction curve as [ | q rest IH ]; intros p d d'.
  - reflexivity.
  - change (last (q :: rest) d = last (q :: rest) d'). apply IH.
Qed.

(** Every sample of an ascending curve lies between the first and the
    last one. *)
Lemma ascending_bounds (curve : list TorquePoint.t) :
  forall first x : TorquePoint.t,
    ascending (first :: curve) -> In x (first :: curve) ->
    first.(TorquePoint.rpm) <= x.(TorquePoint.rpm)
    /\ x.(TorquePoint.rpm) <= (last (first :: curve) first).(TorquePoint.rpm).
Proof.
  induction curve as [ | q rest IH ]; intros first x Hasc Hin.
  - destruct Hin as [<- | []]. cbn. lra.
  - destruct Hasc as [Hlt Hasc].
    change (last (first :: q :: rest) first) with (last (q :: rest) first).
    rewrite (last_default rest q first q).
    destruct Hin as [<- | Hin].
    + destruct (IH q q Hasc (or_introl eq_refl)). lra.
    + destruct (IH q x Hasc Hin). lra.
Qed.

(** No pair is found for an RPM below every sample, or above every
    sample. *)
Lemma findSurrounding_below (curve : list TorquePoint.t) :
  (forall x, In x curve -> rpm < x.(TorquePoint.rpm)) ->
  VehicleDynamics.findSurrounding rpm curve = None.
Proof.
  induction curve as [ | p [ | q rest ] IH ]; intros Hall;
    try reflexivity.
  cbn [VehicleDynamics.findSurrounding].
  destruct (Rleb_spec p.(TorquePoint.rpm) rpm) as [Hle | _].
  - pose proof (Hall p (or_introl eq_refl)). lra.
  - cbn [andb]. apply IH. intros x Hin. apply Hall. right. exact Hin.
Qed.

Lemma findSurrounding_above (curve : list TorquePoint.t) :
  (forall x, In x curve -> x.(TorquePoint.rpm) < rpm) ->
  VehicleDynamics.findSurrounding rpm curve = None.
Proof.
  induction curve as [ | p [ | q rest ] IH ]; intros Hall;
    try reflexivity.
  cbn [VehicleDynamics.findSurrounding].
  destruct (Rleb_spec rpm q.(TorquePoint.rpm)) as [Hle | _].
  - pose proof (Hall q (or_intror (or_introl eq_refl))). lra.
  - rewrite andb_false_r. apply IH. intros x Hin. apply Hall. right.
    exact Hin.
Qed.

(** On an ascending curve, the pair the loop finds interpolates to the
    same torque as any pair of neighbours bracketing the RPM. *)
Lemma findSurrounding_bracket (curve : list TorquePoint.t) :
  forall (i : nat) (lower upper : TorquePoint.t),
    ascending curve ->
    nth_error curve i = Some lower ->
    nth_error curve (S i) = Some upper ->
    lower.(TorquePoint.rpm) <= rpm <= upper.(TorquePoint.rpm) ->
    exists found,
      VehicleDynamics.findSurrounding rpm curve = Some found
      /\ interpolate (fst found) (snd found) rpm
         = interpolate lower upper rpm.
Proof.
  induction curve as [ | p [ | q rest ] IH ];
    intros i lower upper Hasc Hlo Hup Hbr.
  - destruct i; discriminate Hlo.
  - destruct i as [ | [ | i ] ]; discriminate Hup.
  - cbn [VehicleDynamics.findSurrounding].
    destruct Hasc as [Hpq Hasc].
    destruct (Rleb_spec p.(TorquePoint.rpm) rpm) as [Hp | Hp];
      [ destruct (Rleb_spec rpm q.(TorquePoint.rpm)) as [Hq | Hq] | ];
      cbn [andb].
    + exists (p, q). split; [ reflexivity | ]. cbn [fst snd].
      destruct i as [ | i ].
      * cbn in Hlo, Hup. injection Hlo as <-. injection Hup as <-.
        reflexivity.
      * (* the RPM is the sample shared by the two pairs *)
        cbn [nth_error] in Hlo.
        assert (Hlower : lower = q).
        { destruct i as [ | i ].
          - cbn in Hlo. injection Hlo as <-. reflexivity.
          - pose proof (ascending_nth rest q lower i Hasc Hlo). lra. }
        subst lower.
        assert (Hrpm : rpm = q.(TorquePoint.rpm)) by lra.
        pose proof (ascending_nth _ _ _ _ Hasc Hup) as Hqu.
        unfold interpolate. rewrite Hrpm. field. lra.
    + destruct i as [ | i ].
      * cbn in Hup. injection Hup as <-. lra.
      * apply (IH i lower upper Hasc Hlo Hup Hbr).
    + destruct i as [ | i ].
      * cbn in Hlo. injection Hlo as <-. lra.
      * apply (IH i lower upper Hasc Hlo Hup Hbr).
Qed.

End TorqueCurve.




(** ** Gear selection *)

Lemma lookup_in_range {A : Type} (array : list A) (i : Z) :
  (0 <= i < Z.of_nat (List.length array))%Z ->
  exists a, lookup array i = Some a.
Proof.
  intros Hi. unfold lookup.
  destruct (Z.ltb_spec i 0); [ lia | ].
  destruct (nth_error array (Z.to_nat i)) as [ a | ] eqn:Hnth.
  - exists a. reflexivity.
  - apply nth_error_None in Hnth. lia.
Qed.

(** The shift rule, case by case. *)
Lemma shiftGear_cases (config : VehicleConfig) (rpm : R) (gear : Z) :
  0 <= config.(maxRPM) ->
  let gear' := VehicleDynamics.shiftGear config rpm gear in
  let up := rpm > config.(maxRPM) * 0.95 /\ (gear < gearCount config)%Z in
  let down := rpm < config.(maxRPM) * 0.5 /\ (gear > 1)%Z in
  (gear' = (gear + 1)%Z <-> up)
  /\ (gear' = (gear - 1)%Z <-> down)
  /\ (gear' = gear <-> ~ up /\ ~ down).
Proof.
  intros Hmax. cbv zeta. unfold VehicleDynamics.shiftGear, gearCount.
  rewrite Z.gtb_ltb.
  destruct (Rltb_spec (config.(maxRPM) * 0.95) rpm);
    destruct (Z.ltb_spec gear (Z.of_nat (List.length config.(gearRatios))));
    destruct (Rltb_spec rpm (config.(maxRPM) * 0.5));
    destruct (Z.ltb_spec 1 gear);
    cbn [andb]; intuition (first [ lia | lra ]).
Qed.



(** ** Aerodynamics *)

(** C8: for a configuration without downforce coefficients (street
    archetype) the aerodynamic computation returns frontDownforce = 0 and
    rearDownforce = 0, and drag = 1/2 x airDensity x speed^2 x
    dragCoefficient x frontalArea, whatever the speed. *)
Theorem C8_street_aerodynamics (this : VehicleDynamics.t) :
  this.(VehicleDynamics.config).(downforce) = None ->
  let forces := VehicleDynamics.calculateAerodynamicForces this in
  let speed := Vec3.length this.(VehicleDynamics.body).(velocity) in
  forces.(VehicleDynamics.frontDownforce) = 0
  /\ forces.(VehicleDynamics.rearDownforce) = 0
  /\ forces.(VehicleDynamics.drag)
     = 1 / 2 * PHYSICS_CONFIG.airDensity * (speed * speed)
       * this.(VehicleDynamics.config).(dragCoefficient)
       * this.(VehicleDynamics.config).(frontalArea).
Proof.
  intros Hstreet. cbv zeta.
  unfold VehicleDynamics.calculateAerodynamicForces. rewrite Hstreet.
  cbn [VehicleDynamics.frontDownforce VehicleDynamics.rearDownforce
       VehicleDynamics.drag].
  repeat split. lra.
Qed.

(** The street car at 10 m/s. *)
Lemma C8_street_aerodynamics_witness :
  (VehicleDynamics.calculateAerodynamicForces RX8_wheelspin)
    .(VehicleDynamics.frontDownforce) = 0
  /\ (VehicleDynamics.calculateAerodynamicForces RX8_wheelspin)
       .(VehicleDynamics.rearDownforce) = 0
  /\ (VehicleDynamics.calculateAerodynamicForces RX8_wheelspin)
       .(VehicleDynamics.drag)
     = 1 / 2 * PHYSICS_CONFIG.airDensity
       * (Vec3.length RX8_wheelspin.(VehicleDynamics.body).(velocity)
          * Vec3.length RX8_wheelspin.(VehicleDynamics.body).(velocity))
       * RX8_CONFIG.(dragCoefficient) * RX8_CONFIG.(frontalArea).
Proof.
  apply (C8_street_aerodynamics RX8_wheelspin). reflexivity.
Defined.

(** ** Temperatures *)

Lemma updateTireTemperature_range (currentTemp slip load speed deltaTime : R) :
  inTireRange
    (TireModel.updateTireTemperature currentTemp slip load speed deltaTime).
Proof.
  unfold inTireRange, TireModel.updateTireTemperature.
  apply clamp_bounds. unfold TireModel.ambientTemp. lra.
Qed.

(** What [updateTemperatures] writes. *)
Lemma updateTemperatures_tireTemps (this : VehicleDynamics.t) (deltaTime : R) :
  (VehicleDynamics.updateTemperatures this deltaTime)
    .(VehicleDynamics.state).(VehicleDynamics.tireTemps)
  = Quad.mapi (VehicleDynamics.tireTempStep this deltaTime)
      this.(VehicleDynamics.state).(VehicleDynamics.tireTemps).
Proof.
  unfold VehicleDynamics.updateTemperatures.
  cbn [VehicleDynamics.state VehicleDynamics.setState
       VehicleDynamics.setTireTemps VehicleDynamics.brake].
  destruct (Rltb_spec 0 this.(VehicleDynamics.state).(VehicleDynamics.brake));
    reflexivity.
Qed.

Lemma updateTemperatures_brakeTemps (this : VehicleDynamics.t) (deltaTime : R) :
  (VehicleDynamics.updateTemperatures this deltaTime)
    .(VehicleDynamics.state).(VehicleDynamics.brakeTemps)
  = if this.(VehicleDynamics.state).(VehicleDynamics.brake) >? 0
    then Quad.mapi
           (VehicleDynamics.brakeTempStep
              (VehicleDynamics.setState this
                 (VehicleDynamics.setTireTemps this.(VehicleDynamics.state)
                    (Quad.mapi (VehicleDynamics.tireTempStep this deltaTime)
                       this.(VehicleDynamics.state)
                         .(VehicleDynamics.tireTemps))))
              deltaTime)
           this.(VehicleDynamics.state).(VehicleDynamics.brakeTemps)
    else this.(VehicleDynamics.state).(VehicleDynamics.brakeTemps).
Proof.
  unfold VehicleDynamics.updateTemperatures.
  cbn [VehicleDynamics.state VehicleDynamics.setState
       VehicleDynamics.setTireTemps VehicleDynamics.brake].
  destruct (Rltb_spec 0 this.(VehicleDynamics.state).(VehicleDynamics.brake));
    reflexivity.
Qed.

(** C9, as stated, at the simulation step: from a state whose tire
    temperatures are all 150, one fixed step of the street car sliding at
    45 degrees on its static loads stores a rear-left tire temperature
    above 150. *)
Lemma C9_counterexample :
  Quad.all inTireRange
    RX8_sliding_hot.(VehicleDynamics.state).(VehicleDynamics.tireTemps)
  /\ 150 < (VehicleDynamics.updateTemperatures RX8_sliding_hot
              PHYSICS_CONFIG.timeStep)
             .(VehicleDynamics.state).(VehicleDynamics.tireTemps).(Quad.q2)
  /\ ~ Quad.all inTireRange
        (VehicleDynamics.updateTemperatures RX8_sliding_hot
           PHYSICS_CONFIG.timeStep)
          .(VehicleDynamics.state).(VehicleDynamics.tireTemps).
Proof.
  assert (Hhot :
    150 < (VehicleDynamics.updateTemperatures RX8_sliding_hot
             PHYSICS_CONFIG.timeStep)
            .(VehicleDynamics.state).(VehicleDynamics.tireTemps).(Quad.q2)).
  { rewrite updateTemperatures_tireTemps.
    unfold Quad.mapi. cbn [Quad.q2].
    unfold VehicleDynamics.tireTempStep, VehicleDynamics.calculateSlipAngle,
      PHYSICS_CONFIG.timeStep, Math.abs.
    cbn [RX8_sliding_hot VehicleDynamics.state VehicleDynamics.wheels
         VehicleDynamics.setTireTemps VehicleDynamics.setWheelLoads
         VehicleDynamics.wheelLoads VehicleDynamics.tireTemps
         VehicleDynamics.initialState Quad.get Quad.q2 slidingWheel
         Wheel.body velocity Vec3.x Vec3.z Nat.ltb Nat.leb].
    rewrite (Rabs_pos_eq 1) by lra.
    destruct (Rltb_spec 1 0.1); [ lra | ].
    replace (1 / 1) with 1 by lra. rewrite atan_1.
    pose proof PI2_3_2 as Hpi.
    rewrite Rabs_pos_eq by lra. lra. }
  split; [ | split ].
  - unfold Quad.all, inTireRange, TireModel.ambientTemp. cbn. lra.
  - exact Hhot.
  - unfold Quad.all, inTireRange. intros (_ & _ & [_ Hle] & _). lra.
Qed.

(** A tire on a non-negative load is not driven below ambient by one
    step of the loop, for a time step of at most 10 s. *)
Lemma tireTempStep_ambient
  (this : VehicleDynamics.t) (deltaTime temp : R) (index : nat) :
  0 <= deltaTime <= 10 ->
  0 <= Quad.get this.(VehicleDynamics.state).(VehicleDynamics.wheelLoads)
         index ->
  20 <= temp ->
  20 <= VehicleDynamics.tireTempStep this deltaTime temp index.
Proof.
  intros Hdt Hload Htemp. unfold VehicleDynamics.tireTempStep, Math.abs.
  match goal with |- context [ Rabs ?a ] =>
    pose proof (Rabs_pos a) as Hslip; set (slip := Rabs a) in * end.
  assert (0 <= slip * Quad.get
                 this.(VehicleDynamics.state).(VehicleDynamics.wheelLoads)
                 index) by (apply Rmult_le_pos; assumption).
  nra.
Qed.

Lemma calculateBrakeForce_nonneg (this : VehicleDynamics.t) (index : nat) :
  0 <= this.(VehicleDynamics.config).(brakeForce).(front) ->
  0 <= this.(VehicleDynamics.config).(brakeForce).(rear) ->
  0 <= this.(VehicleDynamics.state).(VehicleDynamics.brake) ->
  0 <= VehicleDynamics.calculateBrakeForce this index.
Proof.
  intros Hfront Hrear Hbrake. unfold VehicleDynamics.calculateBrakeForce.
  apply Rmult_le_pos.
  - destruct (index <? 2)%nat; assumption.
  - destruct (_ && _); [ | assumption ].
    unfold Math.max. apply Rle_trans with (1 := Hbrake). apply Rmax_l.
Qed.

(** Nor is a brake, for a time step of at most 2 s. *)
Lemma brakeTempStep_ambient
  (this : VehicleDynamics.t) (deltaTime temp : R) (index : nat) :
  0 <= deltaTime <= 2 ->
  0 <= this.(VehicleDynamics.config).(brakeForce).(front) ->
  0 <= this.(VehicleDynamics.config).(brakeForce).(rear) ->
  0 <= this.(VehicleDynamics.state).(VehicleDynamics.brake) ->
  0 <= this.(VehicleDynamics.state).(VehicleDynamics.speed) ->
  20 <= temp ->
  20 <= VehicleDynamics.brakeTempStep this deltaTime temp index.
Proof.
  intros Hdt Hfront Hrear Hbrake Hspeed Htemp.
  unfold VehicleDynamics.brakeTempStep.
  pose proof (calculateBrakeForce_nonneg this index Hfront Hrear Hbrake)
    as Hforce.
  assert (0 <= VehicleDynamics.calculateBrakeForce this index
               * this.(VehicleDynamics.state).(VehicleDynamics.speed))
    by (apply Rmult_le_pos; assumption).
  nra.
Qed.

(** C9 (amended): the tire-temperature update of the tire model returns
    a value within [20, 150] for all inputs.  The temperature update of
    the simulation step does not clamp: it keeps every stored tire and
    brake temperature at or above 20 when the time step lies in [0, 2]
    and the wheel loads, the brake-force capacities and the speed are
    non-negative, and it has no upper bound. *)
Theorem C9_temperature_ranges :
  (forall currentTemp slip load speed deltaTime : R,
     20 <= TireModel.updateTireTemperature currentTemp slip load speed
             deltaTime <= 150)
  /\ (forall (this : VehicleDynamics.t) (deltaTime : R),
        let state := this.(VehicleDynamics.state) in
        let state' :=
          (VehicleDynamics.updateTemperatures this deltaTime)
            .(VehicleDynamics.state) in
        0 <= deltaTime <= 2 ->
        Quad.all (Rle 0) state.(VehicleDynamics.wheelLoads) ->
        0 <= this.(VehicleDynamics.config).(brakeForce).(front) ->
        0 <= this.(VehicleDynamics.config).(brakeForce).(rear) ->
        0 <= state.(VehicleDynamics.speed) ->
        Quad.all (Rle 20) state.(VehicleDynamics.tireTemps) ->
        Quad.all (Rle 20) state.(VehicleDynamics.brakeTemps) ->
        Quad.all (Rle 20) state'.(VehicleDynamics.tireTemps)
        /\ Quad.all (Rle 20) state'.(VehicleDynamics.brakeTemps)).
Proof.
  split.
  - intros. apply updateTireTemperature_range.
  - intros this deltaTime state state' Hdt Hloads Hfront Hrear Hspeed
      Htires Hbrakes.
    subst state'. rewrite updateTemperatures_tireTemps,
      updateTemperatures_brakeTemps. fold state.
    destruct Hloads as (Hl0 & Hl1 & Hl2 & Hl3).
    destruct Htires as (Ht0 & Ht1 & Ht2 & Ht3).
    destruct Hbrakes as (Hb0 & Hb1 & Hb2 & Hb3).
    split.
    + unfold Quad.all, Quad.mapi. cbn [Quad.q0 Quad.q1 Quad.q2 Quad.q3].
      repeat split; apply tireTempStep_ambient;
        solve [ lra | assumption ].
    + destruct (Rltb_spec 0 state.(VehicleDynamics.brake)) as [Hbraking | _].
      * unfold Quad.all, Quad.mapi. cbn [Quad.q0 Quad.q1 Quad.q2 Quad.q3].
        repeat split; apply brakeTempStep_ambient;
          solve [ lra | assumption | left; exact Hbraking ].
      * repeat split; assumption.
Qed.

(** The sliding street car over one fixed step. *)
Lemma C9_temperature_ranges_witness :
  let state' :=
    (VehicleDynamics.updateTemperatures RX8_sliding_hot
       PHYSICS_CONFIG.timeStep).(VehicleDynamics.state) in
  Quad.all (Rle 20) state'.(VehicleDynamics.tireTemps)
  /\ Quad.all (Rle 20) state'.(VehicleDynamics.brakeTemps).
Proof.
  apply (proj2 C9_temperature_ranges RX8_sliding_hot PHYSICS_CONFIG.timeStep);
    unfold PHYSICS_CONFIG.timeStep, Quad.all; cbn; try lra;
    repeat split; lra.
Defined.

(** ** The temperature update and the brakes *)

(** C10: whenever the brake input is 0, whatever the handbrake, the
    temperature update of a fixed step leaves all four brake temperatures
    unchanged, while it rewrites each of the four tire temperatures to
    temp + |slip angle| x load x 0.001 - (temp - 20) x 0.1 x deltaTime. *)
Theorem C10_brake_temperatures_untouched
  (this : VehicleDynamics.t) (deltaTime : R) :
  this.(VehicleDynamics.state).(VehicleDynamics.brake) = 0 ->
  let state' :=
    (VehicleDynamics.updateTemperatures this deltaTime)
      .(VehicleDynamics.state) in
  state'.(VehicleDynamics.brakeTemps)
  = this.(VehicleDynamics.state).(VehicleDynamics.brakeTemps)
  /\ forall index : nat,
       (index < 4)%nat ->
       let temp :=
         Quad.get this.(VehicleDynamics.state).(VehicleDynamics.tireTemps)
           index in
       Quad.get state'.(VehicleDynamics.tireTemps) index
       = temp
         + Rabs (VehicleDynamics.calculateSlipAngle this
                   (Quad.get this.(VehicleDynamics.wheels) index) index)
           * Quad.get this.(VehicleDynamics.state).(VehicleDynamics.wheelLoads)
               index
           * 0.001
         - (temp - 20) * 0.1 * deltaTime.
Proof.
  intros Hbrake. cbv zeta.
  rewrite updateTemperatures_tireTemps, updateTemperatures_brakeTemps, Hbrake.
  destruct (Rltb_spec 0 0); [ lra | ].
  split; [ reflexivity | ].
  intros index Hindex.
  destruct index as [ | [ | [ | [ | index ] ] ] ]; try lia; reflexivity.
Qed.

(** The sliding street car with tires at 150 degrees and brakes at 20,
    off the brake pedal with the handbrake pulled, over one fixed step:
    the brakes stay at 20 and the rear-left tire is rewritten. *)
Lemma C10_brake_temperatures_untouched_witness :
  (VehicleDynamics.updateTemperatures RX8_sliding_handbrake
     PHYSICS_CONFIG.timeStep)
    .(VehicleDynamics.state).(VehicleDynamics.brakeTemps)
  = Quad.mk 20 20 20 20
  /\ (VehicleDynamics.updateTemperatures RX8_sliding_handbrake
        PHYSICS_CONFIG.timeStep)
       .(VehicleDynamics.state).(VehicleDynamics.tireTemps).(Quad.q2)
     = 150
       + Rabs (VehicleDynamics.calculateSlipAngle RX8_sliding_handbrake
                 slidingWheel 2)
         * 3408.975 * 0.001
       - (150 - 20) * 0.1 * PHYSICS_CONFIG.timeStep.
Proof.
  destruct (C10_brake_temperatures_untouched RX8_sliding_handbrake
              PHYSICS_CONFIG.timeStep) as [Hbrakes Htires].
  - reflexivity.
  - split; [ exact Hbrakes | ].
    apply (Htires 2%nat). lia.
Defined.

(** ** The wheel-force loop *)

Lemma shiftGear_range (config : VehicleConfig) (rpm : R) (gear : Z) :
  (1 <= gear <= gearCount config)%Z ->
  (1 <= VehicleDynamics.shiftGear config rpm gear <= gearCount config)%Z.
Proof.
  intros Hgear. unfold VehicleDynamics.shiftGear, gearCount in *.
  rewrite Z.gtb_ltb.
  destruct (rpm >? _);
    destruct (Z.ltb_spec gear (Z.of_nat (List.length config.(gearRatios))));
    destruct (rpm <? _); destruct (Z.ltb_spec 1 gear); cbn [andb]; lia.
Qed.

(** With the gear in range and a torque curve that is not empty, every
    wheel of the loop of [calculateWheelForces] gets its force. *)
Lemma wheelForce_defined
  (this : VehicleDynamics.t) (wheel : Wheel.t) (index : nat) :
  (1 <= this.(VehicleDynamics.state).(VehicleDynamics.gear)
   <= gearCount this.(VehicleDynamics.config))%Z ->
  this.(VehicleDynamics.config).(torqueCurve) <> [] ->
  exists r, VehicleDynamics.wheelForce this wheel index = Some r.
Proof.
  intros Hgear Hcurve. unfold VehicleDynamics.wheelForce.
  destruct (_ && _); [ | eexists; reflexivity ].
  unfold VehicleDynamics.calculateDriveForce, VehicleDynamics.getEngineTorque.
  destruct (lookup_in_range this.(VehicleDynamics.config).(gearRatios)
              (this.(VehicleDynamics.state).(VehicleDynamics.gear) - 1))
    as [ratio Hratio].
  { unfold gearCount in Hgear. lia. }
  rewrite Hratio.
  destruct (torqueCurve _) as [ | first rest ]; [ contradiction | ].
  destruct (match VehicleDynamics.findSurrounding _ _ with
            | Some found => found
            | None => _
            end) as [lowerPoint upperPoint].
  eexists. reflexivity.
Qed.

Lemma wheelForce_load (this : VehicleDynamics.t) (wheel : Wheel.t)
  (index : nat) (r : R * VehicleDynamics.TireForce) :
  VehicleDynamics.wheelForce this wheel index = Some r ->
  fst r = wheelLoadOf this index.
Proof.
  unfold VehicleDynamics.wheelForce.
  destruct (_ && _).
  - destruct (VehicleDynamics.calculateDriveForce this); [ | discriminate ].
    intros Heq. injection Heq as <-. reflexivity.
  - intros Heq. injection Heq as <-. reflexivity.
Qed.

(** * Further properties of the tire model *)

Lemma pow_square (base : R) : Math.pow base 2 = base * base.
Proof.
  unfold Math.pow. destruct (Rltb_spec 0 base) as [Hpos | _].
  - replace 2 with (INR 2) by (cbn; lra).
    rewrite Rpower_pow by exact Hpos. ring.
  - destruct (Reqb_spec 2 2) as [_ | Hn]; [ reflexivity | contradiction ].
Qed.

Lemma calculateForce_value (slip load : R) (tireConfig : TireConfig) :
  value (TireModel.calculateForce slip load tireConfig)
  = tireConfig.(pacejka).(D) * load
    * Math.pow (load / (9.81 * 250)) tireConfig.(loadSensitivity)
    * sin (tireConfig.(pacejka).(C)
           * atan (tireConfig.(pacejka).(B) * slip
                   - tireConfig.(pacejka).(E)
                     * (tireConfig.(pacejka).(B) * slip
                        - atan (tireConfig.(pacejka).(B) * slip)))).
Proof. reflexivity. Qed.

(** The Magic Formula is odd in the slip. *)
Lemma calculateForce_odd (slip load : R) (tireConfig : TireConfig) :
  value (TireModel.calculateForce (- slip) load tireConfig)
  = - value (TireModel.calculateForce slip load tireConfig).
Proof.
  rewrite !calculateForce_value.
  replace (tireConfig.(pacejka).(B) * - slip)
    with (- (tireConfig.(pacejka).(B) * slip)) by ring.
  set (Bx := tireConfig.(pacejka).(B) * slip).
  rewrite atan_opp.
  replace (- Bx - tireConfig.(pacejka).(E) * (- Bx - - atan Bx))
    with (- (Bx - tireConfig.(pacejka).(E) * (Bx - atan Bx))) by ring.
  rewrite atan_opp.
  replace (tireConfig.(pacejka).(C)
           * - atan (Bx - tireConfig.(pacejka).(E) * (Bx - atan Bx)))
    with (- (tireConfig.(pacejka).(C)
             * atan (Bx - tireConfig.(pacejka).(E) * (Bx - atan Bx))))
    by ring.
  rewrite sin_neg. ring.
Qed.

Lemma slipNorm_axis (slip : R) : slipNorm slip 0 = Rabs slip.
Proof.
  unfold slipNorm. replace (slip * slip + 0 * 0) with (Rsqr slip)
    by (unfold Rsqr; ring).
  apply sqrt_Rsqr_abs.
Qed.

Lemma slipNorm_sym (a b : R) : slipNorm a b = slipNorm b a.
Proof. unfold slipNorm. f_equal. ring. Qed.

(** On one axis the projection gives back the single-axis force. *)
Lemma axis_projection (slip load : R) (tireConfig : TireConfig) :
  slip <> 0 ->
  slip * (value (TireModel.calculateForce (Rabs slip) load tireConfig)
          / Rabs slip)
  = value (TireModel.calculateForce slip load tireConfig).
Proof.
  intros Hnz. unfold Rabs. destruct (Rcase_abs slip) as [Hneg | Hpos].
  - rewrite calculateForce_odd. field. exact Hnz.
  - field. exact Hnz.
Qed.

(** X1: on a pure lateral or a pure longitudinal slip of magnitude at
    least 0.001 the combined-slip law returns on that axis exactly the
    force of the single-axis Magic Formula at that slip, and 0 on the
    other axis. *)
Theorem X1_combined_reduces_to_single_axis
  (slip load : R) (tireConfig : TireConfig) :
  0.001 <= Rabs slip ->
  let single := value (TireModel.calculateForce slip load tireConfig) in
  let onLateral :=
    value (TireModel.calculateCombinedForce slip 0 load tireConfig) in
  let onLongitudinal :=
    value (TireModel.calculateCombinedForce 0 slip load tireConfig) in
  onLateral.(TireModel.lateral) = single
  /\ onLateral.(TireModel.longitudinal) = 0
  /\ onLongitudinal.(TireModel.longitudinal) = single
  /\ onLongitudinal.(TireModel.lateral) = 0.
Proof.
  intros Hslip. cbv zeta.
  assert (Hnz : slip <> 0).
  { intros ->. rewrite Rabs_R0 in Hslip. lra. }
  assert (H1 : ~ slipNorm slip 0 < 0.001) by (rewrite slipNorm_axis; lra).
  assert (H2 : ~ slipNorm 0 slip < 0.001)
    by (rewrite slipNorm_sym, slipNorm_axis; lra).
  rewrite (calculateCombinedForce_large tireConfig slip 0 load H1).
  rewrite (calculateCombinedForce_large tireConfig 0 slip load H2).
  cbv zeta. rewrite (slipNorm_sym 0 slip), slipNorm_axis.
  pose proof (axis_projection slip load tireConfig Hnz) as Haxis.
  unfold value in *.
  cbn [fst TireModel.lateral TireModel.longitudinal].
  rewrite Haxis. repeat split; ring.
Qed.

(** A lateral slip of -0.05 on the street tire. *)
Lemma X1_combined_reduces_to_single_axis_witness :
  (value (TireModel.calculateCombinedForce (-0.05) 0 3408.975
            RX8_CONFIG.(tire))).(TireModel.lateral)
  = value (TireModel.calculateForce (-0.05) 3408.975 RX8_CONFIG.(tire)).
Proof.
  apply (X1_combined_reduces_to_single_axis (-0.05) 3408.975
           RX8_CONFIG.(tire)).
  rewrite Rabs_left by lra. lra.
Defined.

(** X2: the force pair returned by the combined-slip law is parallel to
    the slip pair (lateral x slipLongitudinal = longitudinal x
    slipLateral), and reversing both slips reverses both forces. *)
Theorem X2_combined_force_direction
  (slipLateral slipLongitudinal load : R) (tireConfig : TireConfig) :
  let force :=
    value (TireModel.calculateCombinedForce slipLateral slipLongitudinal
             load tireConfig) in
  let reversed :=
    value (TireModel.calculateCombinedForce (- slipLateral)
             (- slipLongitudinal) load tireConfig) in
  force.(TireModel.lateral) * slipLongitudinal
  = force.(TireModel.longitudinal) * slipLateral
  /\ reversed.(TireModel.lateral) = - force.(TireModel.lateral)
  /\ reversed.(TireModel.longitudinal) = - force.(TireModel.longitudinal).
Proof.
  cbv zeta.
  assert (Hneg : slipNorm (- slipLateral) (- slipLongitudinal)
                 = slipNorm slipLateral slipLongitudinal).
  { unfold slipNorm. f_equal. ring. }
  destruct (Rlt_dec (slipNorm slipLateral slipLongitudinal) 0.001)
    as [Hsmall | Hlarge].
  - rewrite (calculateCombinedForce_small tireConfig _ _ load Hsmall).
    rewrite calculateCombinedForce_small by (rewrite Hneg; exact Hsmall).
    unfold value. cbn [fst TireModel.lateral TireModel.longitudinal].
    repeat split; ring.
  - rewrite (calculateCombinedForce_large tireConfig _ _ load Hlarge).
    rewrite calculateCombinedForce_large by (rewrite Hneg; exact Hlarge).
    cbv zeta. rewrite Hneg. unfold value.
    cbn [fst TireModel.lateral TireModel.longitudinal].
    repeat split; ring.
Qed.

(** X3: every division the slip-ratio computation executes has a
    denominator of at least 0.1, whatever its inputs. *)
Theorem X3_slip_ratio_denominators
  (wheelAngularVelocity vehicleVelocity wheelRadius : R) (isBraking : bool) :
  forall (name : string) (den : R),
    In (name, den)
       (divisions (TireModel.calculateSlipRatio wheelAngularVelocity
                     vehicleVelocity wheelRadius isBraking)) ->
    0.1 <= den.
Proof.
  intros name den. unfold TireModel.calculateSlipRatio, Math.abs.
  destruct (Rltb_spec (Rabs vehicleVelocity) 0.1);
    destruct (Rltb_spec (Rabs (wheelAngularVelocity * wheelRadius)) 0.1);
    destruct (isBraking || _);
    unfold divisions, bind, div, ret; cbn [andb fst snd app In];
    intros Hin; repeat destruct Hin as [Hin | Hin];
    try contradiction; injection Hin as _ <-; lra.
Qed.

(** X4: for a vehicle moving forwards at 0.1 m/s or more, without the
    braking flag: a locked wheel gives slip ratio -1, a wheel rolling at
    vehicle speed gives 0, a slower wheel a ratio in [-1, 0) and a faster
    wheel a ratio in (0, 1]. *)
Theorem X4_slip_ratio_sign
  (wheelAngularVelocity vehicleVelocity wheelRadius : R) :
  0.1 <= vehicleVelocity ->
  let wheelLinearVelocity := wheelAngularVelocity * wheelRadius in
  let ratio :=
    value (TireModel.calculateSlipRatio wheelAngularVelocity
             vehicleVelocity wheelRadius false) in
  (wheelLinearVelocity = 0 -> ratio = -1)
  /\ (wheelLinearVelocity = vehicleVelocity -> ratio = 0)
  /\ (0 <= wheelLinearVelocity < vehicleVelocity -> -1 <= ratio < 0)
  /\ (vehicleVelocity < wheelLinearVelocity -> 0 < ratio <= 1).
Proof.
  intros Hv. cbv zeta.
  unfold TireModel.calculateSlipRatio, Math.abs.
  set (wl := wheelAngularVelocity * wheelRadius).
  rewrite (Rabs_pos_eq vehicleVelocity) by lra.
  destruct (Rltb_spec vehicleVelocity 0.1) as [Hlt | _]; [ lra | ].
  cbn [andb orb].
  assert (Hclamp : forall q, -1 <= q <= 1 ->
            Math.max (-1) (Math.min 1 q) = q).
  { intros q [Hq1 Hq2]. unfold Math.max, Math.min.
    rewrite Rmin_right by exact Hq2. apply Rmax_right. exact Hq1. }
  destruct (Rltb_spec wl vehicleVelocity) as [Hslow | Hfast];
    unfold value, bind, div, ret; cbn [fst snd].
  - assert (Hq : -1 <= (wl - vehicleVelocity) / vehicleVelocity < 0
                 \/ wl < 0).
    { destruct (Rle_dec 0 wl); [ left | right; lra ].
      split.
      - apply Rmult_le_reg_r with vehicleVelocity; [ lra | ].
        unfold Rdiv. rewrite Rmult_assoc, Rinv_l by lra. lra.
      - apply Rmult_lt_reg_r with vehicleVelocity; [ lra | ].
        unfold Rdiv. rewrite Rmult_assoc, Rinv_l by lra. lra. }
    split; [ | split; [ | split ] ]; intros Hcase; try lra.
    + rewrite Hcase. replace ((0 - vehicleVelocity) / vehicleVelocity)
        with (-1) by (field; lra).
      apply Hclamp. lra.
    + destruct Hq as [Hq | Hq]; [ | lra ]. rewrite Hclamp; lra.
  - assert (Hwl : 0.1 <= wl) by lra.
    rewrite (Rabs_pos_eq wl) by lra.
    destruct (Rltb_spec wl 0.1) as [Hlt | _]; [ lra | ].
    cbn [fst].
    assert (Hq : 0 <= (wl - vehicleVelocity) / wl <= 1).
    { split.
      - apply Rmult_le_reg_r with wl; [ lra | ].
        unfold Rdiv. rewrite Rmult_assoc, Rinv_l by lra. lra.
      - apply Rmult_le_reg_r with wl; [ lra | ].
        unfold Rdiv. rewrite Rmult_assoc, Rinv_l by lra. lra. }
    rewrite Hclamp by lra.
    split; [ | split; [ | split ] ]; intros Hcase; try lra.
    + rewrite Hcase. unfold Rdiv. ring.
    + split; [ | lra ].
      apply Rmult_lt_reg_r with wl; [ lra | ].
      unfold Rdiv. rewrite Rmult_assoc, Rinv_l by lra. lra.
Qed.

(** Wheel spin: 12 m/s at the tread on a car doing 10 m/s. *)
Lemma X4_slip_ratio_sign_witness :
  0 < value (TireModel.calculateSlipRatio 40 10 0.3 false) <= 1.
Proof.
  apply (X4_slip_ratio_sign 40 10 0.3); lra.
Defined.

Lemma temperatureEffect_range (optimalTemp tempRange : R) :
  tempRange <> 0 ->
  (forall currentTemp : R,
     0.7 <= TireModel.calculateTemperatureEffect currentTemp optimalTemp
              tempRange <= 1)
  /\ TireModel.calculateTemperatureEffect optimalTemp optimalTemp tempRange
     = 1.
Proof.
  intros Hrange. unfold TireModel.calculateTemperatureEffect, Math.abs,
    Math.max.
  split; [ intros currentTemp; split | ].
  - apply Rmax_l.
  - rewrite pow_square. apply Rmax_lub; [ lra | ].
    match goal with |- 1.0 - ?q * ?q <= 1 => assert (0 <= q * q) by nra end.
    lra.
  - replace (optimalTemp - optimalTemp) with 0 by ring.
    rewrite Rabs_R0, pow_square. unfold Rdiv. rewrite !Rmult_0_l.
    rewrite Rmax_right; lra.
Qed.

(** X5: for a non-zero temperature range the temperature multiplier of
    the grip lies in [0.7, 1], equals 1 at the optimal temperature, is the
    same at equal distances above and below the optimum, and is 0.7 from
    one range away on. *)
Theorem X5_temperature_effect (optimalTemp tempRange : R) :
  tempRange <> 0 ->
  (forall currentTemp : R,
     0.7 <= TireModel.calculateTemperatureEffect currentTemp optimalTemp
              tempRange <= 1)
  /\ TireModel.calculateTemperatureEffect optimalTemp optimalTemp tempRange
     = 1
  /\ (forall offset : R,
        TireModel.calculateTemperatureEffect (optimalTemp + offset)
          optimalTemp tempRange
        = TireModel.calculateTemperatureEffect (optimalTemp - offset)
            optimalTemp tempRange)
  /\ (forall currentTemp : R,
        Rabs tempRange <= Rabs (currentTemp - optimalTemp) ->
        TireModel.calculateTemperatureEffect currentTemp optimalTemp
          tempRange = 0.7).
Proof.
  intros Hrange.
  destruct (temperatureEffect_range optimalTemp tempRange Hrange)
    as (Hbounds & Hopt).
  split; [ exact Hbounds | ]. split; [ exact Hopt | ].
  unfold TireModel.calculateTemperatureEffect, Math.abs, Math.max.
  split.
  - intros offset.
    replace (optimalTemp + offset - optimalTemp) with offset by ring.
    replace (optimalTemp - offset - optimalTemp) with (- offset) by ring.
    rewrite Rabs_Ropp. reflexivity.
  - intros currentTemp Hfar. rewrite pow_square. apply Rmax_left.
    set (d := Rabs (currentTemp - optimalTemp)) in *.
    assert (Hq : 1 <= d / tempRange * (d / tempRange)).
    { replace (d / tempRange * (d / tempRange))
        with (d * d / (tempRange * tempRange)) by (field; exact Hrange).
      assert (Hr2 : 0 < tempRange * tempRange) by nra.
      apply Rmult_le_reg_r with (tempRange * tempRange); [ exact Hr2 | ].
      unfold Rdiv. rewrite Rmult_assoc, Rinv_l by lra.
      pose proof (Rabs_pos tempRange).
      replace (tempRange * tempRange) with (Rabs tempRange * Rabs tempRange)
        by (unfold Rabs; destruct (Rcase_abs tempRange); ring).
      nra. }
    lra.
Qed.

(** The street optimum of 50 with the default range of 30. *)
Lemma X5_temperature_effect_witness :
  TireModel.calculateTemperatureEffect 50 50 30 = 1
  /\ TireModel.calculateTemperatureEffect 90 50 30 = 0.7.
Proof.
  destruct (X5_temperature_effect 50 30) as (_ & Hopt & _ & Hfar); [ lra | ].
  split; [ exact Hopt | ].
  apply Hfar. replace (90 - 50) with 40 by lra.
  rewrite !Rabs_pos_eq by lra. lra.
Defined.

(** X6: for a wear level in [0, 1], a load >= 0 and a peak friction
    coefficient >= 0 the grip level lies between 0.49 and 1 times
    peakMu x loadEffect, with loadEffect = (load / (9.81 x 250)) ^
    loadSensitivity; it does not increase with wear; and a new tire at 50
    degrees on the nominal load has grip level peakMu, for the race tire
    as for the street tire. *)
Theorem X6_grip_level_bounds
  (load temperature wearLevel : R) (tireConfig : TireConfig) :
  0 <= wearLevel <= 1 -> 0 <= load -> 0 <= tireConfig.(peakMu) ->
  let loadEffect :=
    Math.pow (load / (9.81 * 250)) tireConfig.(loadSensitivity) in
  0.49 * (tireConfig.(peakMu) * loadEffect)
  <= TireModel.getGripLevel load temperature tireConfig wearLevel
  <= tireConfig.(peakMu) * loadEffect
  /\ (forall moreWear : R,
        wearLevel <= moreWear ->
        TireModel.getGripLevel load temperature tireConfig moreWear
        <= TireModel.getGripLevel load temperature tireConfig wearLevel)
  /\ TireModel.getGripLevel (9.81 * 250) 50 tireConfig 0
     = tireConfig.(peakMu).
Proof.
  intros Hwear Hload Hmu. cbv zeta. unfold TireModel.getGripLevel.
  cbn [PHYSICS_CONFIG.tireOptimalTemp PHYSICS_CONFIG.street].
  assert (Hthirty : (30 : R) <> 0) by lra.
  destruct (temperatureEffect_range 50 30 Hthirty) as (Hrange & Hopt).
  pose proof (Hrange temperature) as Ht.
  set (effect := TireModel.calculateTemperatureEffect temperature 50 30) in *.
  pose proof (pow_nonneg (load / (9.81 * 250)) tireConfig.(loadSensitivity))
    as Hfactor.
  set (loadEffect :=
         Math.pow (load / (9.81 * 250)) tireConfig.(loadSensitivity)) in *.
  assert (Hml : 0 <= tireConfig.(peakMu) * loadEffect)
    by (apply Rmult_le_pos; assumption).
  split; [ | split ].
  - assert (Ha : 0.49 <= effect * (1 - wearLevel * 0.3) <= 1) by nra.
    replace (tireConfig.(peakMu) * effect * (1 - wearLevel * 0.3)
             * loadEffect)
      with (tireConfig.(peakMu) * loadEffect
            * (effect * (1 - wearLevel * 0.3))) by ring.
    split; nra.
  - intros moreWear Hmore.
    assert (Hbase : 0 <= tireConfig.(peakMu) * loadEffect * effect) by nra.
    replace (tireConfig.(peakMu) * effect * (1 - moreWear * 0.3)
             * loadEffect)
      with (tireConfig.(peakMu) * loadEffect * effect
            * (1 - moreWear * 0.3)) by ring.
    replace (tireConfig.(peakMu) * effect * (1 - wearLevel * 0.3)
             * loadEffect)
      with (tireConfig.(peakMu) * loadEffect * effect
            * (1 - wearLevel * 0.3)) by ring.
    nra.
  - rewrite Hopt. unfold Math.pow.
    replace (9.81 * 250 / (9.81 * 250)) with 1 by (field; lra).
    destruct (Rltb_spec 0 1) as [_ | Hn]; [ | lra ].
    unfold Rpower. rewrite ln_1, Rmult_0_r, exp_0. ring.
Qed.

(** A new race tire at 50 degrees on the nominal load. *)
Lemma X6_grip_level_bounds_witness :
  TireModel.getGripLevel (9.81 * 250) 50 F1_CONFIG.(tire) 0 = 1.8.
Proof.
  apply (X6_grip_level_bounds (9.81 * 250) 50 0 F1_CONFIG.(tire));
    cbn; lra.
Defined.

(** X7: for a resolution >= 1 the friction-ellipse outline has
    resolution + 1 points, every point lies on the ellipse with the two
    maximal forces as semi-axes, and the outline is closed: it starts and
    ends at (maxLateralForce, 0). *)
Theorem X7_friction_circle_points
  (maxLateralForce maxLongitudinalForce : R) (resolution : nat) :
  (1 <= resolution)%nat ->
  let points :=
    TireModel.getFrictionCirclePoints maxLateralForce maxLongitudinalForce
      resolution in
  List.length points = S resolution
  /\ (forall p : TireModel.Point.t,
        In p points ->
        Rsqr (p.(TireModel.Point.x) * maxLongitudinalForce)
        + Rsqr (p.(TireModel.Point.y) * maxLateralForce)
        = Rsqr (maxLateralForce * maxLongitudinalForce))
  /\ nth_error points 0 = Some (TireModel.Point.mk maxLateralForce 0)
  /\ nth_error points resolution
     = Some (TireModel.Point.mk maxLateralForce 0).
Proof.
  intros Hres. cbv zeta. unfold TireModel.getFrictionCirclePoints.
  split; [ | split; [ | split ] ].
  - rewrite length_map, length_seq. reflexivity.
  - intros p Hin. apply in_map_iff in Hin. destruct Hin as (i & <- & _).
    cbn [TireModel.Point.x TireModel.Point.y].
    set (angle := INR i / INR resolution * PI * 2).
    pose proof (sin2_cos2 angle) as Hunit. unfold Rsqr in *.
    transitivity
      (maxLateralForce * maxLongitudinalForce
       * (maxLateralForce * maxLongitudinalForce)
       * (sin angle * sin angle + cos angle * cos angle)).
    + ring.
    + rewrite Hunit. ring.
  - cbn [seq map nth_error]. cbn [INR]. f_equal.
    replace (0 / INR resolution * PI * 2) with 0 by (unfold Rdiv; ring).
    rewrite cos_0, sin_0. f_equal; ring.
  - rewrite nth_error_map, nth_error_seq.
    destruct (Nat.ltb_spec resolution (S resolution)) as [_ | Hn]; [ | lia ].
    cbn [option_map Nat.add]. f_equal.
    assert (Hnz : INR resolution <> 0).
    { apply not_0_INR. lia. }
    replace (INR resolution / INR resolution * PI * 2) with (2 * PI)
      by (field; exact Hnz).
    rewrite cos_2PI, sin_2PI. f_equal; ring.
Qed.

(** The default resolution, 32. *)
Lemma X7_friction_circle_points_witness :
  List.length (TireModel.getFrictionCirclePoints 4000 3500 32) = 33%nat
  /\ nth_error (TireModel.getFrictionCirclePoints 4000 3500 32) 32
     = Some (TireModel.Point.mk 4000 0).
Proof.
  destruct (X7_friction_circle_points 4000 3500 32) as (Hlen & _ & _ & Hlast).
  - lia.
  - split; assumption.
Defined.

(** X8: for a positive maximal force the utilization is the Euclidean
    norm of the two normalised components, never negative, and the
    magnitude is utilization x maxForce; applied to the force pair of the
    combined-slip law with maxForce = load x peakMu, the utilization is
    the absolute value of the [utilizationRatio] that law returns. *)
Theorem X8_force_utilization :
  (forall lateralForce longitudinalForce maxForce : R,
     0 < maxForce ->
     let u :=
       TireModel.getForceUtilization lateralForce longitudinalForce
         maxForce in
     Rsqr u.(TireModel.Utilization.utilization)
     = Rsqr u.(TireModel.Utilization.lateral)
       + Rsqr u.(TireModel.Utilization.longitudinal)
     /\ 0 <= u.(TireModel.Utilization.utilization)
     /\ u.(TireModel.Utilization.magnitude)
        = u.(TireModel.Utilization.utilization) * maxForce)
  /\ (forall (slipLateral slipLongitudinal load : R)
             (tireConfig : TireConfig) (ratio : R),
        0 < load * tireConfig.(peakMu) ->
        let force :=
          value (TireModel.calculateCombinedForce slipLateral
                   slipLongitudinal load tireConfig) in
        force.(TireModel.utilizationRatio) = Some ratio ->
        (TireModel.getForceUtilization force.(TireModel.lateral)
           force.(TireModel.longitudinal) (load * tireConfig.(peakMu)))
          .(TireModel.Utilization.utilization)
        = Rabs ratio).
Proof.
  split.
  - intros lateralForce longitudinalForce maxForce Hmax. cbv zeta.
    unfold TireModel.getForceUtilization.
    cbn [TireModel.Utilization.utilization TireModel.Utilization.lateral
         TireModel.Utilization.longitudinal
         TireModel.Utilization.magnitude].
    set (sq := lateralForce * lateralForce
               + longitudinalForce * longitudinalForce).
    assert (Hsq : 0 <= sq) by (unfold sq; nra).
    pose proof (sqrt_sqrt sq Hsq) as Hroot.
    pose proof (sqrt_pos sq) as Hpos.
    split; [ | split ].
    + unfold Rsqr.
      replace (sqrt sq / maxForce * (sqrt sq / maxForce))
        with (sqrt sq * sqrt sq / (maxForce * maxForce))
        by (field; lra).
      rewrite Hroot. unfold sq. field. lra.
    + apply Rmult_le_pos; [ exact Hpos | ].
      left. apply Rinv_0_lt_compat. exact Hmax.
    + field. lra.
  - intros slipLateral slipLongitudinal load tireConfig ratio Hmax.
    cbv zeta.
    destruct (Rlt_dec (slipNorm slipLateral slipLongitudinal) 0.001)
      as [Hsmall | Hlarge].
    + rewrite (calculateCombinedForce_small tireConfig _ _ load Hsmall).
      unfold value. cbn [fst TireModel.utilizationRatio]. discriminate.
    + intros Hratio.
      pose proof (combinedForce_magnitude tireConfig _ _ load Hlarge)
        as Hmag.
      unfold TireModel.getForceUtilization.
      cbn [TireModel.Utilization.utilization].
      unfold forceMagnitude in Hmag. rewrite Hmag.
      rewrite (calculateCombinedForce_large tireConfig _ _ load Hlarge)
        in Hratio.
      cbv zeta in Hratio. unfold value at 1 in Hratio.
      cbn [fst TireModel.utilizationRatio] in Hratio.
      injection Hratio as <-.
      unfold Rdiv. rewrite Rabs_mult.
      rewrite (Rabs_pos_eq (/ (load * tireConfig.(peakMu)))).
      * reflexivity.
      * left. apply Rinv_0_lt_compat. exact Hmax.
Qed.

(** A force pair of (3000, 4000) N against a maximal force of 5000 N. *)
Lemma X8_force_utilization_witness :
  (TireModel.getForceUtilization 3000 4000 5000)
    .(TireModel.Utilization.magnitude)
  = (TireModel.getForceUtilization 3000 4000 5000)
      .(TireModel.Utilization.utilization) * 5000.
Proof.
  apply (proj1 X8_force_utilization 3000 4000 5000). lra.
Defined.

(** X9: without slip the tire-temperature update never heats: from a
    temperature within [20, 150] and at a speed >= 0 the result lies
    between ambient (20) and the current temperature, for every time
    step; from ambient it stays at ambient. *)
Theorem X9_tire_cools_without_slip (currentTemp load speed deltaTime : R) :
  20 <= currentTemp <= 150 -> 0 <= speed ->
  20 <= TireModel.updateTireTemperature currentTemp 0 load speed deltaTime
  <= currentTemp
  /\ TireModel.updateTireTemperature 20 0 load speed deltaTime = 20.
Proof.
  intros Htemp Hspeed.
  unfold TireModel.updateTireTemperature, TireModel.ambientTemp,
    TireModel.heatGenerationRate, TireModel.coolingRate, Math.abs,
    Math.max, Math.min.
  rewrite Rabs_R0.
  split.
  - split; [ apply Rmax_l | ].
    apply Rmax_lub; [ lra | ].
    apply Rle_trans with (1 := Rmin_r _ _).
    assert (0 <= (currentTemp - 20) * (1 + speed * 0.01)) by nra.
    assert (0 <= deltaTime * deltaTime) by nra.
    assert (0 <= (currentTemp - 20) * (1 + speed * 0.01)
                 * (deltaTime * deltaTime)) by (apply Rmult_le_pos; lra).
    nra.
  - replace (20 + (0 * load * speed * 0.5 * 0.0001
                   - (20 - 20) * 0.1 * (1 + speed * 0.01) * deltaTime)
                  * deltaTime) with 20 by ring.
    rewrite Rmin_right by lra. apply Rmax_left. lra.
Qed.

(** A tire at 90 degrees rolling at 30 m/s over one fixed step. *)
Lemma X9_tire_cools_without_slip_witness :
  20 <= TireModel.updateTireTemperature 90 0 3408.975 30
          PHYSICS_CONFIG.timeStep
  <= 90.
Proof.
  apply (X9_tire_cools_without_slip 90 3408.975 30 PHYSICS_CONFIG.timeStep);
    lra.
Defined.

(** * Further properties of the weight-transfer model *)

Lemma max0_ge (a : R) : a <= Math.max 0 a /\ 0 <= Math.max 0 a.
Proof. unfold Math.max. split; [ apply Rmax_r | apply Rmax_l ]. Qed.

(** X10: [calculateCombined] never returns a negative wheel load, and its
    final clamp only ever adds load: the four returned loads add up to at
    least mass x gravity x (front fraction + rear fraction), with equality
    exactly when no load was negative before the clamp. *)
Theorem X10_combined_clamp_adds_load
  (vehicle : VehicleConfig) (lateralG longitudinalG rollAngle pitchAngle : R) :
  let weights :=
    WeightTransfer.calculateCombined vehicle lateralG longitudinalG
      rollAngle pitchAngle in
  let static :=
    vehicle.(mass) * PHYSICS_CONFIG.gravity
    * (vehicle.(weightDistribution).(front)
       + vehicle.(weightDistribution).(rear)) in
  (0 <= weights.(WeightTransfer.FL) /\ 0 <= weights.(WeightTransfer.FR)
   /\ 0 <= weights.(WeightTransfer.RL) /\ 0 <= weights.(WeightTransfer.RR))
  /\ static <= totalLoad weights
  /\ (totalLoad weights = static
      <-> weights
          = WeightTransfer.combinedBeforeClamp vehicle lateralG
              longitudinalG rollAngle pitchAngle).
Proof.
  cbv zeta.
  rewrite <- (combinedBeforeClamp_total vehicle lateralG longitudinalG
                rollAngle pitchAngle).
  unfold WeightTransfer.calculateCombined.
  set (before := WeightTransfer.combinedBeforeClamp vehicle lateralG
                   longitudinalG rollAngle pitchAngle).
  destruct before as [fl fr rl rr].
  unfold WeightTransfer.clampWeights, totalLoad.
  cbn [WeightTransfer.FL WeightTransfer.FR WeightTransfer.RL
       WeightTransfer.RR].
  destruct (max0_ge fl) as [Hfl Hfl0]. destruct (max0_ge fr) as [Hfr Hfr0].
  destruct (max0_ge rl) as [Hrl Hrl0]. destruct (max0_ge rr) as [Hrr Hrr0].
  split; [ repeat split; assumption | ].
  split; [ lra | ].
  split.
  - intros Hsum. f_equal; lra.
  - intros Heq. injection Heq as -> -> -> ->. reflexivity.
Qed.

(** X11: without roll and pitch, for a lateral acceleration >= 0 on a
    configuration with non-negative mass, axle fractions and CG height and
    positive track widths, the right wheel of each axle carries at least
    the load of the left wheel; strictly more on the front axle when the
    acceleration, mass, front fraction and CG height are positive and the
    front-right wheel carries load. *)
Theorem X11_outside_wheel_loaded
  (vehicle : VehicleConfig) (lateralG longitudinalG : R) :
  0 <= vehicle.(mass) -> 0 <= vehicle.(cgHeight) ->
  0 <= vehicle.(weightDistribution).(front) ->
  0 <= vehicle.(weightDistribution).(rear) ->
  0 < vehicle.(trackWidth).(front) -> 0 < vehicle.(trackWidth).(rear) ->
  0 <= lateralG ->
  let weights :=
    WeightTransfer.calculateCombined vehicle lateralG longitudinalG 0 0 in
  weights.(WeightTransfer.FL) <= weights.(WeightTransfer.FR)
  /\ weights.(WeightTransfer.RL) <= weights.(WeightTransfer.RR)
  /\ (0 < lateralG -> 0 < vehicle.(mass) -> 0 < vehicle.(cgHeight) ->
      0 < vehicle.(weightDistribution).(front) ->
      0 < weights.(WeightTransfer.FR) ->
      weights.(WeightTransfer.FL) < weights.(WeightTransfer.FR)).
Proof.
  intros Hmass Hcg Hf Hr Htf Htr Hlat. cbv zeta.
  unfold WeightTransfer.calculateCombined, WeightTransfer.clampWeights,
    WeightTransfer.combinedBeforeClamp, PHYSICS_CONFIG.gravity.
  destruct (Reqb_spec 0 0) as [_ | Hn]; [ | lra ].
  cbn [WeightTransfer.FL WeightTransfer.FR WeightTransfer.RL
       WeightTransfer.RR].
  set (tf := vehicle.(mass) * 9.81 * vehicle.(weightDistribution).(front)
             * lateralG * vehicle.(cgHeight) / vehicle.(trackWidth).(front)).
  set (tr := vehicle.(mass) * 9.81 * vehicle.(weightDistribution).(rear)
             * lateralG * vehicle.(cgHeight) / vehicle.(trackWidth).(rear)).
  assert (Hnum : forall w, 0 <= w ->
            0 <= vehicle.(mass) * 9.81 * w * lateralG * vehicle.(cgHeight)).
  { intros w Hw.
    apply Rmult_le_pos; [ apply Rmult_le_pos; [ apply Rmult_le_pos | ] | ];
      lra. }
  assert (Htf0 : 0 <= tf).
  { unfold tf. apply Rmult_le_pos; [ apply Hnum; exact Hf | ].
    left. apply Rinv_0_lt_compat. exact Htf. }
  assert (Htr0 : 0 <= tr).
  { unfold tr. apply Rmult_le_pos; [ apply Hnum; exact Hr | ].
    left. apply Rinv_0_lt_compat. exact Htr. }
  unfold Math.max.
  split; [ | split ].
  - apply Rle_max_compat_l. lra.
  - apply Rle_max_compat_l. lra.
  - intros Hlat' Hmass' Hcg' Hf' Hfr.
    assert (Htf1 : 0 < tf).
    { unfold tf. apply Rmult_lt_0_compat;
        [ | apply Rinv_0_lt_compat; exact Htf ].
      apply Rmult_lt_0_compat;
        [ apply Rmult_lt_0_compat; [ apply Rmult_lt_0_compat | ] | ];
        lra. }
    match goal with |- Rmax 0 ?a < Rmax 0 ?b =>
      unfold Rmax in *; destruct (Rle_dec 0 a); destruct (Rle_dec 0 b);
        lra end.
Qed.

(** The street car of the specification's scenario: 1 g to the left. *)
Lemma X11_outside_wheel_loaded_witness :
  (WeightTransfer.calculateCombined RX8_CONFIG 1 0 0 0).(WeightTransfer.FL)
  < (WeightTransfer.calculateCombined RX8_CONFIG 1 0 0 0).(WeightTransfer.FR).
Proof.
  apply (X11_outside_wheel_loaded RX8_CONFIG 1 0); try (cbn; lra).
  unfold WeightTransfer.calculateCombined, WeightTransfer.clampWeights,
    WeightTransfer.combinedBeforeClamp, PHYSICS_CONFIG.gravity.
  destruct (Reqb_spec 0 0) as [_ | Hn]; [ | lra ].
  cbn [WeightTransfer.FR RX8_CONFIG mass wheelbase trackWidth cgHeight
       weightDistribution front rear].
  unfold Math.max. apply Rlt_le_trans with (2 := Rmax_r _ _). lra.
Defined.

(** X12: the lateral-only and the longitudinal-only variants conserve
    the static weight for every input (they do not clamp), and they agree
    with the combined computation before its clamp: the axle sums of the
    combined loads are the two axle loads of [calculateLongitudinal], and
    for equal front and rear track widths the combined loads at zero
    longitudinal acceleration are the four loads of [calculateLateral]. *)
Theorem X12_single_axis_variants
  (vehicle : VehicleConfig) (lateralG longitudinalG : R)
  (givenTrackWidth : option R) :
  let static :=
    vehicle.(mass) * PHYSICS_CONFIG.gravity
    * (vehicle.(weightDistribution).(front)
       + vehicle.(weightDistribution).(rear)) in
  let lat := WeightTransfer.calculateLateral vehicle lateralG
               givenTrackWidth in
  let long := WeightTransfer.calculateLongitudinal vehicle longitudinalG in
  let combined :=
    WeightTransfer.combinedBeforeClamp vehicle lateralG longitudinalG 0 0 in
  lat.(WeightTransfer.Lateral.frontLeft)
  + lat.(WeightTransfer.Lateral.frontRight)
  + lat.(WeightTransfer.Lateral.rearLeft)
  + lat.(WeightTransfer.Lateral.rearRight) = static
  /\ long.(WeightTransfer.Longitudinal.frontAxle)
     + long.(WeightTransfer.Longitudinal.rearAxle) = static
  /\ combined.(WeightTransfer.FL) + combined.(WeightTransfer.FR)
     = long.(WeightTransfer.Longitudinal.frontAxle)
  /\ combined.(WeightTransfer.RL) + combined.(WeightTransfer.RR)
     = long.(WeightTransfer.Longitudinal.rearAxle)
  /\ (vehicle.(trackWidth).(front) = vehicle.(trackWidth).(rear) ->
      let alone := WeightTransfer.calculateLateral vehicle lateralG None in
      WeightTransfer.combinedBeforeClamp vehicle lateralG 0 0 0
      = {| WeightTransfer.FL := alone.(WeightTransfer.Lateral.frontLeft);
           WeightTransfer.FR := alone.(WeightTransfer.Lateral.frontRight);
           WeightTransfer.RL := alone.(WeightTransfer.Lateral.rearLeft);
           WeightTransfer.RR := alone.(WeightTransfer.Lateral.rearRight) |}).
Proof.
  cbv zeta.
  unfold WeightTransfer.calculateLateral, WeightTransfer.calculateLongitudinal,
    WeightTransfer.combinedBeforeClamp.
  destruct (Reqb_spec 0 0) as [_ | Hn]; [ | lra ].
  cbn [WeightTransfer.Lateral.frontLeft WeightTransfer.Lateral.frontRight
       WeightTransfer.Lateral.rearLeft WeightTransfer.Lateral.rearRight
       WeightTransfer.Longitudinal.frontAxle
       WeightTransfer.Longitudinal.rearAxle
       WeightTransfer.FL WeightTransfer.FR WeightTransfer.RL
       WeightTransfer.RR].
  split; [ lra | ]. split; [ lra | ]. split; [ lra | ]. split; [ lra | ].
  intros Htrack. rewrite <- Htrack.
  set (track := vehicle.(trackWidth).(front)).
  replace ((track + track) / 2) with track by lra.
  unfold Rdiv. f_equal; ring.
Qed.

(** The race car, whose two track widths are both 2 m. *)
Lemma X12_single_axis_variants_witness :
  let alone := WeightTransfer.calculateLateral F1_CONFIG 2 None in
  WeightTransfer.combinedBeforeClamp F1_CONFIG 2 0 0 0
  = {| WeightTransfer.FL := alone.(WeightTransfer.Lateral.frontLeft);
       WeightTransfer.FR := alone.(WeightTransfer.Lateral.frontRight);
       WeightTransfer.RL := alone.(WeightTransfer.Lateral.rearLeft);
       WeightTransfer.RR := alone.(WeightTransfer.Lateral.rearRight) |}.
Proof.
  apply (X12_single_axis_variants F1_CONFIG 2 0 None). reflexivity.
Defined.

(** ** The damping filter *)

Lemma dampKey_convex (previousWeight current deltaTime : R) :
  previousWeight <> 0 -> 0 <= deltaTime ->
  exists k : R,
    0 <= k <= 0.8
    /\ (1 / 10 <= deltaTime -> k = 0.8)
    /\ WeightTransfer.dampKey previousWeight current deltaTime
       = previousWeight + (current - previousWeight) * k.
Proof.
  intros Hprev Hdt. unfold WeightTransfer.dampKey, WeightTransfer.dampingFactor.
  destruct (Reqb_spec previousWeight 0) as [H0 | _]; [ contradiction | ].
  exists (Math.min 1 (deltaTime * 10) * 0.8).
  unfold Math.min, Rmin. destruct (Rle_dec 1 (deltaTime * 10)).
  - repeat split; lra.
  - repeat split; lra.
Qed.

(** X13: one pass of the damping filter on a wheel whose stored previous
    load is not 0 and for a time step >= 0 returns a value between the
    previous and the current load that keeps at least 20 percent of the
    gap to the current load (exactly 20 percent from a time step of 0.1 s
    on); a stored previous load of 0 is taken as missing and the current
    load is returned unchanged, so the first call of a new filter returns
    its input. *)
Theorem X13_damping_filter :
  (forall previousWeight current deltaTime : R,
     previousWeight <> 0 -> 0 <= deltaTime ->
     let damped :=
       WeightTransfer.dampKey previousWeight current deltaTime in
     Rmin previousWeight current <= damped <= Rmax previousWeight current
     /\ 0.2 * Rabs (current - previousWeight) <= Rabs (current - damped)
     /\ (1 / 10 <= deltaTime ->
         current - damped = 0.2 * (current - previousWeight)))
  /\ (forall current deltaTime : R,
        WeightTransfer.dampKey 0 current deltaTime = current)
  /\ (forall (currentWeights : WeightTransfer.Weights) (deltaTime : R),
        WeightTransfer.applyDamping WeightTransfer.initialPreviousWeights
          currentWeights deltaTime
        = currentWeights).
Proof.
  assert (Hzero : forall current deltaTime : R,
            WeightTransfer.dampKey 0 current deltaTime = current).
  { intros current deltaTime. unfold WeightTransfer.dampKey.
    destruct (Reqb_spec 0 0) as [_ | Hn]; [ ring | contradiction ]. }
  split; [ | split ].
  - intros previousWeight current deltaTime Hprev Hdt. cbv zeta.
    destruct (dampKey_convex previousWeight current deltaTime Hprev Hdt)
      as (k & Hk & Hfull & ->).
    assert (Hgap : current - (previousWeight + (current - previousWeight) * k)
                   = (1 - k) * (current - previousWeight)) by ring.
    split; [ | split ].
    + unfold Rmin, Rmax. destruct (Rle_dec previousWeight current); nra.
    + rewrite Hgap, Rabs_mult, (Rabs_pos_eq (1 - k)) by lra.
      pose proof (Rabs_pos (current - previousWeight)). nra.
    + intros Hlong. rewrite Hgap, (Hfull Hlong). lra.
  - exact Hzero.
  - intros [fl fr rl rr] deltaTime.
    unfold WeightTransfer.applyDamping, WeightTransfer.initialPreviousWeights.
    cbn [WeightTransfer.FL WeightTransfer.FR WeightTransfer.RL
         WeightTransfer.RR].
    rewrite !Hzero. reflexivity.
Qed.

(** A wheel going from 3000 N to 4000 N over one fixed step. *)
Lemma X13_damping_filter_witness :
  3000 <= WeightTransfer.dampKey 3000 4000 PHYSICS_CONFIG.timeStep <= 4000.
Proof.
  destruct (proj1 X13_damping_filter 3000 4000 PHYSICS_CONFIG.timeStep)
    as (Hbetween & _).
  - lra.
  - unfold PHYSICS_CONFIG.timeStep. lra.
  - rewrite Rmin_left, Rmax_right in Hbetween by lra. exact Hbetween.
Defined.

(** X14: trail braking leaves the two rear loads of the combined
    computation untouched and changes the front loads by a trail effect of
    min(0.15, speed / 100) x brakeForce / 1000: the outside front wheel
    (the right one for a lateral acceleration > 0, else the left one)
    gains it, the inside front wheel loses 30 percent of it, without a
    further clamp.  For speed and brake force >= 0 the effect lies in
    [0, 0.00015 x brakeForce]. *)
Theorem X14_trail_braking
  (vehicle : VehicleConfig) (brakeForce lateralG speed : R) :
  let base :=
    WeightTransfer.calculateCombined vehicle lateralG
      (- (brakeForce / (vehicle.(mass) * PHYSICS_CONFIG.gravity))) 0 0 in
  let trail :=
    WeightTransfer.calculateTrailBraking vehicle brakeForce lateralG speed in
  let trailEffect := Rmin 0.15 (speed / 100) * brakeForce * 0.001 in
  trail.(WeightTransfer.RL) = base.(WeightTransfer.RL)
  /\ trail.(WeightTransfer.RR) = base.(WeightTransfer.RR)
  /\ (0 < lateralG ->
      trail.(WeightTransfer.FR) = base.(WeightTransfer.FR) + trailEffect
      /\ trail.(WeightTransfer.FL)
         = base.(WeightTransfer.FL) - 0.3 * trailEffect)
  /\ (lateralG <= 0 ->
      trail.(WeightTransfer.FL) = base.(WeightTransfer.FL) + trailEffect
      /\ trail.(WeightTransfer.FR)
         = base.(WeightTransfer.FR) - 0.3 * trailEffect)
  /\ totalLoad trail = totalLoad base + 0.7 * trailEffect
  /\ (0 <= speed -> 0 <= brakeForce ->
      0 <= trailEffect <= 0.00015 * brakeForce).
Proof.
  cbv zeta. unfold WeightTransfer.calculateTrailBraking, Math.min, totalLoad.
  set (base := WeightTransfer.calculateCombined _ _ _ _ _).
  assert (Hbound : 0 <= speed -> 0 <= brakeForce ->
            0 <= Rmin 0.15 (speed / 100) * brakeForce * 0.001
            <= 0.00015 * brakeForce).
  { intros Hspeed Hbrake. unfold Rmin.
    destruct (Rle_dec 0.15 (speed / 100)); nra. }
  set (trailEffect := Rmin 0.15 (speed / 100) * brakeForce * 0.001) in *.
  destruct (Rltb_spec 0 lateralG) as [Hpos | Hneg];
    cbn [WeightTransfer.FL WeightTransfer.FR WeightTransfer.RL
         WeightTransfer.RR].
  - split; [ reflexivity | ]. split; [ reflexivity | ].
    split; [ intros _; split; lra | ].
    split; [ intros Hle; lra | ].
    split; [ lra | exact Hbound ].
  - split; [ reflexivity | ]. split; [ reflexivity | ].
    split; [ intros Hlt; lra | ].
    split; [ intros _; split; lra | ].
    split; [ lra | exact Hbound ].
Qed.

(** The street car braking with 5000 N at 0.5 g and 30 m/s. *)
Lemma X14_trail_braking_witness :
  0 <= Rmin 0.15 (30 / 100) * 5000 * 0.001 <= 0.00015 * 5000.
Proof.
  apply (X14_trail_braking RX8_CONFIG 5000 0.5 30); lra.
Defined.

(** X15: for four wheel loads whose sum is not 0 the four percentages
    add up to 100, as do the front and rear totals and the left and right
    totals, and the front total is the sum of the two front
    percentages. *)
Theorem X15_distribution_percentages (weights : WeightTransfer.Weights) :
  totalLoad weights <> 0 ->
  let p := WeightTransfer.getDistributionPercentages weights in
  p.(WeightTransfer.Percentages.FL) + p.(WeightTransfer.Percentages.FR)
  + p.(WeightTransfer.Percentages.RL) + p.(WeightTransfer.Percentages.RR)
  = 100
  /\ p.(WeightTransfer.Percentages.frontTotal)
     + p.(WeightTransfer.Percentages.rearTotal) = 100
  /\ p.(WeightTransfer.Percentages.leftTotal)
     + p.(WeightTransfer.Percentages.rightTotal) = 100
  /\ p.(WeightTransfer.Percentages.frontTotal)
     = p.(WeightTransfer.Percentages.FL) + p.(WeightTransfer.Percentages.FR).
Proof.
  unfold totalLoad. intros Htotal. cbv zeta.
  unfold WeightTransfer.getDistributionPercentages.
  cbn [WeightTransfer.Percentages.FL WeightTransfer.Percentages.FR
       WeightTransfer.Percentages.RL WeightTransfer.Percentages.RR
       WeightTransfer.Percentages.frontTotal
       WeightTransfer.Percentages.rearTotal
       WeightTransfer.Percentages.leftTotal
       WeightTransfer.Percentages.rightTotal].
  repeat split; field; exact Htotal.
Qed.

(** Loads of 2400, 4400, 2500 and 4300 N. *)
Lemma X15_distribution_percentages_witness :
  let p :=
    WeightTransfer.getDistributionPercentages
      (WeightTransfer.mkWeights 2400 4400 2500 4300) in
  p.(WeightTransfer.Percentages.frontTotal)
  + p.(WeightTransfer.Percentages.rearTotal) = 100.
Proof.
  apply (X15_distribution_percentages
           (WeightTransfer.mkWeights 2400 4400 2500 4300)).
  unfold totalLoad. cbn. lra.
Defined.

(** X16: for four non-negative wheel loads with a positive sum, as
    [calculateCombined] returns them, both coordinates of the balance
    point lie in [-1, 1]; x is 0 exactly when left and right carry the
    same load and y is 0 exactly when front and rear do. *)
Theorem X16_balance_point (weights : WeightTransfer.Weights) :
  0 <= weights.(WeightTransfer.FL) -> 0 <= weights.(WeightTransfer.FR) ->
  0 <= weights.(WeightTransfer.RL) -> 0 <= weights.(WeightTransfer.RR) ->
  0 < totalLoad weights ->
  let b := WeightTransfer.getBalancePoint weights in
  -1 <= b.(WeightTransfer.BalancePoint.x) <= 1
  /\ -1 <= b.(WeightTransfer.BalancePoint.y) <= 1
  /\ (b.(WeightTransfer.BalancePoint.x) = 0
      <-> weights.(WeightTransfer.FL) + weights.(WeightTransfer.RL)
          = weights.(WeightTransfer.FR) + weights.(WeightTransfer.RR))
  /\ (b.(WeightTransfer.BalancePoint.y) = 0
      <-> weights.(WeightTransfer.FL) + weights.(WeightTransfer.FR)
          = weights.(WeightTransfer.RL) + weights.(WeightTransfer.RR)).
Proof.
  destruct weights as [fl fr rl rr]. unfold totalLoad.
  cbn [WeightTransfer.FL WeightTransfer.FR WeightTransfer.RL
       WeightTransfer.RR].
  intros Hfl Hfr Hrl Hrr Htotal. cbv zeta.
  unfold WeightTransfer.getBalancePoint.
  cbn [WeightTransfer.FL WeightTransfer.FR WeightTransfer.RL
       WeightTransfer.RR WeightTransfer.BalancePoint.x
       WeightTransfer.BalancePoint.y].
  set (total := fl + fr + rl + rr) in *.
  assert (Hshare : forall part : R,
            0 <= part <= total ->
            0 <= part / total <= 1
            /\ ((part / total - 0.5) * 2 = 0 <-> part + part = total)).
  { intros part [Hp0 Hp1].
    assert (Hq : part / total * total = part) by (field; lra).
    set (q := part / total) in *.
    split; [ split | split ].
    - apply Rmult_le_reg_r with total; [ exact Htotal | ]. lra.
    - apply Rmult_le_reg_r with total; [ exact Htotal | ]. lra.
    - intros Hzero. assert (q = 0.5) by lra. nra.
    - intros Hhalf. assert (q * total = 0.5 * total) by lra.
      assert (q = 0.5).
      { apply Rmult_eq_reg_r with total; lra. }
      lra. }
  destruct (Hshare (fl + rl)) as (Hx & Hx0); [ unfold total; lra | ].
  destruct (Hshare (fl + fr)) as (Hy & Hy0); [ unfold total; lra | ].
  split; [ lra | ]. split; [ lra | ].
  split.
  - rewrite Hx0. unfold total. split; lra.
  - rewrite Hy0. unfold total. split; lra.
Qed.

(** Loads of 2400, 4400, 2500 and 4300 N. *)
Lemma X16_balance_point_witness :
  -1 <= (WeightTransfer.getBalancePoint
           (WeightTransfer.mkWeights 2400 4400 2500 4300))
          .(WeightTransfer.BalancePoint.x) <= 1.
Proof.
  apply (X16_balance_point (WeightTransfer.mkWeights 2400 4400 2500 4300));
    unfold totalLoad; cbn; lra.
Defined.

(** X17: for a CG height >= 0 the centre-of-gravity shift is bounded by
    the CG height: the lateral and the longitudinal shift have magnitude
    at most cgHeight and the vertical shift lies in [0, cgHeight]; without
    acceleration there is no shift. *)
Theorem X17_cg_shift (vehicle : VehicleConfig) (lateralG longitudinalG : R) :
  0 <= vehicle.(cgHeight) ->
  let shift :=
    WeightTransfer.calculateCGShift vehicle lateralG longitudinalG in
  let atRest := WeightTransfer.calculateCGShift vehicle 0 0 in
  Rabs shift.(WeightTransfer.CGShift.lateral) <= vehicle.(cgHeight)
  /\ Rabs shift.(WeightTransfer.CGShift.longitudinal) <= vehicle.(cgHeight)
  /\ 0 <= shift.(WeightTransfer.CGShift.vertical) <= vehicle.(cgHeight)
  /\ atRest = WeightTransfer.CGShift.mk 0 0 0.
Proof.
  intros Hcg. cbv zeta. unfold WeightTransfer.calculateCGShift.
  cbn [WeightTransfer.CGShift.lateral WeightTransfer.CGShift.longitudinal
       WeightTransfer.CGShift.vertical].
  set (rollAngle := atan _). set (pitchAngle := atan _).
  assert (Hsin : forall a, Rabs (vehicle.(cgHeight) * sin a)
                           <= vehicle.(cgHeight)).
  { intros a. rewrite Rabs_mult, (Rabs_pos_eq _ Hcg).
    assert (Rabs (sin a) <= 1) by (apply Rabs_le; apply SIN_bound).
    nra. }
  assert (Hcos : forall x, 0 < cos (atan x) <= 1).
  { intros x. destruct (atan_bound x) as [Hlo Hhi]. split.
    - apply cos_gt_0; lra.
    - apply COS_bound. }
  split; [ apply Hsin | ]. split; [ apply Hsin | ].
  split.
  - destruct (Hcos (lateralG * vehicle.(cgHeight)
                    / (vehicle.(trackWidth).(front) / 2))) as [Hr0 Hr1].
    destruct (Hcos (longitudinalG * vehicle.(cgHeight)
                    / (vehicle.(wheelbase) / 2))) as [Hp0 Hp1].
    fold rollAngle in Hr0, Hr1. fold pitchAngle in Hp0, Hp1.
    assert (0 < cos rollAngle * cos pitchAngle <= 1) by nra.
    split; nra.
  - replace (0 * vehicle.(cgHeight) / (vehicle.(trackWidth).(front) / 2))
      with 0 by (unfold Rdiv; ring).
    replace (0 * vehicle.(cgHeight) / (vehicle.(wheelbase) / 2))
      with 0 by (unfold Rdiv; ring).
    rewrite atan_0, sin_0, cos_0. f_equal; ring.
Qed.

(** The street car at 1 g lateral and 0.5 g of braking. *)
Lemma X17_cg_shift_witness :
  0 <= (WeightTransfer.calculateCGShift RX8_CONFIG 1 (-0.5))
         .(WeightTransfer.CGShift.vertical) <= 0.450.
Proof.
  apply (X17_cg_shift RX8_CONFIG 1 (-0.5)). cbn. lra.
Defined.

(** * Further properties of the vehicle *)

Lemma sequence_mapi {A B : Type} (f : A -> nat -> option B)
  (q : Quad.t A) (r : Quad.t B) :
  Quad.sequence (Quad.mapi f q) = Some r ->
  f q.(Quad.q0) 0%nat = Some r.(Quad.q0)
  /\ f q.(Quad.q1) 1%nat = Some r.(Quad.q1)
  /\ f q.(Quad.q2) 2%nat = Some r.(Quad.q2)
  /\ f q.(Quad.q3) 3%nat = Some r.(Quad.q3).
Proof.
  unfold Quad.sequence, Quad.mapi. cbn [Quad.q0 Quad.q1 Quad.q2 Quad.q3].
  destruct (f _ 0%nat), (f _ 1%nat), (f _ 2%nat), (f _ 3%nat);
    try discriminate.
  intros Heq. injection Heq as <-. repeat split.
Qed.

Lemma wheelLoadOf_sum (this : VehicleDynamics.t) :
  wheelLoadOf this 0 + wheelLoadOf this 1
  + wheelLoadOf this 2 + wheelLoadOf this 3
  = this.(VehicleDynamics.config).(mass) * PHYSICS_CONFIG.gravity
    * (this.(VehicleDynamics.config).(weightDistribution).(front)
       + this.(VehicleDynamics.config).(weightDistribution).(rear)).
Proof.
  unfold wheelLoadOf, VehicleDynamics.getStaticWheelLoad,
    VehicleDynamics.calculateDynamicLoad.
  cbn [Nat.ltb Nat.leb Nat.eqb orb]. cbv zeta.
  set (L := VehicleDynamics.calculateLateralWeightTransfer this).
  set (T := VehicleDynamics.calculateLongitudinalWeightTransfer this).
  lra.
Qed.

(** Off the throttle, or with a drive force that is a number, the loop
    body of [calculateWheelForces] returns for every wheel, with the
    static plus the dynamic load. *)
Lemma wheelForce_returns
  (this : VehicleDynamics.t) (wheel : Wheel.t) (index : nat) :
  this.(VehicleDynamics.state).(VehicleDynamics.throttle) <= 0
  \/ drivable this ->
  exists force : VehicleDynamics.TireForce,
    VehicleDynamics.wheelForce this wheel index
    = Some (wheelLoadOf this index, force).
Proof.
  intros Hdrive.
  assert (Hsome : exists r, VehicleDynamics.wheelForce this wheel index
                            = Some r).
  { destruct Hdrive as [ Hoff | (Hgear & Hlen & _) ].
    - unfold VehicleDynamics.wheelForce. cbv zeta.
      destruct (Rltb_spec 0
                  this.(VehicleDynamics.state).(VehicleDynamics.throttle));
        [ lra | ].
      rewrite andb_false_r. eexists. reflexivity.
    - apply wheelForce_defined; [ exact Hgear | ].
      destruct (torqueCurve _); [ cbn in Hlen; lia | discriminate ]. }
  destruct Hsome as [[load force] Hr].
  pose proof (wheelForce_load _ _ _ _ Hr) as Hload. cbn [fst] in Hload.
  subst load. exists force. exact Hr.
Qed.

(** X18: on a vehicle with non-zero wheelbase and track widths, off the
    throttle or with a drive force that is a number (gear of the gearbox,
    at least two torque samples of strictly increasing RPM, wheel radius
    not 0), the wheel-force loop returns its four forces, and the four
    wheel loads it stores add up to mass x gravity x (front + rear
    fraction): the loop moves load between the wheels without creating
    any, and does not clamp. *)
Theorem X18_wheel_forces_store_total_weight
  (this : VehicleDynamics.t) (deltaTime : R) :
  this.(VehicleDynamics.config).(wheelbase) <> 0 ->
  this.(VehicleDynamics.config).(trackWidth).(front)
  + this.(VehicleDynamics.config).(trackWidth).(rear) <> 0 ->
  this.(VehicleDynamics.state).(VehicleDynamics.throttle) <= 0
  \/ drivable this ->
  exists (this' : VehicleDynamics.t)
         (forces : Quad.t VehicleDynamics.TireForce),
    VehicleDynamics.calculateWheelForces this deltaTime
    = Some (this', forces)
    /\ let loads := this'.(VehicleDynamics.state).(VehicleDynamics.wheelLoads)
       in
       loads
       = Quad.mk (wheelLoadOf this 0) (wheelLoadOf this 1)
           (wheelLoadOf this 2) (wheelLoadOf this 3)
       /\ loads.(Quad.q0) + loads.(Quad.q1) + loads.(Quad.q2)
          + loads.(Quad.q3)
          = this.(VehicleDynamics.config).(mass) * PHYSICS_CONFIG.gravity
            * (this.(VehicleDynamics.config).(weightDistribution).(front)
               + this.(VehicleDynamics.config).(weightDistribution).(rear)).
Proof.
  intros _ _ Hdrive.
  unfold VehicleDynamics.calculateWheelForces, Quad.mapi at 1, Quad.sequence.
  cbn [Quad.q0 Quad.q1 Quad.q2 Quad.q3].
  destruct (wheelForce_returns this
              this.(VehicleDynamics.wheels).(Quad.q0) 0 Hdrive) as [f0 ->].
  destruct (wheelForce_returns this
              this.(VehicleDynamics.wheels).(Quad.q1) 1 Hdrive) as [f1 ->].
  destruct (wheelForce_returns this
              this.(VehicleDynamics.wheels).(Quad.q2) 2 Hdrive) as [f2 ->].
  destruct (wheelForce_returns this
              this.(VehicleDynamics.wheels).(Quad.q3) 3 Hdrive) as [f3 ->].
  eexists. eexists. split; [ reflexivity | ].
  cbv zeta.
  cbn [VehicleDynamics.state VehicleDynamics.setState
       VehicleDynamics.setWheelLoads VehicleDynamics.wheelLoads
       Quad.mapi Quad.q0 Quad.q1 Quad.q2 Quad.q3 fst].
  split; [ reflexivity | apply wheelLoadOf_sum ].
Qed.

Lemma RX8_launch_drivable : drivable RX8_launch.
Proof.
  unfold drivable. cbv zeta. cbn. repeat split; try lia; lra.
Qed.

(** The street car at rest at full throttle in first gear. *)
Lemma X18_wheel_forces_store_total_weight_witness :
  exists (this' : VehicleDynamics.t)
         (forces : Quad.t VehicleDynamics.TireForce),
    VehicleDynamics.calculateWheelForces RX8_launch PHYSICS_CONFIG.timeStep
    = Some (this', forces)
    /\ let loads := this'.(VehicleDynamics.state).(VehicleDynamics.wheelLoads)
       in
       loads
       = Quad.mk (wheelLoadOf RX8_launch 0) (wheelLoadOf RX8_launch 1)
           (wheelLoadOf RX8_launch 2) (wheelLoadOf RX8_launch 3)
       /\ loads.(Quad.q0) + loads.(Quad.q1) + loads.(Quad.q2)
          + loads.(Quad.q3)
          = RX8_CONFIG.(mass) * PHYSICS_CONFIG.gravity
            * (RX8_CONFIG.(weightDistribution).(front)
               + RX8_CONFIG.(weightDistribution).(rear)).
Proof.
  apply (X18_wheel_forces_store_total_weight RX8_launch
           PHYSICS_CONFIG.timeStep).
  - cbn. lra.
  - cbn. lra.
  - right. exact RX8_launch_drivable.
Defined.

(** X19: the load transfer of the simulation loop against that of the
    weight-transfer model, at the accelerations of the state.  The loop's
    front axle deviates from the static front weight by -2 x gravity
    times the deviation [calculateLongitudinal] gives (the loop loads the
    front axle under positive longitudinal g, the model unloads it), and
    the loop's right-minus-left difference on the front axle, times the
    front fraction, is gravity times that of [calculateLateral]. *)
Theorem X19_loop_transfer_against_model (this : VehicleDynamics.t) :
  let config := this.(VehicleDynamics.config) in
  let s := this.(VehicleDynamics.state) in
  let staticFront :=
    config.(mass) * PHYSICS_CONFIG.gravity
    * config.(weightDistribution).(front) in
  let long :=
    WeightTransfer.calculateLongitudinal config
      s.(VehicleDynamics.longitudinalG) in
  let lat :=
    WeightTransfer.calculateLateral config s.(VehicleDynamics.lateralG) None
  in
  (wheelLoadOf this 0 + wheelLoadOf this 1) - staticFront
  = - (2 * PHYSICS_CONFIG.gravity)
    * (long.(WeightTransfer.Longitudinal.frontAxle) - staticFront)
  /\ (wheelLoadOf this 1 - wheelLoadOf this 0)
     * config.(weightDistribution).(front)
     = PHYSICS_CONFIG.gravity
       * (lat.(WeightTransfer.Lateral.frontRight)
          - lat.(WeightTransfer.Lateral.frontLeft)).
Proof.
  cbv zeta.
  assert (Hlong :
    VehicleDynamics.calculateLongitudinalWeightTransfer this
    = PHYSICS_CONFIG.gravity
      * (this.(VehicleDynamics.config).(mass) * PHYSICS_CONFIG.gravity
         * this.(VehicleDynamics.state).(VehicleDynamics.longitudinalG)
         * this.(VehicleDynamics.config).(cgHeight)
         / this.(VehicleDynamics.config).(wheelbase))).
  { unfold VehicleDynamics.calculateLongitudinalWeightTransfer, Rdiv.
    cbv zeta. ring. }
  assert (Hlat :
    VehicleDynamics.calculateLateralWeightTransfer this
    = PHYSICS_CONFIG.gravity
      * (this.(VehicleDynamics.config).(mass) * PHYSICS_CONFIG.gravity
         * this.(VehicleDynamics.state).(VehicleDynamics.lateralG)
         * this.(VehicleDynamics.config).(cgHeight)
         / ((this.(VehicleDynamics.config).(trackWidth).(front)
             + this.(VehicleDynamics.config).(trackWidth).(rear)) / 2))).
  { unfold VehicleDynamics.calculateLateralWeightTransfer.
    cbv zeta. unfold Rdiv at 1 3. ring. }
  unfold wheelLoadOf, VehicleDynamics.getStaticWheelLoad,
    VehicleDynamics.calculateDynamicLoad,
    WeightTransfer.calculateLongitudinal, WeightTransfer.calculateLateral.
  cbn [Nat.ltb Nat.leb Nat.eqb orb WeightTransfer.Longitudinal.frontAxle
       WeightTransfer.Lateral.frontRight WeightTransfer.Lateral.frontLeft].
  cbv zeta. rewrite Hlong, Hlat.
  set (T := _ / this.(VehicleDynamics.config).(wheelbase)).
  set (L := _ / ((_ + _) / 2)).
  split.
  - lra.
  - set (f := this.(VehicleDynamics.config).(weightDistribution).(front)).
    set (W := this.(VehicleDynamics.config).(mass) * PHYSICS_CONFIG.gravity).
    replace (W * f / 2 + (0 + PHYSICS_CONFIG.gravity * L
                          + PHYSICS_CONFIG.gravity * T)
             - (W * f / 2 + (0 - PHYSICS_CONFIG.gravity * L
                             + PHYSICS_CONFIG.gravity * T)))
      with (2 * (PHYSICS_CONFIG.gravity * L)) by lra.
    replace (W * f / 2 + L * f - (W * f / 2 - L * f)) with (2 * (L * f))
      by lra.
    ring.
Qed.

(** X20: with the handbrake pulled, no pedal pressed and no throttle,
    the loop leaves the tire force of a front wheel as it is and takes
    the whole rear brake force off the longitudinal force of a rear
    wheel; the load it records is the static plus the dynamic load. *)
Theorem X20_handbrake_brakes_rear_only
  (this : VehicleDynamics.t) (wheel : Wheel.t) (index : nat) :
  this.(VehicleDynamics.state).(VehicleDynamics.handbrake) = true ->
  this.(VehicleDynamics.state).(VehicleDynamics.brake) = 0 ->
  this.(VehicleDynamics.state).(VehicleDynamics.throttle) = 0 ->
  let tire :=
    VehicleDynamics.calculateTireForce this
      (VehicleDynamics.calculateSlipAngle this wheel index)
      (VehicleDynamics.calculateSlipRatio this wheel index)
      (wheelLoadOf this index) index in
  exists force : VehicleDynamics.TireForce,
    VehicleDynamics.wheelForce this wheel index
    = Some (wheelLoadOf this index, force)
    /\ force.(VehicleDynamics.lateral) = tire.(VehicleDynamics.lateral)
    /\ force.(VehicleDynamics.vertical) = tire.(VehicleDynamics.vertical)
    /\ force.(VehicleDynamics.longitudinal)
       = tire.(VehicleDynamics.longitudinal)
         - (if (index <? 2)%nat then 0
            else this.(VehicleDynamics.config).(brakeForce).(rear)).
Proof.
  intros Hhand Hbrake Hthrottle tire.
  unfold VehicleDynamics.wheelForce. cbv zeta.
  rewrite Hhand, Hthrottle, orb_true_r.
  destruct (Rltb_spec 0 0) as [ Hlt | _ ]; [ lra | ].
  rewrite andb_false_r.
  eexists. split; [ reflexivity | ].
  cbn [VehicleDynamics.lateral VehicleDynamics.vertical
       VehicleDynamics.longitudinal].
  split; [ reflexivity | ]. split; [ reflexivity | ].
  fold (wheelLoadOf this index). fold tire.
  unfold VehicleDynamics.calculateBrakeForce. cbv zeta.
  rewrite Hhand, Hbrake. cbn [andb].
  assert (Hflip : forall a b : nat, (a <=? b)%nat = negb (b <? a)%nat).
  { intros a b. destruct (Nat.leb_spec a b), (Nat.ltb_spec b a);
      try reflexivity; lia. }
  rewrite Hflip.
  destruct (index <? 2)%nat; cbn [negb].
  - lra.
  - unfold Math.max. rewrite Rmax_right by lra. lra.
Qed.

(** The rear-left wheel of the street car at rest, handbrake pulled. *)
Lemma X20_handbrake_brakes_rear_only_witness :
  exists force : VehicleDynamics.TireForce,
    VehicleDynamics.wheelForce RX8_handbrake restingWheel 2
    = Some (wheelLoadOf RX8_handbrake 2, force)
    /\ force.(VehicleDynamics.lateral)
       = (VehicleDynamics.calculateTireForce RX8_handbrake
            (VehicleDynamics.calculateSlipAngle RX8_handbrake restingWheel 2)
            (VehicleDynamics.calculateSlipRatio RX8_handbrake restingWheel 2)
            (wheelLoadOf RX8_handbrake 2) 2).(VehicleDynamics.lateral)
    /\ force.(VehicleDynamics.vertical)
       = (VehicleDynamics.calculateTireForce RX8_handbrake
            (VehicleDynamics.calculateSlipAngle RX8_handbrake restingWheel 2)
            (VehicleDynamics.calculateSlipRatio RX8_handbrake restingWheel 2)
            (wheelLoadOf RX8_handbrake 2) 2).(VehicleDynamics.vertical)
    /\ force.(VehicleDynamics.longitudinal)
       = (VehicleDynamics.calculateTireForce RX8_handbrake
            (VehicleDynamics.calculateSlipAngle RX8_handbrake restingWheel 2)
            (VehicleDynamics.calculateSlipRatio RX8_handbrake restingWheel 2)
            (wheelLoadOf RX8_handbrake 2) 2).(VehicleDynamics.longitudinal)
         - RX8_CONFIG.(brakeForce).(rear).
Proof.
  apply (X20_handbrake_brakes_rear_only RX8_handbrake restingWheel 2);
    reflexivity.
Defined.

Lemma lookup_defined {A : Type} (array : list A) (i : Z) :
  lookup array i = None
  <-> ~ (0 <= i < Z.of_nat (List.length array))%Z.
Proof.
  unfold lookup. destruct (Z.ltb_spec i 0).
  - split; [ lia | reflexivity ].
  - rewrite nth_error_None. lia.
Qed.

(** X21: the drive force is undefined (a thrown error or NaN) whenever
    the torque curve is empty or the gear is outside the gearbox; with a
    gear of the gearbox, at least two torque samples of strictly
    increasing RPM and a wheel radius that is not 0 it is engine torque
    x gear ratio x final drive / wheel radius x throttle. *)
Theorem X21_drive_force_defined (this : VehicleDynamics.t) :
  let config := this.(VehicleDynamics.config) in
  let gear := this.(VehicleDynamics.state).(VehicleDynamics.gear) in
  (config.(torqueCurve) = [] \/ ~ (1 <= gear <= gearCount config)%Z ->
   VehicleDynamics.calculateDriveForce this = None)
  /\ (drivable this ->
      exists torque ratio : R,
        VehicleDynamics.getEngineTorque this = Some torque
        /\ lookup config.(gearRatios) (gear - 1) = Some ratio
        /\ VehicleDynamics.calculateDriveForce this
           = Some (torque * ratio * config.(finalDrive)
                   / config.(tire).(radius)
                   * this.(VehicleDynamics.state).(VehicleDynamics.throttle))).
Proof.
  cbv zeta. split.
  - intros [ Hempty | Hgear ]; unfold VehicleDynamics.calculateDriveForce.
    + unfold VehicleDynamics.getEngineTorque. rewrite Hempty. reflexivity.
    + assert (Hnone :
        lookup this.(VehicleDynamics.config).(gearRatios)
          (this.(VehicleDynamics.state).(VehicleDynamics.gear) - 1) = None).
      { apply lookup_defined. unfold gearCount in Hgear. lia. }
      rewrite Hnone.
      destruct (VehicleDynamics.getEngineTorque this); reflexivity.
  - intros (Hgear & Hlen & _ & _).
    destruct (lookup_in_range this.(VehicleDynamics.config).(gearRatios)
                (this.(VehicleDynamics.state).(VehicleDynamics.gear) - 1))
      as [ratio Hratio].
    { unfold gearCount in Hgear. lia. }
    assert (Htorque : exists torque,
              VehicleDynamics.getEngineTorque this = Some torque).
    { unfold VehicleDynamics.getEngineTorque.
      destruct (torqueCurve _) as [ | first rest ]; [ cbn in Hlen; lia | ].
      destruct (match VehicleDynamics.findSurrounding _ _ with
                | Some found => found | None => _ end) as [lower upper].
      eexists. reflexivity. }
    destruct Htorque as [torque Htorque].
    exists torque, ratio.
    split; [ exact Htorque | ]. split; [ exact Hratio | ].
    unfold VehicleDynamics.calculateDriveForce.
    rewrite Htorque, Hratio. reflexivity.
Qed.

(** X22: the engine speed stays in range and does not overshoot.  On
    a vehicle with idleRPM <= maxRPM, a gear of the gearbox and a wheel
    radius that is not 0, [updateEngine] returns, the engine speed it
    stores lies within [idleRPM, maxRPM] and the gear within the
    gearbox; when the engine speed was within [idleRPM, maxRPM] and
    5 x deltaTime lies within [0, 1], the new engine speed lies between
    the old one and the clamped target speed. *)
Theorem X22_engine_stays_in_range
  (this : VehicleDynamics.t) (deltaTime : R) :
  let config := this.(VehicleDynamics.config) in
  let s := this.(VehicleDynamics.state) in
  config.(idleRPM) <= config.(maxRPM) ->
  (1 <= s.(VehicleDynamics.gear) <= gearCount config)%Z ->
  config.(tire).(radius) <> 0 ->
  exists (gearRatio : R) (this' : VehicleDynamics.t),
    lookup config.(gearRatios) (s.(VehicleDynamics.gear) - 1)
    = Some gearRatio
    /\ VehicleDynamics.updateEngine this deltaTime = Some this'
    /\ let rpm := s.(VehicleDynamics.rpm) in
       let rpm' := this'.(VehicleDynamics.state).(VehicleDynamics.rpm) in
       let target :=
         Rmax config.(idleRPM)
           (Rmin config.(maxRPM)
              (s.(VehicleDynamics.speed)
               / (2 * PI * config.(tire).(radius)) * 60 * gearRatio
               * config.(finalDrive))) in
       config.(idleRPM) <= rpm' <= config.(maxRPM)
       /\ (1 <= this'.(VehicleDynamics.state).(VehicleDynamics.gear)
           <= gearCount config)%Z
       /\ (config.(idleRPM) <= rpm <= config.(maxRPM) ->
           0 <= 5 * deltaTime <= 1 ->
           Rmin rpm target <= rpm' <= Rmax rpm target).
Proof.
  intros config s Hidle Hgear _.
  destruct (lookup_in_range config.(gearRatios)
              (s.(VehicleDynamics.gear) - 1)) as [ratio Hratio].
  { unfold gearCount in Hgear. lia. }
  exists ratio. unfold VehicleDynamics.updateEngine. fold config s.
  rewrite Hratio. eexists. split; [ reflexivity | ].
  split; [ reflexivity | ].
  cbv zeta.
  cbn [VehicleDynamics.state VehicleDynamics.setState VehicleDynamics.rpm
       VehicleDynamics.gear VehicleDynamics.setRpmGear].
  fold s.
  set (raw := _ * 60 * ratio * finalDrive config).
  set (rpm := VehicleDynamics.rpm s).
  unfold Math.max, Math.min.
  split; [ apply clamp_bounds; exact Hidle | ].
  split; [ apply shiftGear_range; exact Hgear | ].
  intros Hrpm Hrate.
  set (moved := rpm + (raw - rpm) * deltaTime * 5).
  assert (Hmoved : (rpm <= moved <= raw) \/ (raw <= moved <= rpm)).
  { unfold moved.
    replace (rpm + (raw - rpm) * deltaTime * 5)
      with (rpm + (raw - rpm) * (5 * deltaTime)) by ring.
    set (rate := 5 * deltaTime) in *.
    destruct (Rle_dec rpm raw); [ left | right ]; split; nra. }
  unfold Rmax, Rmin.
  destruct Hmoved as [ Hup | Hdown ];
    destruct (Rle_dec (maxRPM config) raw),
             (Rle_dec (maxRPM config) moved);
    repeat match goal with
           | |- context [ Rle_dec ?a ?b ] => destruct (Rle_dec a b)
           end; lra.
Qed.

(** The street car as constructed, over one fixed step. *)
Lemma X22_engine_stays_in_range_witness :
  exists (gearRatio : R) (this' : VehicleDynamics.t),
    lookup RX8_CONFIG.(gearRatios) (1 - 1) = Some gearRatio
    /\ VehicleDynamics.updateEngine RX8_constructed PHYSICS_CONFIG.timeStep
       = Some this'
    /\ RX8_CONFIG.(idleRPM)
       <= this'.(VehicleDynamics.state).(VehicleDynamics.rpm)
       <= RX8_CONFIG.(maxRPM).
Proof.
  destruct (X22_engine_stays_in_range RX8_constructed
              PHYSICS_CONFIG.timeStep)
    as (ratio & this' & Hratio & Hrun & Hrange & _).
  - cbn. lra.
  - cbn. lia.
  - cbn. lra.
  - exists ratio, this'. split; [ exact Hratio | ].
    split; [ exact Hrun | exact Hrange ].
Defined.

(** X23: what [updateTelemetry] does to the telemetry, on a vehicle
    whose mass is not 0.  No maximum ever decreases and each is at least
    the value of the call (speed in km/h, |lateral g|, braking g,
    acceleration g); the distance grows by speed x deltaTime; the lap
    time is never advanced. *)
Theorem X23_telemetry (this : VehicleDynamics.t) (deltaTime : R) :
  this.(VehicleDynamics.config).(mass) <> 0 ->
  let this' := VehicleDynamics.updateTelemetry this deltaTime in
  let before := this.(VehicleDynamics.telemetry) in
  let after := this'.(VehicleDynamics.telemetry) in
  let s := this'.(VehicleDynamics.state) in
  s.(VehicleDynamics.speed) = this.(VehicleDynamics.state).(VehicleDynamics.speed)
  /\ Rmax before.(VehicleDynamics.maxSpeed) (s.(VehicleDynamics.speed) * 3.6)
     <= after.(VehicleDynamics.maxSpeed)
  /\ Rmax before.(VehicleDynamics.maxLateralG)
       (Rabs s.(VehicleDynamics.lateralG))
     <= after.(VehicleDynamics.maxLateralG)
  /\ Rmax before.(VehicleDynamics.maxBrakingG)
       (- s.(VehicleDynamics.longitudinalG))
     <= after.(VehicleDynamics.maxBrakingG)
  /\ Rmax before.(VehicleDynamics.maxAccelerationG)
       s.(VehicleDynamics.longitudinalG)
     <= after.(VehicleDynamics.maxAccelerationG)
  /\ after.(VehicleDynamics.distance)
     = before.(VehicleDynamics.distance)
       + s.(VehicleDynamics.speed) * deltaTime
  /\ after.(VehicleDynamics.lapTime) = before.(VehicleDynamics.lapTime).
Proof.
  intros _. cbv zeta. unfold VehicleDynamics.updateTelemetry. cbv zeta.
  cbn [VehicleDynamics.telemetry VehicleDynamics.state
       VehicleDynamics.setTelemetry VehicleDynamics.setState
       VehicleDynamics.setG VehicleDynamics.speed VehicleDynamics.lateralG
       VehicleDynamics.longitudinalG
       VehicleDynamics.maxSpeed VehicleDynamics.maxLateralG
       VehicleDynamics.maxBrakingG VehicleDynamics.maxAccelerationG
       VehicleDynamics.distance VehicleDynamics.lapTime].
  unfold Math.max, Math.abs.
  split; [ reflexivity | ].
  split; [ apply Rle_refl | ].
  split; [ apply Rle_refl | ].
  split.
  { apply Rmax_lub; [ apply Rmax_l | ].
    eapply Rle_trans; [ apply (Rmax_r 0) | apply Rmax_r ]. }
  split.
  { apply Rmax_lub; [ apply Rmax_l | ].
    eapply Rle_trans; [ apply (Rmax_r 0) | apply Rmax_r ]. }
  split; reflexivity.
Qed.

(** The street car at 10 m/s. *)
Lemma X23_telemetry_witness :
  (VehicleDynamics.updateTelemetry RX8_wheelspin PHYSICS_CONFIG.timeStep)
    .(VehicleDynamics.telemetry).(VehicleDynamics.lapTime)
  = RX8_wheelspin.(VehicleDynamics.telemetry).(VehicleDynamics.lapTime).
Proof.
  apply (X23_telemetry RX8_wheelspin PHYSICS_CONFIG.timeStep).
  cbn. lra.
Defined.

(** X24: DRS and ground effect on a car with downforce coefficients.
    Opening the DRS leaves drag and front downforce as they are and
    multiplies the rear downforce by 1 - downforceReduction; the ground
    effect multiplier applies to both axles above 13.9 m/s and not at or
    below it; on a car without coefficients [setDRS] changes nothing. *)
Theorem X24_drs_and_ground_effect :
  (forall (this : VehicleDynamics.t) (aero : Downforce),
     this.(VehicleDynamics.config).(downforce) = Some aero ->
     let opened :=
       VehicleDynamics.calculateAerodynamicForces
         (RacingSimulation.setDRS this true) in
     let closed :=
       VehicleDynamics.calculateAerodynamicForces
         (RacingSimulation.setDRS this false) in
     let speed := Vec3.length this.(VehicleDynamics.body).(velocity) in
     let total :=
       0.5 * PHYSICS_CONFIG.airDensity * (speed * speed)
       * (aero.(downforceCoefficient).(front)
          + aero.(downforceCoefficient).(rear))
       * this.(VehicleDynamics.config).(frontalArea) in
     opened.(VehicleDynamics.drag) = closed.(VehicleDynamics.drag)
     /\ opened.(VehicleDynamics.frontDownforce)
        = closed.(VehicleDynamics.frontDownforce)
     /\ opened.(VehicleDynamics.rearDownforce)
        = (1 - aero.(drs_downforceReduction))
          * closed.(VehicleDynamics.rearDownforce)
     /\ (speed <= 13.9 ->
         closed.(VehicleDynamics.frontDownforce)
         + closed.(VehicleDynamics.rearDownforce) = total)
     /\ (13.9 < speed ->
         closed.(VehicleDynamics.frontDownforce)
         + closed.(VehicleDynamics.rearDownforce)
         = aero.(groundEffectMultiplier) * total))
  /\ (forall (this : VehicleDynamics.t) (enabled : bool),
        this.(VehicleDynamics.config).(downforce) = None ->
        RacingSimulation.setDRS this enabled = this).
Proof.
  split.
  - intros this aero Haero. cbv zeta.
    unfold VehicleDynamics.calculateAerodynamicForces, RacingSimulation.setDRS.
    rewrite Haero.
    cbn [VehicleDynamics.config VehicleDynamics.setState VehicleDynamics.body
         VehicleDynamics.state VehicleDynamics.drsActive].
    rewrite Haero.
    cbn [VehicleDynamics.drag VehicleDynamics.frontDownforce
         VehicleDynamics.rearDownforce].
    set (speed := Vec3.length _).
    set (total := 0.5 * _ * _ * _ * _).
    set (balance := aero.(downforceBalance)).
    split; [ reflexivity | ]. split; [ reflexivity | ].
    split; [ ring | ].
    split; intros Hspeed; destruct (Rltb_spec 13.9 speed); try lra; ring.
  - intros this enabled Hnone. unfold RacingSimulation.setDRS.
    rewrite Hnone. reflexivity.
Qed.

(** The race car at 50 m/s, and the street car. *)
Lemma X24_drs_and_ground_effect_witness :
  (VehicleDynamics.calculateAerodynamicForces
     (RacingSimulation.setDRS F1_at_speed true))
    .(VehicleDynamics.rearDownforce)
  = (1 - 0.25)
    * (VehicleDynamics.calculateAerodynamicForces
         (RacingSimulation.setDRS F1_at_speed false))
        .(VehicleDynamics.rearDownforce)
  /\ RacingSimulation.setDRS RX8_constructed true = RX8_constructed.
Proof.
  split.
  - apply (proj1 X24_drs_and_ground_effect F1_at_speed
             {| downforceCoefficient := {| front := 1.5; rear := 2.0 |};
                downforceBalance := 0.4;
                groundEffectMultiplier := 1.5;
                drs_downforceReduction := 0.25 |}).
    reflexivity.
  - apply (proj2 X24_drs_and_ground_effect RX8_constructed true).
    reflexivity.
Defined.

(** X25: the downforce level scales both downforce components by
    level / 50 and leaves the drag as it is; the scaling is applied to
    the coefficients in place, so a second selection multiplies again:
    level a followed by level b gives (a / 50) x (b / 50) times the
    original downforce, and level 50 restores nothing. *)
Theorem X25_downforce_level_compounds
  (this : VehicleDynamics.t) (aero : Downforce) (a b : R) :
  this.(VehicleDynamics.config).(downforce) = Some aero ->
  let config := this.(VehicleDynamics.config) in
  let before := VehicleDynamics.calculateAerodynamicForces this in
  let once :=
    VehicleDynamics.calculateAerodynamicForces
      (reconfigured this (RacingSimulation.setDownforceLevel config a)) in
  let twice :=
    VehicleDynamics.calculateAerodynamicForces
      (reconfigured this
         (RacingSimulation.setDownforceLevel
            (RacingSimulation.setDownforceLevel config a) b)) in
  once.(VehicleDynamics.drag) = before.(VehicleDynamics.drag)
  /\ once.(VehicleDynamics.frontDownforce)
     = a / 50 * before.(VehicleDynamics.frontDownforce)
  /\ once.(VehicleDynamics.rearDownforce)
     = a / 50 * before.(VehicleDynamics.rearDownforce)
  /\ twice.(VehicleDynamics.drag) = before.(VehicleDynamics.drag)
  /\ twice.(VehicleDynamics.frontDownforce)
     = a / 50 * (b / 50) * before.(VehicleDynamics.frontDownforce)
  /\ twice.(VehicleDynamics.rearDownforce)
     = a / 50 * (b / 50) * before.(VehicleDynamics.rearDownforce).
Proof.
  intros Haero. cbv zeta.
  unfold VehicleDynamics.calculateAerodynamicForces, reconfigured,
    RacingSimulation.setDownforceLevel.
  rewrite Haero.
  cbn [VehicleDynamics.config VehicleDynamics.body VehicleDynamics.state
       RacingSimulation.withDownforce downforce dragCoefficient frontalArea
       downforceCoefficient downforceBalance groundEffectMultiplier
       drs_downforceReduction front rear].
  cbn [VehicleDynamics.drag VehicleDynamics.frontDownforce
       VehicleDynamics.rearDownforce].
  set (speed := Vec3.length _).
  set (ground := if speed >? 13.9 then _ else _).
  set (drs := if VehicleDynamics.drsActive _ then _ else _).
  unfold Rdiv.
  split; [ reflexivity | ]. split; [ ring | ]. split; [ ring | ].
  split; [ reflexivity | ]. split; ring.
Qed.

(** The race car at 50 m/s, level 60 and then level 50. *)
Lemma X25_downforce_level_compounds_witness :
  (VehicleDynamics.calculateAerodynamicForces
     (reconfigured F1_at_speed
        (RacingSimulation.setDownforceLevel
           (RacingSimulation.setDownforceLevel F1_CONFIG 60) 50)))
    .(VehicleDynamics.frontDownforce)
  = 60 / 50 * (50 / 50)
    * (VehicleDynamics.calculateAerodynamicForces F1_at_speed)
        .(VehicleDynamics.frontDownforce).
Proof.
  apply (X25_downforce_level_compounds F1_at_speed
           {| downforceCoefficient := {| front := 1.5; rear := 2.0 |};
              downforceBalance := 0.4;
              groundEffectMultiplier := 1.5;
              drs_downforceReduction := 0.25 |} 60 50).
  reflexivity.
Defined.

(** X26: standing wheels generate no tire heat.  When every wheel moves
    at less than 0.1 m/s along the car, the temperature update rewrites
    each tire temperature to temp - (temp - 20) x 0.1 x deltaTime,
    whatever the wheel loads, the sideways speed and the steering: a
    tire at 20 degrees stays at 20, and for a time step within [0, 10] a
    warmer tire cools without falling below 20. *)
Theorem X26_standing_tires_cool (this : VehicleDynamics.t) (deltaTime : R) :
  Quad.all
    (fun wheel : Wheel.t =>
       Rabs wheel.(Wheel.body).(velocity).(Vec3.z) < 0.1)
    this.(VehicleDynamics.wheels) ->
  let state' :=
    (VehicleDynamics.updateTemperatures this deltaTime)
      .(VehicleDynamics.state) in
  forall index : nat,
    (index < 4)%nat ->
    let temp :=
      Quad.get this.(VehicleDynamics.state).(VehicleDynamics.tireTemps)
        index in
    let temp' := Quad.get state'.(VehicleDynamics.tireTemps) index in
    temp' = temp - (temp - 20) * 0.1 * deltaTime
    /\ (temp = 20 -> temp' = 20)
    /\ (0 <= deltaTime <= 10 -> 20 <= temp -> 20 <= temp' <= temp).
Proof.
  intros (H0 & H1 & H2 & H3). cbv zeta.
  rewrite updateTemperatures_tireTemps.
  assert (Hstep : forall index : nat,
    (index < 4)%nat ->
    Quad.get
      (Quad.mapi (VehicleDynamics.tireTempStep this deltaTime)
         this.(VehicleDynamics.state).(VehicleDynamics.tireTemps)) index
    = Quad.get this.(VehicleDynamics.state).(VehicleDynamics.tireTemps) index
      - (Quad.get this.(VehicleDynamics.state).(VehicleDynamics.tireTemps)
           index - 20) * 0.1 * deltaTime).
  { intros index Hindex.
    destruct index as [ | [ | [ | [ | index ] ] ] ]; try lia;
      unfold Quad.mapi, VehicleDynamics.tireTempStep,
        VehicleDynamics.calculateSlipAngle, Math.abs;
      cbn [Quad.get Quad.q0 Quad.q1 Quad.q2 Quad.q3]; cbv zeta.
    - destruct (Rltb_spec
                  (Rabs (Vec3.z (velocity (Wheel.body
                     (Quad.q0 (VehicleDynamics.wheels this)))))) 0.1);
        [ rewrite Rabs_R0; lra | contradiction ].
    - destruct (Rltb_spec
                  (Rabs (Vec3.z (velocity (Wheel.body
                     (Quad.q1 (VehicleDynamics.wheels this)))))) 0.1);
        [ rewrite Rabs_R0; lra | contradiction ].
    - destruct (Rltb_spec
                  (Rabs (Vec3.z (velocity (Wheel.body
                     (Quad.q2 (VehicleDynamics.wheels this)))))) 0.1);
        [ rewrite Rabs_R0; lra | contradiction ].
    - destruct (Rltb_spec
                  (Rabs (Vec3.z (velocity (Wheel.body
                     (Quad.q3 (VehicleDynamics.wheels this)))))) 0.1);
        [ rewrite Rabs_R0; lra | contradiction ]. }
  intros index Hindex. rewrite (Hstep index Hindex).
  set (temp := Quad.get _ index).
  split; [ reflexivity | ].
  split; [ intros ->; lra | ].
  intros Hdt Htemp. split; nra.
Qed.

(** The street car as constructed: wheels at rest, tires at 20. *)
Lemma X26_standing_tires_cool_witness :
  Quad.get
    (VehicleDynamics.updateTemperatures RX8_constructed
       PHYSICS_CONFIG.timeStep)
      .(VehicleDynamics.state).(VehicleDynamics.tireTemps) 0
  = 20.
Proof.
  destruct (X26_standing_tires_cool RX8_constructed PHYSICS_CONFIG.timeStep)
    with (index := 0%nat) as (_ & Hfixed & _).
  - unfold Quad.all. cbn. rewrite Rabs_R0. repeat split; lra.
  - lia.
  - apply Hfixed. reflexivity.
Defined.

(** * The fixed-step accumulator *)

Section Accumulator.

Import PrimFloat PhysicsEngine.

(** Where the loop ends: what is left is not >= the time step; a frame
    that does not fill the accumulator makes no world step, any other at
    least one. *)
Lemma drain_exit (fuel : nat) :
  forall (a : float) (n : nat) (a' : float) (m : nat),
    drain fuel a n = Some (a', m) ->
    leb timeStep a' = false
    /\ (n <= m)%nat
    /\ (leb timeStep a = false -> a' = a /\ m = n)
    /\ (leb timeStep a = true -> (n < m)%nat).
Proof.
  induction fuel as [ | fuel IH ]; intros a n a' m; cbn [drain].
  - discriminate.
  - destruct (leb timeStep a) eqn:Hcompare.
    + intros Hrun. apply IH in Hrun.
      destruct Hrun as (Hexit & Hle & _ & _).
      split; [ exact Hexit | ]. split; [ lia | ].
      split; [ discriminate | intros _; lia ].
    + intros Heq. injection Heq as <- <-.
      split; [ exact Hcompare | ]. split; [ lia | ].
      split; [ intros _; split; reflexivity | discriminate ].
Qed.

(** More fuel does not change the result of a loop that ended. *)
Lemma drain_more_fuel (fuel : nat) :
  forall (a : float) (n : nat) (r : float * nat) (extra : nat),
    drain fuel a n = Some r -> drain (fuel + extra) a n = Some r.
Proof.
  induction fuel as [ | fuel IH ]; intros a n r extra; cbn [drain Nat.add].
  - discriminate.
  - destruct (leb timeStep a); [ apply IH | intros H; exact H ].
Qed.

(** An accumulator that the subtraction of the time step leaves as it
    is keeps the loop running. *)
Lemma drain_absorbed (a : float) :
  leb timeStep a = true -> sub a timeStep = a ->
  forall (fuel n : nat), drain fuel a n = None.
Proof.
  intros Hcompare Hsame fuel.
  induction fuel as [ | fuel IH ]; intros n; cbn [drain].
  - reflexivity.
  - rewrite Hcompare, Hsame. apply IH.
Qed.

(** X27: the fixed-step accumulator, on binary64 numbers.  When the loop
    ends, the accumulator left is not >= the time step and alpha is its
    quotient by the time step; a frame that leaves the accumulator below
    the time step makes no world step and any other makes at least one.
    A frame of 1 s on an empty accumulator makes 59 world steps, not 60
    (and more than maxSubSteps = 3), and returns alpha =
    0.9999999999999163.  When subtracting the time step leaves the
    accumulated time as it is, the loop never ends. *)
Theorem X27_fixed_step_accumulator :
  (forall (fuel : nat) (accumulator deltaTime : float) (u : Updated),
     PhysicsEngine.update fuel accumulator deltaTime = Some u ->
     leb timeStep u.(PhysicsEngine.accumulator) = false
     /\ u.(alpha) = div u.(PhysicsEngine.accumulator) timeStep
     /\ (leb timeStep (add accumulator deltaTime) = false ->
         u.(worldSteps) = 0%nat
         /\ u.(PhysicsEngine.accumulator) = add accumulator deltaTime)
     /\ (leb timeStep (add accumulator deltaTime) = true ->
         (0 < u.(worldSteps))%nat))
  /\ (forall extra : nat,
        PhysicsEngine.update (60 + extra) 0%float oneSecond
        = Some {| alpha := 0x1.ffffffffffd0ep-1%float;
                  PhysicsEngine.accumulator := 0x1.1111111110f7fp-6%float;
                  worldSteps := 59 |})
  /\ (forall accumulator deltaTime : float,
        leb timeStep (add accumulator deltaTime) = true ->
        sub (add accumulator deltaTime) timeStep
        = add accumulator deltaTime ->
        forall fuel : nat,
          PhysicsEngine.update fuel accumulator deltaTime = None).
Proof.
  split; [ | split ].
  - intros fuel accumulator deltaTime u. unfold PhysicsEngine.update.
    cbv zeta.
    destruct (drain fuel (add accumulator deltaTime) 0)
      as [ [a' m] | ] eqn:Hrun; [ | discriminate ].
    intros Heq. injection Heq as <-.
    cbn [PhysicsEngine.accumulator alpha worldSteps].
    destruct (drain_exit _ _ _ _ _ Hrun) as (Hexit & _ & Hshort & Hlong).
    split; [ exact Hexit | ]. split; [ reflexivity | ].
    split.
    + intros Hless. destruct (Hshort Hless) as [-> ->].
      split; reflexivity.
    + exact Hlong.
  - intros extra. unfold PhysicsEngine.update. cbv zeta.
    rewrite (drain_more_fuel 60 (add 0%float oneSecond) 0
               (0x1.1111111110f7fp-6%float, 59%nat) extra)
      by (vm_compute; reflexivity).
    vm_compute. reflexivity.
  - intros accumulator deltaTime Hcompare Hsame fuel.
    unfold PhysicsEngine.update. cbv zeta.
    rewrite (drain_absorbed _ Hcompare Hsame). reflexivity.
Qed.

(** A frame of 10^16 s on an empty accumulator: the loop has not ended
    after 1000 iterations. *)
Lemma X27_fixed_step_accumulator_witness :
  PhysicsEngine.update 1000 0%float hugeFrame = None.
Proof.
  apply (proj2 (proj2 X27_fixed_step_accumulator) 0%float hugeFrame).
  - vm_compute. reflexivity.
  - vm_compute. reflexivity.
Defined.

End Accumulator.

(** * Input *)

Lemma sign_opp (a : R) : Math.sign (- a) = - Math.sign a.
Proof.
  unfold Math.sign.
  destruct (Rltb_spec 0 (- a)), (Rltb_spec (- a) 0),
    (Rltb_spec 0 a), (Rltb_spec a 0); lra.
Qed.

Lemma applyDeadzone_odd (this : InputManager.t) (value : R) :
  InputManager.applyDeadzone this (- value)
  = - InputManager.applyDeadzone this value.
Proof.
  unfold InputManager.applyDeadzone, Math.abs. cbv zeta.
  rewrite Rabs_Ropp, sign_opp.
  destruct (Rabs value <? _); lra.
Qed.

Lemma applyDeadzone_nonneg (this : InputManager.t) (value : R) :
  let deadzone :=
    this.(InputManager.steeringSettings).(InputManager.deadzone) in
  0 <= deadzone < 1 ->
  0 <= value ->
  (value < deadzone -> InputManager.applyDeadzone this value = 0)
  /\ (deadzone <= value ->
      InputManager.applyDeadzone this value
      = (value - deadzone) / (1 - deadzone)).
Proof.
  intros deadzone Hd Hv.
  unfold InputManager.applyDeadzone, Math.abs, Math.sign. cbv zeta.
  fold deadzone. rewrite (Rabs_pos_eq value Hv).
  destruct (Rltb_spec value deadzone) as [ Hin | Hout ].
  - split; [ reflexivity | lra ].
  - split; [ lra | intros _ ].
    destruct (Rltb_spec 0 value) as [ Hpos | Hzero ].
    + lra.
    + assert (Hvalue : value = 0) by lra.
      assert (Hdead : deadzone = 0) by lra.
      destruct (Rltb_spec value 0); [ lra | ].
      rewrite Hvalue, Hdead. unfold Rdiv. ring.
Qed.

(** X28: the stick deadzone, for a deadzone in [0, 1).  The response is
    odd, 0 inside the deadzone and at its edge, 1 at full deflection,
    has the sign of the input, and for an input within [-1, 1] never
    exceeds the input in magnitude. *)
Theorem X28_deadzone (this : InputManager.t) :
  let deadzone :=
    this.(InputManager.steeringSettings).(InputManager.deadzone) in
  0 <= deadzone < 1 ->
  (forall value : R,
     InputManager.applyDeadzone this (- value)
     = - InputManager.applyDeadzone this value)
  /\ (forall value : R,
        Rabs value <= deadzone -> InputManager.applyDeadzone this value = 0)
  /\ InputManager.applyDeadzone this 1 = 1
  /\ (forall value : R,
        0 <= value -> 0 <= InputManager.applyDeadzone this value)
  /\ (forall value : R,
        Rabs value <= 1 ->
        Rabs (InputManager.applyDeadzone this value) <= Rabs value).
Proof.
  intros deadzone Hd.
  assert (Hpos : forall value : R,
    0 <= value ->
    0 <= InputManager.applyDeadzone this value
    /\ (value <= deadzone -> InputManager.applyDeadzone this value = 0)
    /\ (value <= 1 -> InputManager.applyDeadzone this value <= value)).
  { intros value Hv.
    destruct (applyDeadzone_nonneg this value Hd Hv) as [Hin Hout].
    fold deadzone in Hin, Hout.
    destruct (Rlt_le_dec value deadzone) as [ Hlt | Hge ].
    - rewrite (Hin Hlt). repeat split; lra.
    - rewrite (Hout Hge).
      assert (Hinv : 0 < / (1 - deadzone))
        by (apply Rinv_0_lt_compat; lra).
      split; [ | split ].
      + unfold Rdiv. apply Rmult_le_pos; lra.
      + intros Hle. replace value with deadzone by lra.
        unfold Rdiv. ring.
      + intros Hle.
        apply Rmult_le_reg_r with (1 - deadzone); [ lra | ].
        unfold Rdiv. rewrite Rmult_assoc, Rinv_l by lra.
        assert (0 <= deadzone * (1 - value))
          by (apply Rmult_le_pos; lra).
        lra. }
  split; [ apply applyDeadzone_odd | ].
  split; [ | split; [ | split ] ].
  - intros value Hin.
    destruct (Rle_lt_dec 0 value) as [ Hv | Hv ].
    + rewrite Rabs_pos_eq in Hin by exact Hv.
      apply (Hpos value Hv). exact Hin.
    + rewrite Rabs_left in Hin by exact Hv.
      assert (Hneg : InputManager.applyDeadzone this (- value) = 0)
        by (apply (Hpos (- value)); lra).
      rewrite applyDeadzone_odd in Hneg. lra.
  - destruct (applyDeadzone_nonneg this 1 Hd) as [_ Hout]; [ lra | ].
    fold deadzone in Hout. rewrite Hout by lra. field. lra.
  - intros value Hv. apply (Hpos value Hv).
  - intros value Hin.
    destruct (Rle_lt_dec 0 value) as [ Hv | Hv ].
    + rewrite (Rabs_pos_eq value) in * by exact Hv.
      destruct (Hpos value Hv) as (H0 & _ & H1).
      rewrite Rabs_pos_eq by exact H0. apply H1. exact Hin.
    + rewrite (Rabs_left value) in * by exact Hv.
      destruct (Hpos (- value)) as (H0 & _ & H1); [ lra | ].
      rewrite applyDeadzone_odd in H0, H1.
      rewrite Rabs_left1 by lra. apply H1. exact Hin.
Qed.

(** The settings of the constructor: a deadzone of 0.05. *)
Lemma X28_deadzone_witness :
  InputManager.applyDeadzone InputManager.initial 1 = 1.
Proof.
  apply (X28_deadzone InputManager.initial). cbn. lra.
Defined.

Lemma keyboard_target (this : InputManager.t) :
  0 <= this.(InputManager.steeringSettings).(InputManager.sensitivity) <= 1 ->
  let controls := InputManager.keyboardControls this in
  -1 <= controls.(InputManager.steering) <= 1
  /\ (controls.(InputManager.throttle) = 0
      \/ controls.(InputManager.throttle) = 1)
  /\ (controls.(InputManager.brake) = 0 \/ controls.(InputManager.brake) = 1).
Proof.
  intros Hs. cbv zeta. unfold InputManager.keyboardControls. cbv zeta.
  cbn [InputManager.steering InputManager.throttle InputManager.brake].
  split; [ | split ].
  - destruct (_ || _), (_ || _); lra.
  - destruct (_ || _); [ right | left ]; reflexivity.
  - destruct (_ || _); [ right | left ]; reflexivity.
Qed.

(** X29: keyboard steering, for a sensitivity in [0, 1] and a
    non-negative maximum steering angle.  Whatever the frame time and the
    steering held before, after [update] the smoothed steering lies in
    [-1, 1], the steering angle handed to the vehicle is at most
    maxSteeringAngle degrees in magnitude, and throttle and brake are 0
    or 1.  When the steering held before lies in [-1, 1] and the frame
    time times the steering and return speeds is within [0, 1], the new
    steering lies between the old steering and the target: it does not
    overshoot. *)
Theorem X29_keyboard_steering (this : InputManager.t) (deltaTime : R) :
  let settings := this.(InputManager.steeringSettings) in
  this.(InputManager.gamepadIndex) = None ->
  0 <= settings.(InputManager.sensitivity) <= 1 ->
  0 <= settings.(InputManager.maxSteeringAngle) ->
  let this' := InputManager.update this deltaTime in
  let handed := InputManager.getControls this' in
  let target := this'.(InputManager.controls).(InputManager.steering) in
  -1 <= this'.(InputManager.currentSteering) <= 1
  /\ Rabs handed.(Controls.steeringAngle)
     <= settings.(InputManager.maxSteeringAngle) * PI / 180
  /\ (handed.(Controls.throttle) = 0 \/ handed.(Controls.throttle) = 1)
  /\ (handed.(Controls.brake) = 0 \/ handed.(Controls.brake) = 1)
  /\ (-1 <= this.(InputManager.currentSteering) <= 1 ->
      0 <= deltaTime * settings.(InputManager.steeringSpeed) <= 1 ->
      0 <= deltaTime * settings.(InputManager.returnSpeed) <= 1 ->
      Rmin this.(InputManager.currentSteering) target
      <= this'.(InputManager.currentSteering)
      <= Rmax this.(InputManager.currentSteering) target).
Proof.
  intros settings Hkeyboard Hs Hmax. cbv zeta.
  destruct (keyboard_target this Hs) as (Htarget & Hthrottle & Hbrake).
  cbv zeta in Htarget, Hthrottle, Hbrake.
  unfold InputManager.getControls, InputManager.update. rewrite Hkeyboard.
  cbv zeta.
  cbn [InputManager.controls InputManager.currentSteering
       InputManager.steeringSettings Controls.steeringAngle
       Controls.throttle Controls.brake].
  fold settings.
  set (target := (InputManager.keyboardControls this).(InputManager.steering))
    in *.
  set (current := this.(InputManager.currentSteering)).
  set (speed := if target =? 0 then _ else _).
  set (moved := current + (target - current) * speed * deltaTime).
  set (current' := if Math.abs (target - current) >? 0.001 then _ else _).
  assert (Hrange : -1 <= current' <= 1).
  { unfold current'. destruct (_ >? 0.001).
    - apply clamp_bounds. lra.
    - exact Htarget. }
  split; [ exact Hrange | ].
  split.
  { pose proof PI_RGT_0 as Hpi.
    set (M := InputManager.maxSteeringAngle settings) in *.
    assert (HM : 0 <= M * PI) by (apply Rmult_le_pos; lra).
    replace (current' * M * PI / 180) with (current' * (M * PI) / 180)
      by (unfold Rdiv; ring).
    apply Rabs_le. split; nra. }
  split; [ exact Hthrottle | ]. split; [ exact Hbrake | ].
  intros Hcurrent Hsteer Hreturn.
  assert (Hrate : 0 <= speed * deltaTime <= 1).
  { unfold speed. destruct (target =? 0); lra. }
  assert (Hmoved : Rmin current target <= moved <= Rmax current target).
  { unfold moved.
    replace (current + (target - current) * speed * deltaTime)
      with (current + (target - current) * (speed * deltaTime)) by ring.
    set (rate := speed * deltaTime) in *.
    unfold Rmin, Rmax. destruct (Rle_dec current target); nra. }
  assert (Hbetween : -1 <= Rmin current target
                     /\ Rmax current target <= 1).
  { unfold Rmin, Rmax. destruct (Rle_dec current target); lra. }
  unfold current'. destruct (_ >? 0.001).
  - unfold Math.max, Math.min.
    rewrite (Rmin_right 1 moved) by lra.
    rewrite Rmax_right by lra. exact Hmoved.
  - split; [ apply Rmin_r | apply Rmax_r ].
Qed.

(** The manager the constructor builds with the right key held, over one
    frame of 1/60 s. *)
Lemma X29_keyboard_steering_witness :
  -1 <= (InputManager.update
           (InputManager.onKeyDown InputManager.initial "KeyD")
           PHYSICS_CONFIG.timeStep).(InputManager.currentSteering) <= 1.
Proof.
  apply (X29_keyboard_steering
           (InputManager.onKeyDown InputManager.initial "KeyD")
           PHYSICS_CONFIG.timeStep).
  - reflexivity.
  - cbn. lra.
  - cbn. lra.
Defined.

(** * Tire selection *)

Lemma sqrt3_bounds : 1.7 < sqrt 3 < 1.8.
Proof.
  pose proof (sqrt_sqrt 3) as Hsq. pose proof (sqrt_pos 3) as Hpos.
  assert (Hthree : sqrt 3 * sqrt 3 = 3) by (apply Hsq; lra).
  split; nra.
Qed.

Lemma atan_sqrt3 : atan (sqrt 3) = PI / 3.
Proof.
  rewrite <- tan_PI3. apply atan_tan.
  pose proof PI_RGT_0. split; lra.
Qed.

Lemma cos_PI8_bound : 0.9 < cos (PI / 8).
Proof.
  pose proof PI_RGT_0 as Hpi.
  assert (Hpos : 0 < cos (PI / 8)) by (apply cos_gt_0; lra).
  pose proof (cos_2a_cos (PI / 8)) as Hdouble.
  replace (2 * (PI / 8)) with (PI / 4) in Hdouble by field.
  rewrite cos_PI4 in Hdouble.
  pose proof (sqrt_sqrt 2) as Hsq. pose proof (sqrt_pos 2) as Hroot.
  assert (Htwo : sqrt 2 * sqrt 2 = 2) by (apply Hsq; lra).
  assert (Hq : 0 < sqrt 2 < 1.42) by (split; nra).
  assert (Hinv : 0.7 < 1 / sqrt 2).
  { apply Rmult_lt_reg_r with (sqrt 2); [ lra | ].
    unfold Rdiv. rewrite Rmult_assoc, Rinv_l by lra. lra. }
  nra.
Qed.

(** Just below its peak the Magic Formula of the street tire exceeds 90%
    of the peak factor: at B x slip = sqrt 3. *)
Lemma street_formula_near_peak :
  0.9 < sin (1.5 * atan (sqrt 3 - 0.97 * (sqrt 3 - atan (sqrt 3)))).
Proof.
  pose proof PI_RGT_0 as Hpi. pose proof PI_4 as Hpi4.
  pose proof PI2_3_2 as Hpi3. pose proof sqrt3_bounds as Hr.
  rewrite atan_sqrt3.
  set (arg := sqrt 3 - 0.97 * (sqrt 3 - PI / 3)).
  assert (Harg : 1 < arg < sqrt 3) by (unfold arg; split; lra).
  assert (Hlow : PI / 4 < atan arg).
  { rewrite <- atan_1. apply atan_increasing. lra. }
  assert (Hhigh : atan arg < PI / 3).
  { rewrite <- atan_sqrt3. apply atan_increasing. lra. }
  apply Rlt_trans with (1 := cos_PI8_bound).
  rewrite <- (sin_shift (PI / 8)).
  apply sin_increasing_1; lra.
Qed.

Lemma race_tire_street_car :
  (RacingSimulation.setTireType RacingSimulation.RX8_SETUP RX8_CONFIG "race")
    .(tire)
  = RacingSimulation.withPeakMu RX8_CONFIG.(tire) 1.03.
Proof.
  unfold RacingSimulation.setTireType.
  cbn [String.eqb Ascii.eqb Bool.eqb RacingSimulation.maxLateralGRace
       RacingSimulation.RX8_SETUP].
  destruct (Reqb_spec 1.03 0) as [ Hzero | _ ]; [ lra | reflexivity ].
Qed.

(** X30: tire selection and the friction circle.  The sport tire, and
    the race tire on a car without [maxLateralGRace], raise peakMu by 5%
    and 10%, so a tire whose peak factor D did not exceed peakMu keeps
    the friction circle.  On the street car the race tire sets peakMu to
    1.03, below the peak factor 1.15 it leaves in place, and the
    friction circle no longer holds: at the nominal load of 9.81 x 250 N
    and a lateral slip of sqrt 3 / 10 the force exceeds
    peakMu x load x loadFactor. *)
Theorem X30_tire_selection :
  (forall (setup : RacingSimulation.SetupData) (config : VehicleConfig)
          (type : string) (slipLateral slipLongitudinal load : R),
     type = "sport"%string
     \/ (type = "race"%string
         /\ setup.(RacingSimulation.maxLateralGRace) = None) ->
     0 <= config.(tire).(pacejka).(D) <= config.(tire).(peakMu) ->
     0 <= load ->
     let tire' := (RacingSimulation.setTireType setup config type).(tire) in
     config.(tire).(peakMu) <= tire'.(peakMu)
     /\ forceMagnitude
          (value (TireModel.calculateCombinedForce slipLateral
                    slipLongitudinal load tire'))
        <= tire'.(peakMu) * load
           * Math.pow (load / (9.81 * 250)) tire'.(loadSensitivity))
  /\ (let tire' :=
        (RacingSimulation.setTireType RacingSimulation.RX8_SETUP RX8_CONFIG
           "race").(tire) in
      let load := 9.81 * 250 in
      tire'.(peakMu) = 1.03
      /\ tire'.(pacejka).(D) = 1.15
      /\ tire'.(peakMu) * load
         * Math.pow (load / (9.81 * 250)) tire'.(loadSensitivity)
         < forceMagnitude
             (value (TireModel.calculateCombinedForce (sqrt 3 / 10) 0 load
                       tire'))).
Proof.
  split.
  - intros setup config type slipLateral slipLongitudinal load Htype HD Hload.
    cbv zeta.
    assert (Hmu :
      config.(tire).(peakMu)
      <= (RacingSimulation.setTireType setup config type).(tire).(peakMu)
      /\ (RacingSimulation.setTireType setup config type).(tire).(pacejka)
         = config.(tire).(pacejka)).
    { unfold RacingSimulation.setTireType.
      destruct Htype as [ -> | [-> Hnone] ].
      - cbn [String.eqb Ascii.eqb Bool.eqb RacingSimulation.withTire tire
             RacingSimulation.withPeakMu peakMu pacejka].
        split; [ lra | reflexivity ].
      - rewrite Hnone.
        cbn [String.eqb Ascii.eqb Bool.eqb RacingSimulation.withTire tire
             RacingSimulation.withPeakMu peakMu pacejka].
        split; [ lra | reflexivity ]. }
    destruct Hmu as [Hmu Hpacejka].
    split; [ exact Hmu | ].
    apply friction_circle; [ | exact Hload ].
    rewrite Hpacejka. lra.
  - cbv zeta. rewrite race_tire_street_car.
    cbn [RacingSimulation.withPeakMu peakMu pacejka loadSensitivity
         RX8_CONFIG tire D].
    split; [ reflexivity | ]. split; [ reflexivity | ].
    pose proof sqrt3_bounds as Hr.
    assert (Hlarge : ~ slipNorm (sqrt 3 / 10) 0 < 0.001).
    { rewrite slipNorm_axis, Rabs_pos_eq; lra. }
    rewrite (combinedForce_magnitude _ _ _ _ Hlarge).
    rewrite slipNorm_axis, (Rabs_pos_eq (sqrt 3 / 10)) by lra.
    rewrite calculateForce_value.
    cbn [RacingSimulation.withPeakMu pacejka B C D E loadSensitivity].
    replace (9.81 * 250 / (9.81 * 250)) with 1 by (field; lra).
    assert (Hone : Math.pow 1 0.8 = 1).
    { unfold Math.pow. destruct (Rltb_spec 0 1) as [ _ | Hno ]; [ | lra ].
      unfold Rpower. rewrite ln_1, Rmult_0_r. apply exp_0. }
    rewrite Hone.
    replace (10 * (sqrt 3 / 10)) with (sqrt 3) by field.
    pose proof street_formula_near_peak as Hsin.
    set (s := sin _) in *.
    rewrite Rabs_pos_eq by nra.
    nra.
Qed.

(** The sport tire on the street car, sliding sideways and braking. *)
Lemma X30_tire_selection_witness :
  RX8_CONFIG.(tire).(peakMu)
  <= (RacingSimulation.setTireType RacingSimulation.RX8_SETUP RX8_CONFIG
        "sport").(tire).(peakMu)
  /\ forceMagnitude
       (value (TireModel.calculateCombinedForce 0.1 (-0.2) 3408.975
                 (RacingSimulation.setTireType RacingSimulation.RX8_SETUP
                    RX8_CONFIG "sport").(tire)))
     <= (RacingSimulation.setTireType RacingSimulation.RX8_SETUP RX8_CONFIG
           "sport").(tire).(peakMu) * 3408.975
        * Math.pow (3408.975 / (9.81 * 250))
            (RacingSimulation.setTireType RacingSimulation.RX8_SETUP
               RX8_CONFIG "sport").(tire).(loadSensitivity).
Proof.
  apply (proj1 X30_tire_selection RacingSimulation.RX8_SETUP RX8_CONFIG
           "sport"%string 0.1 (-0.2) 3408.975).
  - left. reflexivity.
  - cbn. lra.
  - lra.
Defined.

(** * Instances *)

(** The spinning wheel of the street car at 10 m/s: its one division is
    by the wheel's linear speed, 32.3 m/s. *)
Lemma X3_slip_ratio_denominators_witness : 0.1 <= Rabs (100 * 0.323).
Proof.
  apply (X3_slip_ratio_denominators 100 10 0.323 false "slipRatio"%string).
  unfold TireModel.calculateSlipRatio, Math.abs. cbv zeta.
  rewrite (Rabs_pos_eq 10), (Rabs_pos_eq (100 * 0.323)) by lra.
  destruct (Rltb_spec 10 0.1) as [ Hlt | _ ]; [ lra | ].
  destruct (Rltb_spec (100 * 0.323) 0.1) as [ Hlt | _ ]; [ lra | ].
  destruct (Rltb_spec (100 * 0.323) 10) as [ Hlt | _ ]; [ lra | ].
  cbn. left. reflexivity.
Defined.

(** The street car at 0.5 g lateral and 0.3 g longitudinal. *)
Lemma X10_combined_clamp_adds_load_witness :
  RX8_CONFIG.(mass) * PHYSICS_CONFIG.gravity
  * (RX8_CONFIG.(weightDistribution).(front)
     + RX8_CONFIG.(weightDistribution).(rear))
  <= totalLoad (WeightTransfer.calculateCombined RX8_CONFIG 0.5 0.3 0 0).
Proof.
  apply (X10_combined_clamp_adds_load RX8_CONFIG 0.5 0.3 0 0).
Defined.

(** The street car at full throttle in first gear: from idle the
    drive force is the extrapolated torque through the first gear. *)
Lemma X21_drive_force_defined_witness :
  exists torque ratio : R,
    VehicleDynamics.getEngineTorque RX8_launch = Some torque
    /\ lookup RX8_CONFIG.(gearRatios) (1 - 1) = Some ratio
    /\ VehicleDynamics.calculateDriveForce RX8_launch
       = Some (torque * ratio * RX8_CONFIG.(finalDrive)
               / RX8_CONFIG.(tire).(radius) * 1).
Proof.
  apply (proj2 (X21_drive_force_defined RX8_launch)).
  exact RX8_launch_drivable.
Defined.
